(** * pygsheets.grid_range: cell addresses and grid ranges

    A shallow embedding of [src/pygsheets/grid_range.py].

    Python integers are unbounded, so coordinates are [Z]; an absent
    coordinate ([None]) is [option]'s [None].  Strings are [string]s over
    the characters with code points below 256; in that range the regular
    expression class [\d] is exactly ['0'..'9'].  Exceptions are values of
    [exn]; methods of [GridRange] run in a state-and-exception monad whose
    state holds the object's fields and the store of [Address] objects the
    fields refer to, so that mutation made before a [raise] stays visible
    and two fields naming one [Address] object are seen as such. *)

From Stdlib Require Import ZArith Lia Ascii String.
From stdpp Require Import base option list strings gmap.

Local Open Scope string_scope.
Local Open Scope Z_scope.

(** ** Exceptions and results *)

Inductive exn : Type :=
  | InvalidArgumentValue   (* pygsheets.exceptions.InvalidArgumentValue *)
  | IncorrectCellLabel     (* pygsheets.exceptions.IncorrectCellLabel *)
  | AssertionError         (* a failed [assert] *)
  | NotImplementedError
  | TypeError              (* arithmetic or comparison on [None] *)
  | AttributeError         (* a string method called on [None] *)
  | IndexError             (* a list index out of range *)
  | KeyError               (* a missing dictionary key *)
  | PlainException         (* [raise Exception(...)] *)
  (* The last two are no Python exceptions; they mark runs that the source
     cannot have. *)
  | Diverges               (* the loop budget of the model ran out; see
                              [column_loop_terminates] *)
  | Dangling.              (* a reference to no stored object *)

Inductive result (A : Type) : Type :=
  | Ok (a : A)
  | Raise (e : exn).
Arguments Ok {A} a.
Arguments Raise {A} e.

Definition rbind {A B} (r : result A) (k : A -> result B) : result B :=
  match r with
  | Ok a => k a
  | Raise e => Raise e
  end.

Declare Scope result_scope.
Delimit Scope result_scope with res.
Notation "x <-- r ;; k" := (rbind r (fun x => k))
  (at level 100, r at next level, right associativity) : result_scope.
Notation "r ;;; k" := (rbind r (fun _ => k))
  (at level 100, right associativity) : result_scope.

(** ** Python builtins on characters, strings and integers

    [str] and [int] are the conversions of the language: the limit that
    recent CPython versions put on the number of digits of a conversion is
    not modelled. *)

Module Py.

Definition ord (c : ascii) : Z := Z.of_N (N_of_ascii c).
Definition chr (n : Z) : ascii := ascii_of_N (Z.to_N n).

(** Truthiness of an [int]-or-[None] value: [None] and [0] are falsy. *)
Definition truthy (v : option Z) : bool :=
  match v with
  | Some n => negb (n =? 0)
  | None => false
  end.

Definition is_none {A} (v : option A) : bool :=
  match v with
  | Some _ => false
  | None => true
  end.

(** [bool(s)] for a string. *)
Definition nonempty (s : string) : bool :=
  match s with
  | EmptyString => false
  | String _ _ => true
  end.

(** The character classes [[A-Za-z]] and [\d]. *)
Definition is_alpha (c : ascii) : bool :=
  ((65 <=? ord c) && (ord c <=? 90)) || ((97 <=? ord c) && (ord c <=? 122)).
Definition is_digit (c : ascii) : bool :=
  (48 <=? ord c) && (ord c <=? 57).

(** A greedy starred character class: the longest prefix in the class,
    and what follows it. *)
Fixpoint span (p : ascii -> bool) (s : string) : string * string :=
  match s with
  | EmptyString => (EmptyString, EmptyString)
  | String c s' =>
      if p c then let '(a, b) := span p s' in (String c a, b)
      else (EmptyString, s)
  end.

(** [re.match] of the label pattern: a group of zero or more letters
    [A-Za-z] followed by a group of zero or more digits.  Both groups may
    be empty, so the match always succeeds; it is not anchored at the
    end.  The result is [Some (group 1, group 2)]. *)
Definition re_match_label (label : string) : option (string * string) :=
  let '(g1, rest) := span is_alpha label in
  let '(g2, _) := span is_digit rest in
  Some (g1, g2).

Definition upper_char (c : ascii) : ascii :=
  if (97 <=? ord c) && (ord c <=? 122) then chr (ord c - 32) else c.

(** [s.upper()], on the ASCII letters (all that group 1 can hold). *)
Fixpoint upper (s : string) : string :=
  match s with
  | EmptyString => EmptyString
  | String c s' => String (upper_char c) (upper s')
  end.

Fixpoint chars (s : string) : list ascii :=
  match s with
  | EmptyString => []
  | String c s' => c :: chars s'
  end.

(** [str(n)] for an integer: decimal digits, most significant first. *)
Fixpoint digits_loop (fuel : nat) (n : Z) (acc : string) : string :=
  let acc' := String (chr (48 + n mod 10)) acc in
  match fuel with
  | O => acc'
  | S f => if n / 10 =? 0 then acc' else digits_loop f (n / 10) acc'
  end.

Definition bits (n : Z) : nat := S (Z.to_nat (Z.log2 n)).

Definition str (n : Z) : string :=
  if n <? 0 then String "-" (digits_loop (bits (- n)) (- n) "")
  else digits_loop (bits n) n "".

(** [int(s)] for a string of decimal digits. *)
Fixpoint int_loop (s : string) (acc : Z) : Z :=
  match s with
  | EmptyString => acc
  | String c s' => int_loop s' (10 * acc + (ord c - 48))
  end.
Definition int (s : string) : Z := int_loop s 0.

(** [s.split(sep)] for a one-character separator. *)
Fixpoint split (sep : ascii) (s : string) : list string :=
  match s with
  | EmptyString => [EmptyString]
  | String c s' =>
      if Ascii.eqb c sep then EmptyString :: split sep s'
      else match split sep s' with
           | [] => [String c EmptyString]
           | x :: xs => String c x :: xs
           end
  end.

(** [sep in s] for a one-character [sep]. *)
Fixpoint contains (sep : ascii) (s : string) : bool :=
  match s with
  | EmptyString => false
  | String c s' => Ascii.eqb c sep || contains sep s'
  end.

(** [l[i]] on a list. *)
Definition index {A} (l : list A) (i : nat) : result A :=
  match l !! i with
  | Some x => Ok x
  | None => Raise IndexError
  end.

End Py.

(** ** class Address *)

Module Address.

(** An [Address] object: the coordinate tuple [(row, col)] and the flag
    given at construction. *)
Record t : Type := mk {
  _value : option Z * option Z;
  allow_non_single : bool
}.

Definition _MAGIC_NUMBER : Z := 64.

Definition row (self : t) : option Z := fst (_value self).
Definition col (self : t) : option Z := snd (_value self).

(** [self[item]] for [item] 0 or 1. *)
Definition __getitem__ (self : t) (item : nat) : option Z :=
  match item with
  | O => row self
  | _ => col self
  end.

(** [self[key] = value] for [key] 0 or 1: rebuilds the tuple, no
    validation. *)
Definition __setitem__ (self : t) (key : nat) (value : option Z) : t :=
  match key with
  | O => mk (value, col self) (allow_non_single self)
  | _ => mk (row self, value) (allow_non_single self)
  end.

Definition __bool__ (self : t) : bool :=
  negb (Py.is_none (row self) && Py.is_none (col self)).

Definition check_component (v : option Z) : result unit :=
  match v with
  | Some n =>
      if Py.truthy v then
        if n <? 1 then Raise InvalidArgumentValue else Ok tt
      else Ok tt
  | None => Ok tt
  end.

Definition _validate (self : t) : result unit :=
  (if negb (allow_non_single self)
      && (Py.is_none (row self) || Py.is_none (row self))
   then Raise InvalidArgumentValue
   else
     check_component (row self) ;;;
     check_component (col self))%res.

(** The [while div:] loop of [_value_as_label]. *)
Fixpoint column_loop (fuel : nat) (div : Z) (column_label : string)
  : option string :=
  if div =? 0 then Some column_label
  else
    match fuel with
    | O => None
    | S f =>
        let '(d, m) := (div / 26, div mod 26) in
        let '(d, m) := if m =? 0 then (d - 1, 26) else (d, m) in
        column_loop f d (String (Py.chr (m + _MAGIC_NUMBER)) column_label)
    end.

Definition _value_as_label (self : t) : result string :=
  (_validate self ;;;
   let row_label :=
     match row self with
     | Some r => if Py.truthy (row self) then Py.str r else ""
     | None => ""
     end in
   column_label <--
     match col self with
     | Some c =>
         if Py.truthy (col self) then
           match column_loop (Py.bits c) c "" with
           | Some s => Ok s
           | None => Raise Diverges
           end
         else Ok ""
     | None => Ok ""
     end ;;
   Ok (column_label +:+ row_label))%res.

Definition label (self : t) : result string := _value_as_label self.

(** The [for i, c in enumerate(reversed(column_label))] loop. *)
Fixpoint col_loop (rev_label : list ascii) (i : Z) (col : Z) : Z :=
  match rev_label with
  | [] => col
  | c :: rest =>
      col_loop rest (i + 1) (col + (Py.ord c - _MAGIC_NUMBER) * 26 ^ i)
  end.

Definition _label_to_coordinates (allow : bool) (label : string)
  : result (option Z * option Z) :=
  match Py.re_match_label label with
  | Some (g1, g2) =>
      let column_label := Py.upper g1 in
      let col :=
        if Py.nonempty column_label
        then Some (col_loop (rev (Py.chars column_label)) 0 0)
        else None in
      let row := if Py.nonempty g2 then Some (Py.int g2) else None in
      if negb allow && negb (Py.truthy row && Py.truthy col)
      then Raise IncorrectCellLabel
      else Ok (row, col)
  | None => Raise IncorrectCellLabel
  end.

(** The constructor's [value] argument, by the runtime type tests that
    [__init__] makes. *)
Inductive arg : Type :=
  | Str (s : string)                  (* a [str] *)
  | Tuple (r c : option Z)            (* a 2-tuple of [int] or [None] *)
  | BadTuple                          (* a tuple failing an [assert] *)
  | Addr (a : t)                      (* an [Address] *)
  | Falsy                             (* [None] or another falsy value *)
  | Other.                            (* any other truthy value *)

Definition __init__ (value : arg) (allow : bool) : result t :=
  match value with
  | Str s =>
      (v <-- _label_to_coordinates allow s ;; Ok (mk v allow))%res
  | Tuple r c =>
      let self := mk (r, c) allow in
      (_validate self ;;; Ok self)%res
  | BadTuple => Raise AssertionError
  | Addr a =>
      if negb (__bool__ a) && allow then
        let self := mk (None, None) allow in
        (_validate self ;;; Ok self)%res
      else
        (l <-- label a ;;
         v <-- _label_to_coordinates allow l ;;
         Ok (mk v allow))%res
  | Falsy =>
      if allow then
        let self := mk (None, None) allow in
        (_validate self ;;; Ok self)%res
      else Raise IncorrectCellLabel
  | Other => Raise IncorrectCellLabel
  end.

(** The right operand of [+] and [-]. *)
Inductive operand : Type :=
  | OTuple (r c : option Z)
  | OAddr (a : t)
  | OOther.

Definition operand_value (o : operand) : option (option Z * option Z) :=
  match o with
  | OTuple r c => Some (r, c)
  | OAddr a => Some (_value a)
  | OOther => None
  end.

Definition arith (op : Z -> Z -> Z) (x y : option Z) : result (option Z) :=
  match x, y with
  | Some a, Some b => Ok (Some (op a b))
  | _, _ => Raise TypeError
  end.

Definition __add__ (self : t) (other : operand) : result t :=
  match operand_value other with
  | Some (r, c) =>
      (r' <-- arith Z.add (row self) r ;;
       c' <-- arith Z.add (col self) c ;;
       __init__ (Tuple r' c') false)%res
  | None => Raise NotImplementedError
  end.

Definition __sub__ (self : t) (other : operand) : result t :=
  match operand_value other with
  | Some (r, c) =>
      (r' <-- arith Z.sub (row self) r ;;
       c' <-- arith Z.sub (col self) c ;;
       __init__ (Tuple r' c') false)%res
  | None => Raise NotImplementedError
  end.

(** The right operand of [==] and [!=]: an [Address], a string, or a
    tuple or list of two coordinates.  For any other object the method
    defers to [object.__eq__]; that case is left out. *)
Inductive comparand : Type :=
  | CAddr (a : t)
  | CStr (s : string)
  | CTuple (r c : option Z).

Definition __eq__ (self : t) (other : comparand) : result bool :=
  match other with
  | CAddr a =>
      (l1 <-- label self ;; l2 <-- label a ;; Ok (String.eqb l1 l2))%res
  | CStr s => (l1 <-- label self ;; Ok (String.eqb l1 s))%res
  | CTuple r c => Ok (bool_decide (_value self = (r, c)))
  end.

Definition __ne__ (self : t) (other : comparand) : result bool :=
  (b <-- __eq__ self other ;; Ok (negb b))%res.

End Address.

(** ** class GridRange *)

Module GridRange.

(** The attached worksheet, an external collaborator; only these four
    attributes are read.  A worksheet object is truthy. *)
Record Worksheet : Type := mkWorksheet {
  id : Z;
  title : string;
  rows : Z;
  cols : Z
}.

(** Wire JSON: a dictionary from field names to integers (or [None]). *)
Abbreviation json := (gmap string (option Z)).

(** References to [Address] objects. *)
Definition loc : Type := nat.

(** The fields of a [GridRange] object. *)
Record t : Type := mk {
  _worksheet_title : option string;
  _worksheet_id : option Z;
  _worksheet : option Worksheet;
  _label : option string;
  _start : loc;
  _end : loc
}.

(** The object together with the [Address] objects it can reach. *)
Record state : Type := mkState {
  store : list Address.t;
  self : t
}.

Definition M (A : Type) : Type := state -> result A * state.

Definition ret {A} (a : A) : M A := fun s => (Ok a, s).
Definition raise {A} (e : exn) : M A := fun s => (Raise e, s).
Definition bind {A B} (m : M A) (k : A -> M B) : M B :=
  fun s =>
    match m s with
    | (Ok a, s') => k a s'
    | (Raise e, s') => (Raise e, s')
    end.
Definition lift {A} (r : result A) : M A := fun s => (r, s).

Declare Scope gr_scope.
Delimit Scope gr_scope with gr.
Notation "x <-- r ;; k" := (bind r (fun x => k))
  (at level 100, r at next level, right associativity) : gr_scope.
Notation "r ;;; k" := (bind r (fun _ => k))
  (at level 100, right associativity) : gr_scope.
Local Open Scope gr_scope.

Definition get : M t := fun s => (Ok (self s), s).
Definition put (g : t) : M unit := fun s => (Ok tt, mkState (store s) g).

(** [Address(...)] evaluated to a new object. *)
Definition new (r : result Address.t) : M loc :=
  a <-- lift r ;;
  fun s => (Ok (length (store s)), mkState (store s ++ [a]) (self s)).

Definition deref (l : loc) : M Address.t :=
  fun s =>
    match store s !! l with
    | Some a => (Ok a, s)
    | None => (Raise Dangling, s)
    end.

(** [obj[key] = value] on the [Address] object at [l]. *)
Definition setitem (l : loc) (key : nat) (value : option Z) : M unit :=
  a <-- deref l ;;
  fun s =>
    (Ok tt, mkState (<[l := Address.__setitem__ a key value]> (store s))
                    (self s)).

Definition set_worksheet_title_field (v : option string) : M unit :=
  g <-- get ;;
  put (mk v (_worksheet_id g) (_worksheet g) (_label g) (_start g) (_end g)).
Definition set_worksheet_id_field (v : option Z) : M unit :=
  g <-- get ;;
  put (mk (_worksheet_title g) v (_worksheet g) (_label g) (_start g)
          (_end g)).
Definition set_worksheet_field (v : option Worksheet) : M unit :=
  g <-- get ;;
  put (mk (_worksheet_title g) (_worksheet_id g) v (_label g) (_start g)
          (_end g)).
Definition set_label_field (v : option string) : M unit :=
  g <-- get ;;
  put (mk (_worksheet_title g) (_worksheet_id g) (_worksheet g) v (_start g)
          (_end g)).
Definition set_start_field (l : loc) : M unit :=
  g <-- get ;;
  put (mk (_worksheet_title g) (_worksheet_id g) (_worksheet g) (_label g) l
          (_end g)).
Definition set_end_field (l : loc) : M unit :=
  g <-- get ;;
  put (mk (_worksheet_title g) (_worksheet_id g) (_worksheet g) (_label g)
          (_start g) l).

(** [self._start] and [self._end] as objects. *)
Definition start_obj : M Address.t := g <-- get ;; deref (_start g).
Definition end_obj : M Address.t := g <-- get ;; deref (_end g).

(** Property getters. *)
Definition worksheet_id : M (option Z) :=
  g <-- get ;;
  match _worksheet g with
  | Some ws => ret (Some (id ws))
  | None => ret (_worksheet_id g)
  end.

Definition worksheet_title : M (option string) :=
  g <-- get ;;
  match _worksheet g with
  | Some ws => ret (Some (title ws))
  | None => ret (_worksheet_title g)
  end.

Definition _calculate_label : M unit :=
  t0 <-- worksheet_title ;;
  let label := match t0 with Some l => l | None => "" end in
  s <-- start_obj ;;
  e <-- end_obj ;;
  label <--
    (if Address.__bool__ s && Address.__bool__ e then
       sl <-- lift (Address.label s) ;;
       el <-- lift (Address.label e) ;;
       ret (label +:+ "!" +:+ sl +:+ ":" +:+ el)
     else ret label) ;;
  set_label_field (Some label).

(** [assert a <= b] on two coordinates. *)
Definition assert_le (a b : option Z) : M unit :=
  match a, b with
  | Some x, Some y => if x <=? y then ret tt else raise AssertionError
  | _, _ => raise TypeError
  end.

(** The test that guards the [raise] of [_apply_index_constraints]. *)
Definition mismatch (s e : Address.t) : bool :=
  let s0 := Py.truthy (Address.__getitem__ s 0) in
  let e0 := Py.truthy (Address.__getitem__ e 0) in
  let s1 := Py.truthy (Address.__getitem__ s 1) in
  let e1 := Py.truthy (Address.__getitem__ e 1) in
  (s0 && negb e0) || (negb s0 && e0) || (s1 && negb e1) || (negb s1 && e1).

(** The first part of [_apply_index_constraints]: the propagation of
    unbound axes, for [based_on] equal to ['start'], to ['end'], or to
    anything else. *)
Definition normalize (based_on : string) : M unit :=
  g <-- get ;;
  s <-- start_obj ;;
  e <-- end_obj ;;
  if String.eqb based_on "start" then
    if negb (Address.__bool__ s) then
      if Address.__bool__ e then set_start_field (_end g) else ret tt
    else if Py.is_none (Address.__getitem__ s 0)
            || Py.is_none (Address.__getitem__ e 0) then
      setitem (_start g) 0 None ;;; setitem (_end g) 0 None
    else if Py.is_none (Address.__getitem__ s 1)
            || Py.is_none (Address.__getitem__ e 1) then
      setitem (_start g) 1 None ;;; setitem (_end g) 1 None
    else ret tt
  else if String.eqb based_on "end" then
    if negb (Address.__bool__ e) then
      if Address.__bool__ s then set_end_field (_start g) else ret tt
    else if Py.is_none (Address.__getitem__ e 0) then
      setitem (_start g) 0 None
    else if Py.is_none (Address.__getitem__ e 1) then
      setitem (_start g) 1 None
    else ret tt
  else ret tt.

(** The second part: the test for a remaining mismatch, with the
    collapse of the range before the [raise], then the order of start
    and end, then the label. *)
Definition check (based_on : string) : M unit :=
  g <-- get ;;
  s <-- start_obj ;;
  e <-- end_obj ;;
  if mismatch s e then
    (if String.eqb based_on "start"
     then set_start_field (_start g) ;;; set_end_field (_start g)
     else set_start_field (_end g) ;;; set_end_field (_end g)) ;;;
    raise InvalidArgumentValue
  else
    (if Address.__bool__ s && Address.__bool__ e then
       (if Py.truthy (Address.__getitem__ s 0)
        then assert_le (Address.__getitem__ s 0) (Address.__getitem__ e 0)
        else ret tt) ;;;
       (if Py.truthy (Address.__getitem__ s 1)
        then assert_le (Address.__getitem__ s 1) (Address.__getitem__ e 1)
        else ret tt)
     else ret tt) ;;;
    _calculate_label.

Definition _apply_index_constraints (based_on : string) : M unit :=
  s <-- start_obj ;;
  e <-- end_obj ;;
  if negb (Address.__bool__ s) && negb (Address.__bool__ e) then ret tt
  else
    normalize based_on ;;;
    check based_on.

(** Setter of the [worksheet_title] property. *)
Definition worksheet_title_set (value : option string) : M unit :=
  g <-- get ;;
  match _worksheet g with
  | Some ws =>
      if bool_decide (Some (title ws) = value) then ret tt
      else raise InvalidArgumentValue
  | None =>
      set_worksheet_title_field value ;;;
      _calculate_label
  end.

(** Setter of the [worksheet_id] property. *)
Definition worksheet_id_set (value : option Z) : M unit :=
  g <-- get ;;
  match _worksheet g with
  | Some ws =>
      if bool_decide (Some (id ws) = value) then ret tt
      else raise InvalidArgumentValue
  | None => set_worksheet_id_field value
  end.

Definition set_worksheet (value : Worksheet) : M unit :=
  set_worksheet_field (Some value) ;;;
  set_worksheet_id_field (Some (id value)) ;;;
  set_worksheet_title_field (Some (title value)) ;;;
  _calculate_label.

Definition _calculate_addresses : M unit :=
  g <-- get ;;
  match _label g with
  | None => raise AttributeError
  | Some label =>
      t0 <-- lift (Py.index (Py.split "!" label) 0) ;;
      worksheet_title_set (Some t0) ;;;
      s <-- new (Address.__init__ Address.Falsy true) ;;
      e <-- new (Address.__init__ Address.Falsy true) ;;
      set_start_field s ;;;
      set_end_field e ;;;
      (if (1 <? length (Py.split "!" label))%nat then
         rem <-- lift (Py.index (Py.split "!" label) 1) ;;
         if Py.contains ":" rem then
           s0 <-- lift (Py.index (Py.split ":" rem) 0) ;;
           s <-- new (Address.__init__ (Address.Str s0) true) ;;
           set_start_field s ;;;
           e0 <-- lift (Py.index (Py.split ":" rem) 1) ;;
           e <-- new (Address.__init__ (Address.Str e0) true) ;;
           set_end_field e
         else
           s <-- new (Address.__init__ (Address.Str rem) true) ;;
           set_start_field s
       else ret tt) ;;;
      _apply_index_constraints "start"
  end.

(** Setters of the [start], [end], [indexes] and [label] properties. *)
Definition start_set (value : Address.arg) : M unit :=
  s <-- new (Address.__init__ value true) ;;
  set_start_field s ;;;
  _apply_index_constraints "start" ;;;
  _calculate_label.

Definition end_set (value : Address.arg) : M unit :=
  e <-- new (Address.__init__ value true) ;;
  set_end_field e ;;;
  _apply_index_constraints "start" ;;;
  _calculate_label.

(** [value] is [None] when the argument is no tuple. *)
Definition indexes_set (value : option (Address.arg * Address.arg))
  : M unit :=
  match value with
  | None => raise InvalidArgumentValue
  | Some (v0, v1) =>
      s <-- new (Address.__init__ v0 true) ;;
      e <-- new (Address.__init__ v1 true) ;;
      set_start_field s ;;;
      set_end_field e ;;;
      _apply_index_constraints "start" ;;;
      _calculate_label
  end.

(** [value] is [None] when the argument is no string. *)
Definition label_set (value : option string) : M unit :=
  match value with
  | None => raise InvalidArgumentValue
  | Some v =>
      set_label_field (Some v) ;;;
      _calculate_addresses
  end.

(** [d.get(key, None)]. *)
Definition dict_get (d : json) (key : string) : option Z :=
  match d !! key with
  | Some v => v
  | None => None
  end.

Definition set_json (namedjson : json) : M unit :=
  (match namedjson !! "sheetId" with
   | Some v => worksheet_id_set v
   | None => ret tt
   end) ;;;
  let start_row_idx := dict_get namedjson "startRowIndex" in
  let end_row_idx := dict_get namedjson "endRowIndex" in
  let start_col_idx := dict_get namedjson "startColumnIndex" in
  let end_col_idx := dict_get namedjson "endColumnIndex" in
  let start_row_idx :=
    match start_row_idx with Some n => Some (n + 1) | None => None end in
  let start_col_idx :=
    match start_col_idx with Some n => Some (n + 1) | None => None end in
  s <-- new (Address.__init__ (Address.Tuple start_row_idx start_col_idx)
                              true) ;;
  set_start_field s ;;;
  e <-- new (Address.__init__ (Address.Tuple end_row_idx end_col_idx)
                              true) ;;
  set_end_field e ;;;
  _calculate_label.

Definition to_json : M json :=
  wid <-- worksheet_id ;;
  if Py.is_none wid then raise PlainException
  else
    _calculate_addresses ;;;
    wid <-- worksheet_id ;;
    s <-- start_obj ;;
    e <-- end_obj ;;
    let return_dict : json := {[ "sheetId" := wid ]} in
    return_dict <--
      (if Py.truthy (Address.__getitem__ s 0) then
         v <-- lift (Address.arith Z.sub (Address.__getitem__ s 0) (Some 1)) ;;
         ret (<[ "startRowIndex" := v ]> return_dict)
       else ret return_dict) ;;
    let return_dict :=
      if Py.truthy (Address.__getitem__ s 1)
      then <[ "startColumnIndex" := Address.__getitem__ s 0 ]> return_dict
      else return_dict in
    return_dict <--
      (if Py.truthy (Address.__getitem__ e 0) then
         v <-- lift (Address.arith Z.sub (Address.__getitem__ e 0) (Some 1)) ;;
         ret (<[ "endRowIndex" := v ]> return_dict)
       else ret return_dict) ;;
    let return_dict :=
      if Py.truthy (Address.__getitem__ e 1)
      then <[ "endColumnIndex" := Address.__getitem__ e 1 ]> return_dict
      else return_dict in
    ret return_dict.

(** [x if x else d]. *)
Definition or_default (x : option Z) (d : Z) : Z :=
  match x with
  | Some n => if Py.truthy x then n else d
  | None => d
  end.

Definition get_bounded_indexes : M (Address.t * Address.t) :=
  g <-- get ;;
  match _worksheet g with
  | None => raise InvalidArgumentValue
  | Some ws =>
      s <-- start_obj ;;
      e <-- end_obj ;;
      let '(start_r, start_c) :=
        if Address.__bool__ s then Address._value s else (None, None) in
      let '(end_r, end_c) :=
        if Address.__bool__ e then Address._value e else (None, None) in
      let start_r := or_default start_r 0 in
      let start_c := or_default start_c 0 in
      let end_r := or_default end_r (rows ws) in
      let end_c := or_default end_c (cols ws) in
      a <-- lift (Address.__init__
                    (Address.Tuple (Some start_r) (Some start_c)) false) ;;
      b <-- lift (Address.__init__
                    (Address.Tuple (Some end_r) (Some end_c)) false) ;;
      ret (a, b)
  end.

Definition extent (key : nat) : M Z :=
  p <-- get_bounded_indexes ;;
  let '(start, end_) := p in
  d <-- lift (Address.arith Z.sub (Address.__getitem__ end_ key)
                                 (Address.__getitem__ start key)) ;;
  v <-- lift (Address.arith Z.add d (Some 1)) ;;
  match v with
  | Some n => ret n
  | None => raise TypeError
  end.

Definition height : M Z := extent 0.
Definition width : M Z := extent 1.

(** The constructor.  It gives the object (with its store) when it
    returns, and the exception otherwise. *)
Definition __init__ (label : option string) (worksheet : option Worksheet)
  (start end_ : Address.arg) (worksheet_title : option string)
  (worksheet_id : option Z) (namedjson : option json) : result state :=
  (s <-- Address.__init__ start true ;;
   e <-- Address.__init__ end_ true ;;
   let st := mkState [s; e]
               (mk worksheet_title worksheet_id worksheet label 0%nat 1%nat) in
   let body :=
     match namedjson with
     | Some d =>
         if bool_decide (d = ∅) then None else Some (set_json d)
     | None => None
     end in
   let body :=
     match body with
     | Some b => b
     | None =>
         match label with
         | Some l =>
             if Py.nonempty l then _calculate_addresses
             else (_apply_index_constraints "start" ;;; _calculate_label)%gr
         | None => (_apply_index_constraints "start" ;;; _calculate_label)%gr
         end
     end in
   match body st with
   | (Ok _, st') => Ok st'
   | (Raise e, _) => Raise e
   end)%res.

(** The coordinates of [start] and [end] in a state. *)
Definition start_value (st : state) : option (option Z * option Z) :=
  Address._value <$> store st !! _start (self st).
Definition end_value (st : state) : option (option Z * option Z) :=
  Address._value <$> store st !! _end (self st).

(** The right operand of [==] on ranges: a GridRange or a string.  For
    any other object the method defers to [object.__eq__]; that case is
    left out. *)
Inductive comparand : Type :=
  | CRange (other : state)
  | CStr (s : string).

(** Equality reads the [label] attribute of both sides. *)
Definition __eq__ (st : state) (other : comparand) : bool :=
  match other with
  | CRange o => bool_decide (_label (self st) = _label (self o))
  | CStr s => bool_decide (_label (self st) = Some s)
  end.

Definition __ne__ (st : state) (other : comparand) : bool :=
  negb (__eq__ st other).

End GridRange.

(** ** Auxiliary notions for the proofs *)

(** Every character of [s] satisfies [p]. *)
Fixpoint all_chars (p : ascii -> bool) (s : string) : bool :=
  match s with
  | EmptyString => true
  | String c s' => p c && all_chars p s'
  end.

Definition is_upper (c : ascii) : bool :=
  (65 <=? Py.ord c) && (Py.ord c <=? 90).

(** [s + c] for a character [c]. *)
Definition snoc (s : string) (c : ascii) : string :=
  s +:+ String c EmptyString.

(** The column number of a label of capital letters. *)
Definition col_of (s : string) : Z :=
  Address.col_loop (rev (Py.chars s)) 0 0.

(** [a[key] = None] as a value. *)
Definition unbind (a : Address.t) (key : nat) : Address.t :=
  Address.__setitem__ a key None.

(** What [GridRange.normalize] leaves in [start] and [end], as a function
    of what they held; see [normalize_spec]. *)
Definition norm (based_on : string) (s e : Address.t) : Address.t * Address.t :=
  if String.eqb based_on "start" then
    if negb (Address.__bool__ s) then
      if Address.__bool__ e then (e, e) else (s, e)
    else if Py.is_none (Address.row s) || Py.is_none (Address.row e) then
      (unbind s 0, unbind e 0)
    else if Py.is_none (Address.col s) || Py.is_none (Address.col e) then
      (unbind s 1, unbind e 1)
    else (s, e)
  else if String.eqb based_on "end" then
    if negb (Address.__bool__ e) then
      if Address.__bool__ s then (s, s) else (s, e)
    else if Py.is_none (Address.row e) then (unbind s 0, e)
    else if Py.is_none (Address.col e) then (unbind s 1, e)
    else (s, e)
  else (s, e).

(** An [Address] as a [GridRange] makes them: unbound axes allowed, and
    accepted by [_validate]. *)
Definition made_by_range (a : Address.t) : Prop :=
  Address.allow_non_single a = true /\ Address._validate a = Ok tt.

(** A coordinate is absent or not zero. *)
Definition nonzero (v : option Z) : Prop :=
  match v with
  | Some n => n <> 0
  | None => True
  end.

(** A coordinate is absent or at least 1. *)
Definition coordinate_ok (v : option Z) : Prop :=
  match v with
  | Some n => 1 <= n
  | None => True
  end.

(** The state in which the constructor, given [start] and [end] as tuples
    and neither label nor JSON, runs constraint propagation. *)
Definition range_state (title : option string) (wid : option Z)
  (ws : option GridRange.Worksheet) (s e : option Z * option Z)
  : GridRange.state :=
  GridRange.mkState [Address.mk s true; Address.mk e true]
    (GridRange.mk title wid ws None 0%nat 1%nat).

(** Both coordinates are present on axis [key], and [s] is past [e]. *)
Definition past (s e : Address.t) (key : nat) : Prop :=
  match Address.__getitem__ s key, Address.__getitem__ e key with
  | Some x, Some y => y < x
  | _, _ => False
  end.

(** The columns that the round trip is to be tried on, with their
    letters. *)
Definition column_examples : list (Z * string) :=
  [(1, "A"); (26, "Z"); (27, "AA"); (52, "AZ"); (53, "BA"); (702, "ZZ");
   (703, "AAA")].

(** A worksheet titled Sheet1, of 100 rows and 26 columns. *)
Definition sheet1 : GridRange.Worksheet :=
  GridRange.mkWorksheet 0 "Sheet1" 100 26.

(** The wire JSON object of the round-trip example. *)
Definition example_json : gmap string (option Z) :=
  {[ "sheetId" := Some 0;
     "startRowIndex" := Some 0; "endRowIndex" := Some 3;
     "startColumnIndex" := Some 0; "endColumnIndex" := Some 3 ]}.

(** [GridRange()], then [set_json(namedjson)], then [to_json()]: what
    [to_json] returns. *)
Definition json_roundtrip (namedjson : gmap string (option Z))
  : result (gmap string (option Z)) :=
  (st <-- GridRange.__init__ None None Address.Falsy Address.Falsy
            None None None ;;
   match GridRange.set_json namedjson st with
   | (Ok _, st1) => fst (GridRange.to_json st1)
   | (Raise x, _) => Raise x
   end)%res.

(** [Address(value).tuple], with the default [allow_non_single=False]. *)
Definition address_tuple (value : Address.arg)
  : result (option Z * option Z) :=
  (a <-- Address.__init__ value false ;; Ok (Address._value a))%res.

(** The first digit, if there is one, is not 0. *)
Definition no_leading_zero (s : string) : bool :=
  match s with
  | EmptyString => true
  | String c _ => negb (Ascii.eqb c "0")
  end.

(** [a] and [b] are the same character, or the same letter of A-Z, one
    of them in upper case and the other in lower case. *)
Definition same_letter (a b : ascii) : bool :=
  Ascii.eqb a b
  || (is_upper a && (Py.ord b =? Py.ord a + 32))
  || (is_upper b && (Py.ord a =? Py.ord b + 32)).

(** [s] and [t] have the same length and agree character by character,
    but for the case of the letters A-Z.  Every other character, the
    letters outside A-Z included, has to be the same in both. *)
Fixpoint same_but_case (s t : string) : bool :=
  match s, t with
  | EmptyString, EmptyString => true
  | String a s', String b t' => same_letter a b && same_but_case s' t'
  | _, _ => false
  end.

(** A coordinate is absent or not negative. *)
Definition coordinate_nonneg (v : option Z) : Prop :=
  match v with
  | Some n => 0 <= n
  | None => True
  end.

(** On every axis where [s] is bound (and not zero), [e] is bound and not
    before [s]. *)
Definition ordered (s e : Address.t) : Prop :=
  forall (key : nat) (x : Z),
    Address.__getitem__ s key = Some x -> x <> 0 ->
    exists y, Address.__getitem__ e key = Some y /\ x <= y.

(** On no axis is the coordinate truthy (present and not 0) at one end of
    the range and not at the other, and start is not past end in the sense
    of [ordered].  A coordinate of 0 counts as not truthy, as in the code:
    start (None, 0) with end (None, None) is consistent. *)
Definition consistent (st : GridRange.state) : Prop :=
  exists s e,
    GridRange.store st !! GridRange._start (GridRange.self st) = Some s
    /\ GridRange.store st !! GridRange._end (GridRange.self st) = Some e
    /\ GridRange.mismatch s e = false
    /\ ordered s e.

(** Every Address object of the store is one a GridRange makes. *)
Definition valid_store (st : GridRange.state) : Prop :=
  Forall made_by_range (GridRange.store st).

(** Two states differ in the label at most. *)
Definition same_but_label (st st' : GridRange.state) : Prop :=
  GridRange.store st' = GridRange.store st
  /\ GridRange._start (GridRange.self st') = GridRange._start (GridRange.self st)
  /\ GridRange._end (GridRange.self st') = GridRange._end (GridRange.self st)
  /\ GridRange._worksheet (GridRange.self st')
     = GridRange._worksheet (GridRange.self st)
  /\ GridRange._worksheet_title (GridRange.self st')
     = GridRange._worksheet_title (GridRange.self st)
  /\ GridRange._worksheet_id (GridRange.self st')
     = GridRange._worksheet_id (GridRange.self st).

(** A computation keeps the store valid, whether it returns or raises. *)
Definition keeps {A} (m : GridRange.M A) : Prop :=
  forall st, valid_store st -> valid_store (snd (m st)).

(** * Characters and strings *)

Section Strings.

Lemma ord_range (c : ascii) : 0 <= Py.ord c < 256.
Proof.
  unfold Py.ord. pose proof (N_ascii_bounded c). lia.
Qed.

Lemma ord_chr (n : Z) : 0 <= n < 256 -> Py.ord (Py.chr n) = n.
Proof.
  intros Hn. unfold Py.ord, Py.chr.
  rewrite N_ascii_embedding by lia. lia.
Qed.

Lemma app_nil (t : string) : "" +:+ t = t.
Proof. reflexivity. Qed.

Lemma app_cons (c : ascii) (s t : string) :
  String c s +:+ t = String c (s +:+ t).
Proof. reflexivity. Qed.

Lemma app_empty_r (s : string) : s +:+ "" = s.
Proof.
  induction s as [|c s IH]; [reflexivity |]. now rewrite app_cons, IH.
Qed.

Lemma app_assoc (a b c : string) : (a +:+ b) +:+ c = a +:+ (b +:+ c).
Proof.
  induction a as [|x a IH]; [reflexivity |]. now rewrite !app_cons, IH.
Qed.

Lemma chars_app (a b : string) :
  Py.chars (a +:+ b) = (Py.chars a ++ Py.chars b)%list.
Proof.
  induction a as [|x a IH]; [reflexivity |].
  rewrite app_cons. simpl. now rewrite IH.
Qed.

Lemma all_chars_app p (a b : string) :
  all_chars p (a +:+ b) = all_chars p a && all_chars p b.
Proof.
  induction a as [|x a IH]; [reflexivity |].
  rewrite app_cons. simpl. rewrite IH. now rewrite andb_assoc.
Qed.

Lemma all_chars_impl (p q : ascii -> bool) (s : string) :
  (forall c, p c = true -> q c = true) ->
  all_chars p s = true -> all_chars q s = true.
Proof.
  intros Hpq. induction s as [|c s IH]; simpl; [easy |].
  intros [Hc Hs]%andb_true_iff. rewrite (Hpq _ Hc). simpl. auto.
Qed.

(** A greedy class takes a whole string of the class ... *)
Lemma span_app p (a b : string) :
  all_chars p a = true ->
  Py.span p (a +:+ b) = (a +:+ fst (Py.span p b), snd (Py.span p b)).
Proof.
  induction a as [|x a IH].
  - intros _. rewrite !app_nil. now destruct (Py.span p b).
  - rewrite !app_cons. simpl.
    intros [Hx Ha]%andb_true_iff. rewrite Hx, (IH Ha). reflexivity.
Qed.

Lemma span_all p (s : string) :
  all_chars p s = true -> Py.span p s = (s, "").
Proof.
  intros H. rewrite <- (app_empty_r s) at 1.
  rewrite (span_app p s "" H). simpl. now rewrite app_empty_r.
Qed.

(** ... and nothing of a string of another class. *)
Lemma span_none p q (s : string) :
  (forall c, q c = true -> p c = false) ->
  all_chars q s = true -> Py.span p s = ("", s).
Proof.
  intros Hqp. destruct s as [|c s]; simpl; [reflexivity |].
  intros [Hc _]%andb_true_iff. now rewrite (Hqp _ Hc).
Qed.

Lemma digit_not_alpha (c : ascii) :
  Py.is_digit c = true -> Py.is_alpha c = false.
Proof. unfold Py.is_digit, Py.is_alpha. lia. Qed.

Lemma upper_is_alpha (c : ascii) : is_upper c = true -> Py.is_alpha c = true.
Proof. unfold is_upper, Py.is_alpha. lia. Qed.

Lemma upper_of_upper (s : string) :
  all_chars is_upper s = true -> Py.upper s = s.
Proof.
  induction s as [|c s IH]; simpl; [reflexivity |].
  intros [Hc Hs]%andb_true_iff. rewrite (IH Hs). f_equal.
  unfold Py.upper_char, is_upper in *.
  destruct ((97 <=? Py.ord c) && (Py.ord c <=? 122)) eqn:E; [lia | reflexivity].
Qed.

Lemma nonempty_snoc (s : string) (c : ascii) : Py.nonempty (snoc s c) = true.
Proof. now destruct s. Qed.

End Strings.

(** * Decimal numerals: [str] and [int] *)

Section Decimal.

Lemma int_loop_app (a b : string) (acc : Z) :
  Py.int_loop (a +:+ b) acc = Py.int_loop b (Py.int_loop a acc).
Proof.
  revert acc. induction a as [|x a IH]; intros acc; [reflexivity |].
  rewrite app_cons. simpl. apply IH.
Qed.

Lemma digits_loop_app (fuel : nat) :
  forall n acc,
    Py.digits_loop fuel n acc = Py.digits_loop fuel n "" +:+ acc.
Proof.
  induction fuel as [|f IH]; intros n acc; simpl; [reflexivity |].
  destruct (n / 10 =? 0); [reflexivity |].
  rewrite (IH _ (String _ acc)), (IH _ (String _ "")).
  now rewrite app_assoc.
Qed.

Lemma digit_char (n : Z) :
  0 <= n ->
  Py.is_digit (Py.chr (48 + n mod 10)) = true
  /\ Py.ord (Py.chr (48 + n mod 10)) - 48 = n mod 10.
Proof.
  intros Hn. pose proof (Z.mod_pos_bound n 10 ltac:(lia)) as Hm.
  unfold Py.is_digit. rewrite ord_chr by lia. lia.
Qed.

(** With enough fuel, the digits of [n] are digits, there is at least one,
    and [int] reads [n] back. *)
Lemma digits_loop_spec (fuel : nat) :
  forall n, 0 <= n < 2 ^ Z.of_nat fuel ->
    all_chars Py.is_digit (Py.digits_loop fuel n "") = true
    /\ Py.nonempty (Py.digits_loop fuel n "") = true
    /\ Py.int (Py.digits_loop fuel n "") = n.
Proof.
  assert (Hone : forall n, 0 <= n -> n / 10 = 0 ->
    all_chars Py.is_digit (String (Py.chr (48 + n mod 10)) "") = true
    /\ Py.nonempty (String (Py.chr (48 + n mod 10)) "") = true
    /\ Py.int (String (Py.chr (48 + n mod 10)) "") = n).
  { intros n Hn Hq. destruct (digit_char n Hn) as [Hd Ho].
    unfold Py.int. simpl. rewrite Hd, Ho. repeat split.
    pose proof (Z.div_mod n 10 ltac:(lia)). lia. }
  induction fuel as [|f IH]; intros n Hn.
  - simpl in *. apply Hone; [lia |].
    assert (n = 0) as -> by lia. reflexivity.
  - simpl. destruct (n / 10 =? 0) eqn:Hq.
    + apply Hone; lia.
    + rewrite digits_loop_app.
      assert (Hn' : 0 <= n / 10 < 2 ^ Z.of_nat f).
      { rewrite Nat2Z.inj_succ, Z.pow_succ_r in Hn by lia.
        split; [apply Z.div_pos; lia |].
        apply Z.div_lt_upper_bound; lia. }
      destruct (IH _ Hn') as (Hall & Hne & Hint).
      destruct (digit_char n ltac:(lia)) as [Hd Ho].
      rewrite all_chars_app, Hall. simpl. rewrite Hd.
      repeat split.
      * now destruct (Py.digits_loop f (n / 10) "").
      * unfold Py.int in *. rewrite int_loop_app, Hint. simpl.
        rewrite Ho. pose proof (Z.div_mod n 10 ltac:(lia)). lia.
Qed.

Lemma bits_bound (n : Z) : 0 <= n -> n < 2 ^ Z.of_nat (Py.bits n).
Proof.
  intros Hn. unfold Py.bits.
  rewrite Nat2Z.inj_succ, Z2Nat.id by apply Z.log2_nonneg.
  destruct (Z.eq_dec n 0) as [-> | Hne]; [reflexivity |].
  apply Z.log2_spec. lia.
Qed.

Lemma str_spec (n : Z) :
  0 <= n ->
  all_chars Py.is_digit (Py.str n) = true
  /\ Py.nonempty (Py.str n) = true
  /\ Py.int (Py.str n) = n.
Proof.
  intros Hn. unfold Py.str.
  destruct (n <? 0) eqn:E; [lia |].
  apply digits_loop_spec. split; [lia | now apply bits_bound].
Qed.

End Decimal.

(** * Column letters: bijective base 26 *)

Section Columns.

Lemma col_loop_shift (l : list ascii) :
  forall i a, 0 <= i ->
    Address.col_loop l i a = a + 26 ^ i * Address.col_loop l 0 0.
Proof.
  induction l as [|c l IH]; intros i a Hi; simpl; [lia |].
  rewrite (IH (i + 1)) by lia. rewrite (IH (0 + 1)) by lia.
  rewrite Z.pow_add_r by lia. simpl (26 ^ 0). lia.
Qed.

Lemma col_of_snoc (s : string) (c : ascii) :
  col_of (snoc s c)
  = (Py.ord c - Address._MAGIC_NUMBER) + 26 * col_of s.
Proof.
  unfold col_of, snoc. rewrite chars_app, rev_app_distr. simpl.
  rewrite col_loop_shift by lia. change (26 ^ (0 + 1)) with 26. lia.
Qed.

Lemma column_loop_app (fuel : nat) :
  forall d acc,
    Address.column_loop fuel d acc
    = (fun s => s +:+ acc) <$> Address.column_loop fuel d "".
Proof.
  induction fuel as [|f IH]; intros d acc; simpl.
  - destruct (d =? 0); reflexivity.
  - destruct (d =? 0); [reflexivity |].
    destruct (d mod 26 =? 0).
    + rewrite (IH _ (String _ acc)), (IH _ (String _ "")).
      destruct (Address.column_loop f (d / 26 - 1) ""); simpl; [|reflexivity].
      now rewrite app_assoc.
    + rewrite (IH _ (String _ acc)), (IH _ (String _ "")).
      destruct (Address.column_loop f (d / 26) ""); simpl; [|reflexivity].
      now rewrite app_assoc.
Qed.

(** The [while] loop ends within its budget, and gives capital letters
    whose value is the column. *)
Lemma column_loop_spec (fuel : nat) :
  forall d, 0 <= d < 2 ^ Z.of_nat fuel ->
    exists s,
      Address.column_loop fuel d "" = Some s
      /\ all_chars is_upper s = true
      /\ col_of s = d
      /\ (d <> 0 -> Py.nonempty s = true).
Proof.
  induction fuel as [|f IH]; intros d Hd.
  - assert (d = 0) as -> by (simpl in Hd; lia).
    exists "". repeat split; easy.
  - simpl. destruct (d =? 0) eqn:Hz.
    { exists "". assert (d = 0) as -> by lia. repeat split; easy. }
    rewrite Nat2Z.inj_succ, Z.pow_succ_r in Hd by lia.
    pose proof (Z.div_mod d 26 ltac:(lia)) as Hdm.
    pose proof (Z.mod_pos_bound d 26 ltac:(lia)) as Hmb.
    assert (Hq : 0 <= d / 26 < 2 ^ Z.of_nat f).
    { split; [apply Z.div_pos; lia | apply Z.div_lt_upper_bound; lia]. }
    destruct (d mod 26 =? 0) eqn:Hm.
    + destruct (IH (d / 26 - 1) ltac:(lia)) as (s & Hs & Hup & Hcol & _).
      exists (snoc s (Py.chr (26 + Address._MAGIC_NUMBER))).
      rewrite column_loop_app, Hs. repeat split.
      * unfold snoc. rewrite all_chars_app, Hup. reflexivity.
      * rewrite col_of_snoc, Hcol. rewrite ord_chr by (cbv; split; congruence).
        lia.
      * intros _. apply nonempty_snoc.
    + destruct (IH (d / 26) Hq) as (s & Hs & Hup & Hcol & _).
      exists (snoc s (Py.chr (d mod 26 + Address._MAGIC_NUMBER))).
      rewrite column_loop_app, Hs. repeat split.
      * unfold snoc. rewrite all_chars_app, Hup. simpl.
        unfold is_upper, Address._MAGIC_NUMBER. rewrite ord_chr by lia. lia.
      * rewrite col_of_snoc, Hcol.
        unfold Address._MAGIC_NUMBER. rewrite ord_chr by lia. lia.
      * intros _. apply nonempty_snoc.
Qed.

Lemma column_loop_terminates (c : Z) :
  0 <= c -> exists s, Address.column_loop (Py.bits c) c "" = Some s.
Proof.
  intros Hc.
  destruct (column_loop_spec (Py.bits c) c) as (s & Hs & _).
  - split; [lia | now apply bits_bound].
  - now exists s.
Qed.

End Columns.

(** * Address: labels and coordinates *)

Section AddressLabels.

Lemma check_component_ok (n : Z) :
  1 <= n -> Address.check_component (Some n) = Ok tt.
Proof.
  intros Hn. unfold Address.check_component, Py.truthy.
  destruct (n =? 0) eqn:E0; [lia |]. simpl.
  destruct (n <? 1) eqn:E1; [lia | reflexivity].
Qed.

Lemma validate_bound (r c : Z) (allow : bool) :
  1 <= r -> 1 <= c -> Address._validate (Address.mk (Some r, Some c) allow) = Ok tt.
Proof.
  intros Hr Hc. unfold Address._validate, Address.row, Address.col.
  cbn [Address._value Address.allow_non_single fst snd Py.is_none orb].
  rewrite andb_false_r, !check_component_ok by assumption. reflexivity.
Qed.

Lemma truthy_pos (n : Z) : 1 <= n -> Py.truthy (Some n) = true.
Proof. intros Hn. unfold Py.truthy. destruct (n =? 0) eqn:E; [lia | easy]. Qed.

(** The label of a bound pair: capital letters worth the column, then
    the decimal digits of the row. *)
Lemma label_bound (r c : Z) (allow : bool) :
  1 <= r -> 1 <= c ->
  exists cl,
    Address.label (Address.mk (Some r, Some c) allow) = Ok (cl +:+ Py.str r)
    /\ all_chars is_upper cl = true
    /\ Py.nonempty cl = true
    /\ col_of cl = c.
Proof.
  intros Hr Hc.
  destruct (column_loop_spec (Py.bits c) c) as (cl & Hcl & Hup & Hcol & Hne).
  { split; [lia | apply bits_bound; lia]. }
  exists cl. repeat split; [| assumption | apply Hne; lia | assumption].
  unfold Address.label, Address._value_as_label.
  rewrite validate_bound by assumption.
  unfold Address.row, Address.col.
  cbn [Address._value fst snd rbind].
  rewrite !truthy_pos by assumption. rewrite Hcl. reflexivity.
Qed.

(** Parsing capital letters followed by digits. *)
Lemma label_to_coordinates_spec (cl dl : string) (allow : bool) :
  all_chars is_upper cl = true -> Py.nonempty cl = true ->
  all_chars Py.is_digit dl = true -> Py.nonempty dl = true ->
  1 <= col_of cl -> 1 <= Py.int dl ->
  Address._label_to_coordinates allow (cl +:+ dl)
  = Ok (Some (Py.int dl), Some (col_of cl)).
Proof.
  intros Hup Hne Hdig Hned Hc Hr.
  unfold Address._label_to_coordinates, Py.re_match_label.
  rewrite (span_app Py.is_alpha cl dl)
    by (eapply all_chars_impl; [apply upper_is_alpha | exact Hup]).
  rewrite (span_none Py.is_alpha Py.is_digit dl digit_not_alpha Hdig).
  simpl fst. simpl snd. rewrite app_empty_r.
  rewrite (span_all Py.is_digit dl Hdig).
  rewrite (upper_of_upper cl Hup), Hne, Hned.
  fold (col_of cl). rewrite !truthy_pos by assumption.
  simpl. now rewrite andb_false_r.
Qed.

End AddressLabels.

(** C3. For every bound pair [(r, c)] with [r >= 1] and [c >= 1], the
    address built from the pair has a label, and an address built from
    that label holds [(r, c)] again; and each listed column [n] has the
    listed letters as its label, which parse back to column [n]. *)
Theorem address_label_roundtrip (r c : Z) (allow allow' : bool) :
  1 <= r -> 1 <= c ->
  (exists l,
      (a <-- Address.__init__ (Address.Tuple (Some r) (Some c)) allow ;;
       Address.label a)%res = Ok l
      /\ Address.__init__ (Address.Str l) allow'
         = Ok (Address.mk (Some r, Some c) allow'))
  /\ Forall (fun '(n, s) =>
        Address.label (Address.mk (None, Some n) true) = Ok s
        /\ Address.__init__ (Address.Str s) true
           = Ok (Address.mk (None, Some n) true))
       column_examples.
Proof.
  intros Hr Hc. split.
  - destruct (label_bound r c allow Hr Hc) as (cl & Hl & Hup & Hne & Hcol).
    destruct (str_spec r ltac:(lia)) as (Hdig & Hned & Hint).
    exists (cl +:+ Py.str r). split.
    + simpl. rewrite validate_bound by assumption. simpl. exact Hl.
    + simpl. rewrite label_to_coordinates_spec by (try assumption; lia).
      simpl. now rewrite Hint, Hcol.
  - unfold column_examples. repeat constructor; vm_compute; reflexivity.
Qed.

Lemma address_label_roundtrip_witness :
  1 <= 12 /\ 1 <= 703
  /\ exists l,
      (a <-- Address.__init__ (Address.Tuple (Some 12) (Some 703)) false ;;
       Address.label a)%res = Ok l
      /\ Address.__init__ (Address.Str l) false
         = Ok (Address.mk (Some 12, Some 703) false).
Proof.
  split; [lia |]. split; [lia |].
  apply (address_label_roundtrip 12 703 false false); lia.
Defined.

(** * GridRange: the store of Address objects *)

Section Store.

Import GridRange.
Local Open Scope gr_scope.

Implicit Types (st : state) (s e a : Address.t) (l : loc).

Lemma deref_run st l a :
  store st !! l = Some a -> deref l st = (Ok a, st).
Proof. intros H. unfold deref. now rewrite H. Qed.

Lemma start_obj_run st s :
  store st !! _start (self st) = Some s -> start_obj st = (Ok s, st).
Proof. intros H. unfold start_obj, bind, get. cbn. now apply deref_run. Qed.

Lemma end_obj_run st e :
  store st !! _end (self st) = Some e -> end_obj st = (Ok e, st).
Proof. intros H. unfold end_obj, bind, get. cbn. now apply deref_run. Qed.

Lemma setitem_run st l a key v :
  store st !! l = Some a ->
  setitem l key v st
  = (Ok tt, mkState (<[l := Address.__setitem__ a key v]> (store st)) (self st)).
Proof. intros H. unfold setitem, bind. now rewrite (deref_run _ _ _ H). Qed.

Lemma unbind_idem a key : unbind (unbind a key) key = unbind a key.
Proof. destruct a as [[r c] al], key; reflexivity. Qed.

Lemma unbind_none a key :
  Address.__getitem__ a key = None -> unbind a key = a.
Proof.
  destruct a as [[r c] al], key; unfold unbind; cbn; now intros ->.
Qed.

(** [start[key], end[key] = None, None], whether or not [start] and
    [end] are one object. *)
Lemma unbind_both st key s e :
  store st !! _start (self st) = Some s ->
  store st !! _end (self st) = Some e ->
  exists st1,
    (setitem (_start (self st)) key None ;;;
     setitem (_end (self st)) key None) st = (Ok tt, st1)
    /\ self st1 = self st
    /\ store st1 !! _start (self st) = Some (unbind s key)
    /\ store st1 !! _end (self st) = Some (unbind e key).
Proof.
  intros Hs He.
  pose proof (lookup_lt_Some _ _ _ Hs) as Ls.
  pose proof (lookup_lt_Some _ _ _ He) as Le.
  unfold bind at 1. rewrite (setitem_run _ _ _ _ _ Hs).
  destruct (decide (_start (self st) = _end (self st))) as [Heq | Hne].
  - rewrite <- Heq in *. assert (e = s) as -> by congruence.
    erewrite setitem_run by (cbn; now apply list_lookup_insert_eq).
    eexists. split; [reflexivity |]. cbn.
    fold (unbind s key). fold (unbind (unbind s key) key).
    rewrite unbind_idem.
    repeat split; apply list_lookup_insert_eq; now rewrite length_insert.
  - erewrite setitem_run
      by (cbn; rewrite list_lookup_insert_ne by assumption; exact He).
    eexists. split; [reflexivity |]. cbn. fold (unbind s key) (unbind e key).
    repeat split.
    + rewrite list_lookup_insert_ne by congruence.
      now apply list_lookup_insert_eq.
    + apply list_lookup_insert_eq. now rewrite length_insert.
Qed.

(** [start[key] = None] when [end[key]] is [None] already. *)
Lemma unbind_start st key s e :
  store st !! _start (self st) = Some s ->
  store st !! _end (self st) = Some e ->
  Address.__getitem__ e key = None ->
  exists st1,
    setitem (_start (self st)) key None st = (Ok tt, st1)
    /\ self st1 = self st
    /\ store st1 !! _start (self st) = Some (unbind s key)
    /\ store st1 !! _end (self st) = Some e.
Proof.
  intros Hs He Hk.
  pose proof (lookup_lt_Some _ _ _ Hs) as Ls.
  rewrite (setitem_run _ _ _ _ _ Hs).
  eexists. split; [reflexivity |]. cbn. fold (unbind s key).
  repeat split; [now apply list_lookup_insert_eq |].
  destruct (decide (_start (self st) = _end (self st))) as [Heq | Hne].
  - rewrite <- Heq in *. assert (e = s) as -> by congruence.
    rewrite (unbind_none _ _ Hk). now apply list_lookup_insert_eq.
  - now rewrite list_lookup_insert_ne.
Qed.

End Store.

(** * GridRange: constraint propagation *)

Section Constraints.

Import GridRange.
Local Open Scope gr_scope.

Implicit Types (st : state) (s e a : Address.t) (l : loc).

Lemma bind_eq {A B} (m : M A) (k : A -> M B) st x st' :
  m st = (Ok x, st') -> bind m k st = k x st'.
Proof. intros H. unfold bind. now rewrite H. Qed.

Lemma bind_raise_eq {A B} (m : M A) (k : A -> M B) st x st' :
  m st = (Raise x, st') -> bind m k st = (Raise x, st').
Proof. intros H. unfold bind. now rewrite H. Qed.

Lemma normalize_spec (based_on : string) st s e :
  store st !! _start (self st) = Some s ->
  store st !! _end (self st) = Some e ->
  exists st1,
    normalize based_on st = (Ok tt, st1)
    /\ store st1 !! _start (self st1) = Some (fst (norm based_on s e))
    /\ store st1 !! _end (self st1) = Some (snd (norm based_on s e))
    /\ _worksheet (self st1) = _worksheet (self st)
    /\ _worksheet_title (self st1) = _worksheet_title (self st)
    /\ _worksheet_id (self st1) = _worksheet_id (self st)
    /\ ((_start (self st1) = _start (self st)
         /\ _end (self st1) = _end (self st))
        \/ _start (self st1) = _end (self st1)).
Proof.
  intros Hs He. unfold normalize, norm.
  erewrite bind_eq by reflexivity.
  erewrite bind_eq by (apply start_obj_run; eassumption).
  erewrite bind_eq by (apply end_obj_run; eassumption).
  change (Address.__getitem__ s 0) with (Address.row s).
  change (Address.__getitem__ e 0) with (Address.row e).
  change (Address.__getitem__ s 1) with (Address.col s).
  change (Address.__getitem__ e 1) with (Address.col e).
  assert (Hsame : exists st1, @ret unit tt st = (Ok tt, st1)
    /\ store st1 !! _start (self st1) = Some s
    /\ store st1 !! _end (self st1) = Some e
    /\ _worksheet (self st1) = _worksheet (self st)
    /\ _worksheet_title (self st1) = _worksheet_title (self st)
    /\ _worksheet_id (self st1) = _worksheet_id (self st)
    /\ ((_start (self st1) = _start (self st)
         /\ _end (self st1) = _end (self st))
        \/ _start (self st1) = _end (self st1))).
  { exists st. repeat split; auto. }
  assert (Hboth : forall key, exists st1,
    (setitem (_start (self st)) key None ;;;
     setitem (_end (self st)) key None) st = (Ok tt, st1)
    /\ store st1 !! _start (self st1) = Some (unbind s key)
    /\ store st1 !! _end (self st1) = Some (unbind e key)
    /\ _worksheet (self st1) = _worksheet (self st)
    /\ _worksheet_title (self st1) = _worksheet_title (self st)
    /\ _worksheet_id (self st1) = _worksheet_id (self st)
    /\ ((_start (self st1) = _start (self st)
         /\ _end (self st1) = _end (self st))
        \/ _start (self st1) = _end (self st1))).
  { intros key.
    destruct (unbind_both st key s e Hs He) as (st1 & Hrun & Hself & H1 & H2).
    exists st1. rewrite Hself. repeat split; auto. }
  assert (Hone : forall key, Address.__getitem__ e key = None -> exists st1,
    setitem (_start (self st)) key None st = (Ok tt, st1)
    /\ store st1 !! _start (self st1) = Some (unbind s key)
    /\ store st1 !! _end (self st1) = Some e
    /\ _worksheet (self st1) = _worksheet (self st)
    /\ _worksheet_title (self st1) = _worksheet_title (self st)
    /\ _worksheet_id (self st1) = _worksheet_id (self st)
    /\ ((_start (self st1) = _start (self st)
         /\ _end (self st1) = _end (self st))
        \/ _start (self st1) = _end (self st1))).
  { intros key Hk.
    destruct (unbind_start st key s e Hs He Hk) as (st1 & Hrun & Hself & H1 & H2).
    exists st1. rewrite Hself. repeat split; auto. }
  destruct (String.eqb based_on "start").
  - destruct (Address.__bool__ s); cbn [negb].
    + destruct (Py.is_none (Address.row s) || Py.is_none (Address.row e));
        [apply Hboth |].
      destruct (Py.is_none (Address.col s) || Py.is_none (Address.col e));
        [apply Hboth | apply Hsame].
    + destruct (Address.__bool__ e); [| apply Hsame].
      eexists. split; [reflexivity |]. cbn. repeat split; auto.
  - destruct (String.eqb based_on "end"); [| apply Hsame].
    destruct (Address.__bool__ e); cbn [negb].
    + destruct (Py.is_none (Address.row e)) eqn:E0.
      { apply (Hone 0%nat). cbn. now destruct (Address.row e). }
      destruct (Py.is_none (Address.col e)) eqn:E1; [| apply Hsame].
      apply (Hone 1%nat). cbn. now destruct (Address.col e).
    + destruct (Address.__bool__ s); [| apply Hsame].
      eexists. split; [reflexivity |]. cbn. repeat split; auto.
Qed.

(** A validated address has a label. *)
Lemma label_total a :
  Address._validate a = Ok tt -> exists lab, Address.label a = Ok lab.
Proof.
  intros Hv. unfold Address.label, Address._value_as_label.
  rewrite Hv. cbn [rbind].
  destruct (Address.col a) as [c|] eqn:Ec; [| eauto].
  destruct (Py.truthy (Some c)) eqn:Et; [| eauto].
  assert (Hc : 1 <= c).
  { unfold Address._validate in Hv.
    destruct (negb _ && _); [discriminate |].
    destruct (Address.check_component (Address.row a)); [| discriminate].
    cbn [rbind] in Hv. rewrite Ec in Hv. unfold Address.check_component in Hv.
    rewrite Et in Hv. destruct (c <? 1) eqn:E1; [discriminate | lia]. }
  destruct (column_loop_terminates c ltac:(lia)) as [cl ->]. eauto.
Qed.

Lemma made_by_range_unbind a key :
  made_by_range a -> made_by_range (unbind a key).
Proof.
  destruct a as [[r c] al]. unfold made_by_range, Address._validate.
  cbn. intros [-> Hv]. split; [now destruct key |].
  destruct (Address.check_component r) as [[]|] eqn:Er; [| discriminate].
  destruct key; cbn; [exact Hv | now rewrite Er].
Qed.

Lemma made_by_range_norm (based_on : string) s e :
  made_by_range s -> made_by_range e ->
  made_by_range (fst (norm based_on s e))
  /\ made_by_range (snd (norm based_on s e)).
Proof.
  intros Hs He. unfold norm.
  repeat match goal with
         | |- context [if ?b then _ else _] => destruct b
         end; cbn [fst snd]; auto using made_by_range_unbind.
Qed.

Lemma calculate_label_ok st s e :
  store st !! _start (self st) = Some s ->
  store st !! _end (self st) = Some e ->
  Address._validate s = Ok tt -> Address._validate e = Ok tt ->
  exists st', _calculate_label st = (Ok tt, st')
    /\ store st' = store st
    /\ _start (self st') = _start (self st)
    /\ _end (self st') = _end (self st).
Proof.
  intros Hs He Vs Ve. unfold _calculate_label.
  assert (Ht : exists t0, worksheet_title st = (Ok t0, st)).
  { unfold worksheet_title. erewrite bind_eq by reflexivity.
    destruct (_worksheet (self st)); eauto. }
  destruct Ht as [t0 Ht]. erewrite bind_eq by exact Ht.
  erewrite bind_eq by (apply start_obj_run; eassumption).
  erewrite bind_eq by (apply end_obj_run; eassumption).
  destruct (label_total s Vs) as [sl Hsl].
  destruct (label_total e Ve) as [el Hel].
  destruct (Address.__bool__ s && Address.__bool__ e).
  - unfold lift. rewrite Hsl, Hel.
    eexists. split; [reflexivity |]. cbn. auto.
  - eexists. split; [reflexivity |]. cbn. auto.
Qed.

Lemma mismatch_same a : mismatch a a = false.
Proof.
  unfold mismatch.
  destruct (Py.truthy (Address.__getitem__ a 0)),
           (Py.truthy (Address.__getitem__ a 1)); reflexivity.
Qed.

(** The error path of [check]: both fields are made to name the object
    that [based_on] names, and the store is left as it is. *)
Lemma check_mismatch (based_on : string) st s e :
  store st !! _start (self st) = Some s ->
  store st !! _end (self st) = Some e ->
  mismatch s e = true ->
  exists st',
    check based_on st = (Raise InvalidArgumentValue, st')
    /\ store st' = store st
    /\ _start (self st')
       = (if String.eqb based_on "start" then _start (self st)
          else _end (self st))
    /\ _end (self st') = _start (self st').
Proof.
  intros Hs He Hm. unfold check.
  erewrite bind_eq by reflexivity.
  erewrite bind_eq by (apply start_obj_run; eassumption).
  erewrite bind_eq by (apply end_obj_run; eassumption).
  rewrite Hm.
  destruct (String.eqb based_on "start");
    (eexists; split; [reflexivity |]; cbn; auto).
Qed.

(** Off the error path, [check] returns or fails an [assert]. *)
Lemma check_no_mismatch (based_on : string) st s e :
  store st !! _start (self st) = Some s ->
  store st !! _end (self st) = Some e ->
  Address._validate s = Ok tt -> Address._validate e = Ok tt ->
  mismatch s e = false ->
  (exists st', check based_on st = (Ok tt, st')
     /\ store st' = store st
     /\ _start (self st') = _start (self st)
     /\ _end (self st') = _end (self st))
  \/ check based_on st = (Raise AssertionError, st).
Proof.
  intros Hs He Vs Ve Hm. unfold check.
  erewrite bind_eq by reflexivity.
  erewrite bind_eq by (apply start_obj_run; eassumption).
  erewrite bind_eq by (apply end_obj_run; eassumption).
  rewrite Hm.
  destruct (calculate_label_ok st s e Hs He Vs Ve) as (st' & Hl & Hst').
  unfold mismatch in Hm.
  destruct s as [[sr sc] sa], e as [[er ec] ea]. cbn in Hm |- *.
  destruct sr as [sr|], sc as [sc|], er as [er|], ec as [ec|];
    cbn in Hm |- *;
    repeat match goal with
           | H : context [negb (?x =? 0)] |- _ =>
               destruct (x =? 0) eqn:?; cbn in Hm |- *
           | |- context [negb (?x =? 0)] =>
               destruct (x =? 0) eqn:?; cbn in Hm |- *
           | |- context [?x <=? ?y] =>
               destruct (x <=? y) eqn:?; cbn in Hm |- *
           end;
    try discriminate;
    try (right; reflexivity);
    left; exists st'; (split; [| exact Hst']);
    unfold bind; cbn; unfold bind; cbn; exact Hl.
Qed.

Lemma apply_index_constraints_unfold (based_on : string) st s e :
  store st !! _start (self st) = Some s ->
  store st !! _end (self st) = Some e ->
  _apply_index_constraints based_on st
  = if negb (Address.__bool__ s) && negb (Address.__bool__ e)
    then (Ok tt, st)
    else (normalize based_on ;;; check based_on) st.
Proof.
  intros Hs He. unfold _apply_index_constraints.
  erewrite bind_eq by (apply start_obj_run; eassumption).
  erewrite bind_eq by (apply end_obj_run; eassumption).
  now destruct (negb (Address.__bool__ s) && negb (Address.__bool__ e)).
Qed.

Lemma norm_unbound (based_on : string) s e :
  negb (Address.__bool__ s) && negb (Address.__bool__ e) = true ->
  norm based_on s e = (s, e).
Proof.
  unfold norm. destruct (Address.__bool__ s), (Address.__bool__ e);
    try discriminate.
  intros _. cbn. now repeat destruct (String.eqb _ _).
Qed.

(** The three outcomes of constraint propagation on a range whose
    addresses are valid: the mismatch error, with the range collapsed; a
    failed [assert]; or a return, with start and end as normalised. *)
Lemma apply_index_constraints_cases (based_on : string) st s e :
  store st !! _start (self st) = Some s ->
  store st !! _end (self st) = Some e ->
  made_by_range s -> made_by_range e ->
  let ran := _apply_index_constraints based_on st in
  let st1 := snd (normalize based_on st) in
  let based := if String.eqb based_on "start" then _start (self st)
               else _end (self st) in
  (Address.__bool__ s || Address.__bool__ e = true
   /\ mismatch (fst (norm based_on s e)) (snd (norm based_on s e)) = true
   /\ fst ran = Raise InvalidArgumentValue
   /\ store (snd ran) = store st1
   /\ _start (self (snd ran)) = based
   /\ _end (self (snd ran)) = based
   /\ is_Some (store st1 !! based))
  \/ ((Address.__bool__ s || Address.__bool__ e = false
       \/ mismatch (fst (norm based_on s e)) (snd (norm based_on s e))
          = false)
      /\ (fst ran = Raise AssertionError
          \/ (fst ran = Ok tt
              /\ store (snd ran) !! _start (self (snd ran))
                 = Some (fst (norm based_on s e))
              /\ store (snd ran) !! _end (self (snd ran))
                 = Some (snd (norm based_on s e))))).
Proof.
  intros Hs He Ms Me ran st1 based. subst ran st1.
  rewrite (apply_index_constraints_unfold based_on st s e Hs He).
  destruct (negb (Address.__bool__ s) && negb (Address.__bool__ e)) eqn:Eb.
  { right. rewrite (norm_unbound _ _ _ Eb). split.
    - left. destruct (Address.__bool__ s), (Address.__bool__ e);
        easy.
    - right. cbn. auto. }
  destruct (normalize_spec based_on st s e Hs He)
    as (st1 & Hn & Hs1 & He1 & Hws & _ & _ & Hrefs).
  rewrite Hn. cbn [snd].
  erewrite bind_eq by exact Hn.
  destruct (made_by_range_norm based_on s e Ms Me) as [[_ Vs1] [_ Ve1]].
  destruct (mismatch (fst (norm based_on s e)) (snd (norm based_on s e)))
    eqn:Hm.
  - left.
    destruct (check_mismatch based_on st1 _ _ Hs1 He1 Hm)
      as (st' & Hc & Hst & Hst' & Hend).
    rewrite Hc. cbn [fst snd].
    assert (Hkeep : _start (self st1) = _start (self st)
                    /\ _end (self st1) = _end (self st)).
    { destruct Hrefs as [? | Halias]; [assumption |].
      rewrite Halias in Hs1. rewrite Hs1 in He1.
      injection He1 as He1. rewrite He1, mismatch_same in Hm.
      discriminate. }
    destruct Hkeep as [Ks Ke].
    assert (Hbased : _start (self st') = based).
    { subst based. rewrite Hst'. now destruct (String.eqb based_on "start"). }
    repeat split.
    + destruct (Address.__bool__ s), (Address.__bool__ e); easy.
    + assumption.
    + assumption.
    + congruence.
    + subst based. destruct (String.eqb based_on "start").
      * rewrite <- Ks, Hs1. eauto.
      * rewrite <- Ke, He1. eauto.
  - right. split; [now right |].
    destruct (check_no_mismatch based_on st1 _ _ Hs1 He1 Vs1 Ve1 Hm)
      as [(st' & Hc & Hst & Hst' & Hend) | Hc]; rewrite Hc; cbn [fst snd].
    + right. rewrite Hst, Hst', Hend. repeat split; assumption.
    + now left.
Qed.

(** Start past end on an axis where both are bound: the [assert]
    fails. *)
Lemma check_past (based_on : string) st s e (key : nat) :
  store st !! _start (self st) = Some s ->
  store st !! _end (self st) = Some e ->
  nonzero (Address.row s) -> nonzero (Address.col s) ->
  nonzero (Address.row e) -> nonzero (Address.col e) ->
  mismatch s e = false ->
  past s e key ->
  check based_on st = (Raise AssertionError, st).
Proof.
  intros Hs He Zsr Zsc Zer Zec Hm Hp. unfold check.
  erewrite bind_eq by reflexivity.
  erewrite bind_eq by (apply start_obj_run; eassumption).
  erewrite bind_eq by (apply end_obj_run; eassumption).
  rewrite Hm. generalize _calculate_label. intros lbl.
  unfold mismatch in Hm. unfold past in Hp.
  destruct s as [[sr sc] sa], e as [[er ec] ea].
  destruct sr as [sr|], sc as [sc|], er as [er|], ec as [ec|], key as [|key];
    cbn in Hm, Hp, Zsr, Zsc, Zer, Zec |- *; try contradiction;
    repeat match goal with
           | |- context [negb (?x =? 0)] =>
               destruct (x =? 0) eqn:?; cbn in Hm |- *
           | |- context [?x <=? ?y] =>
               destruct (x <=? y) eqn:?; cbn in Hm |- *
           end;
    try discriminate; try lia; try reflexivity.
Qed.

Lemma norm_start_past s e (key : nat) :
  nonzero (Address.row s) -> nonzero (Address.col s) ->
  nonzero (Address.row e) -> nonzero (Address.col e) ->
  past s e key ->
  let s1 := fst (norm "start" s e) in
  let e1 := snd (norm "start" s e) in
  negb (Address.__bool__ s) && negb (Address.__bool__ e) = false
  /\ mismatch s1 e1 = false
  /\ nonzero (Address.row s1) /\ nonzero (Address.col s1)
  /\ nonzero (Address.row e1) /\ nonzero (Address.col e1)
  /\ exists key', past s1 e1 key'.
Proof.
  intros Zsr Zsc Zer Zec Hp. unfold past in Hp.
  destruct s as [[sr sc] sa], e as [[er ec] ea].
  destruct sr as [sr|], sc as [sc|], er as [er|], ec as [ec|], key as [|key];
    cbn in Hp, Zsr, Zsc, Zer, Zec |- *; try contradiction;
    unfold mismatch, past; cbn;
    repeat match goal with
           | |- context [negb (?x =? 0)] => destruct (x =? 0) eqn:?; cbn
           end;
    try lia;
    repeat split; auto;
    first [ exists 0%nat; cbn; assumption | exists 1%nat; cbn; assumption ].
Qed.

End Constraints.

(** * GridRange: the range after the mismatch error *)

Section Collapse.

Import GridRange.
Local Open Scope gr_scope.

Implicit Types (st : state) (s e : Address.t).

(** What the range reads after the mismatch error, in the mode based on
    start. *)
Lemma collapsed_start_value st s e :
  store st !! _start (self st) = Some s ->
  store st !! _end (self st) = Some e ->
  made_by_range s -> made_by_range e ->
  fst (_apply_index_constraints "start" st) = Raise InvalidArgumentValue ->
  let st' := snd (_apply_index_constraints "start" st) in
  store st' !! _start (self st') = Some (fst (norm "start" s e))
  /\ Address.__bool__ s = true
  /\ mismatch (fst (norm "start" s e)) (snd (norm "start" s e)) = true.
Proof.
  intros Hs He Ms Me. cbv zeta.
  rewrite (apply_index_constraints_unfold "start" st s e Hs He).
  destruct (negb (Address.__bool__ s) && negb (Address.__bool__ e)) eqn:Eb;
    [discriminate |].
  destruct (normalize_spec "start" st s e Hs He)
    as (st1 & Hn & Hs1 & He1 & _).
  erewrite bind_eq by exact Hn.
  destruct (made_by_range_norm "start" s e Ms Me) as [[_ Vs1] [_ Ve1]].
  destruct (mismatch (fst (norm "start" s e)) (snd (norm "start" s e)))
    eqn:Hm.
  - destruct (check_mismatch "start" st1 _ _ Hs1 He1 Hm)
      as (st' & Hc & Hstore & Hst & _).
    rewrite Hc. cbn [fst snd]. intros _.
    rewrite Hstore, Hst. cbn [String.eqb Ascii.eqb Bool.eqb].
    split; [exact Hs1 |]. split; [| reflexivity].
    destruct (Address.__bool__ s) eqn:Bs; [reflexivity |].
    unfold norm in Hm. cbn [String.eqb Ascii.eqb Bool.eqb] in Hm.
    rewrite Bs in Hm. cbn [negb] in Hm.
    destruct (Address.__bool__ e); [| discriminate].
    cbn [fst snd] in Hm. rewrite mismatch_same in Hm. discriminate.
  - destruct (check_no_mismatch "start" st1 _ _ Hs1 He1 Vs1 Ve1 Hm)
      as [(st' & Hc & _) | Hc]; rewrite Hc; discriminate.
Qed.

(** Based on start, with no coordinate zero, a mismatch is left only next
    to an axis that normalisation has unbound. *)
Lemma norm_start_mismatch_unbound s e :
  nonzero (Address.row s) -> nonzero (Address.col s) ->
  nonzero (Address.row e) -> nonzero (Address.col e) ->
  Address.__bool__ s = true ->
  mismatch (fst (norm "start" s e)) (snd (norm "start" s e)) = true ->
  Address.row (fst (norm "start" s e)) = None
  \/ Address.col (fst (norm "start" s e)) = None.
Proof.
  intros Zsr Zsc Zer Zec.
  destruct s as [[sr sc] sa], e as [[er ec] ea].
  destruct sr as [sr|], sc as [sc|], er as [er|], ec as [ec|];
    cbn in Zsr, Zsc, Zer, Zec |- *; unfold mismatch; cbn;
    repeat match goal with
           | |- context [negb (?x =? 0)] => destruct (x =? 0) eqn:?; cbn
           end;
    try lia; intros; try discriminate; auto.
Qed.

End Collapse.

(** C9, as amended. When constraint propagation raises its mismatch error
    on a range of valid addresses, the fields [_start] and [_end] both
    name one [Address] object: the one that [based_on] names, as
    normalisation left it, so the range then reads as the same address at
    both ends.  That address need not be a single cell: based on start
    (the only mode in use) and with no coordinate zero, it has its row or
    its column unbound. *)
Theorem mismatch_collapses_range
  (based_on : string) (st : GridRange.state) (s e : Address.t) :
  GridRange.store st !! GridRange._start (GridRange.self st) = Some s ->
  GridRange.store st !! GridRange._end (GridRange.self st) = Some e ->
  made_by_range s -> made_by_range e ->
  fst (GridRange._apply_index_constraints based_on st)
  = Raise InvalidArgumentValue ->
  let st' := snd (GridRange._apply_index_constraints based_on st) in
  let based :=
    if String.eqb based_on "start" then GridRange._start (GridRange.self st)
    else GridRange._end (GridRange.self st) in
  GridRange._start (GridRange.self st') = based
  /\ GridRange._end (GridRange.self st') = based
  /\ GridRange.store st' = GridRange.store (snd (GridRange.normalize based_on st))
  /\ is_Some (GridRange.store st' !! based)
  /\ GridRange.start_value st' = GridRange.end_value st'
  /\ (based_on = "start" ->
      nonzero (Address.row s) -> nonzero (Address.col s) ->
      nonzero (Address.row e) -> nonzero (Address.col e) ->
      exists a,
        GridRange.store st' !! based = Some a
        /\ (Address.row a = None \/ Address.col a = None)).
Proof.
  intros Hs He Ms Me Hraise st' based.
  destruct (apply_index_constraints_cases based_on st s e Hs He Ms Me)
    as [(_ & _ & _ & Hstore & Hst & Hend & Hsome) | (_ & [Hf | (Hf & _)])].
  - subst st' based. unfold GridRange.start_value, GridRange.end_value.
    rewrite Hst, Hend, Hstore.
    do 5 (split; [solve [auto] |]).
    intros -> Zsr Zsc Zer Zec.
    destruct (collapsed_start_value st s e Hs He Ms Me Hraise)
      as (Hv & Bs & Hm).
    cbv zeta in Hv. rewrite Hst, Hstore in Hv.
    exists (fst (norm "start" s e)). split; [exact Hv |].
    now apply norm_start_mismatch_unbound.
  - rewrite Hf in Hraise. discriminate.
  - rewrite Hf in Hraise. discriminate.
Qed.

Lemma mismatch_collapses_range_witness :
  let st := range_state None None None (Some 1, Some 1) (None, None) in
  let ran := GridRange._apply_index_constraints "start" st in
  fst ran = Raise InvalidArgumentValue
  /\ GridRange._start (GridRange.self (snd ran)) = 0%nat
  /\ GridRange._end (GridRange.self (snd ran)) = 0%nat
  /\ GridRange.start_value (snd ran) = GridRange.end_value (snd ran)
  /\ exists a,
       GridRange.store (snd ran) !! 0%nat = Some a
       /\ (Address.row a = None \/ Address.col a = None).
Proof.
  intros st ran. split; [reflexivity |].
  pose proof (mismatch_collapses_range "start" st
                (Address.mk (Some 1, Some 1) true)
                (Address.mk (None, None) true)
                eq_refl eq_refl (conj eq_refl eq_refl) (conj eq_refl eq_refl)
                eq_refl) as H.
  cbv zeta in H. destruct H as (H1 & H2 & _ & _ & H3 & H4).
  split; [exact H1 |]. split; [exact H2 |]. split; [exact H3 |].
  apply H4; first [reflexivity | exact I | cbn; lia].
Defined.

(** Propagation on start=(1, 1), end=(None, None) raises the mismatch
    error and leaves (None, 1) at both ends: a column with no row, not a
    single cell. *)
Lemma collapsed_range_not_single_cell :
  let st := range_state None None None (Some 1, Some 1) (None, None) in
  let ran := GridRange._apply_index_constraints "start" st in
  fst ran = Raise InvalidArgumentValue
  /\ GridRange.start_value (snd ran) = Some (None, Some 1)
  /\ GridRange.end_value (snd ran) = Some (None, Some 1).
Proof. repeat split. Qed.

(** C8, as amended. When constraint propagation (in its only mode of use,
    based on start) runs on a range whose coordinates are absent or not
    zero, and on some axis both ends are bound with start greater than
    end, it fails with an [AssertionError]. *)
Theorem start_past_end_fails_assert
  (st : GridRange.state) (s e : Address.t) (key : nat) :
  GridRange.store st !! GridRange._start (GridRange.self st) = Some s ->
  GridRange.store st !! GridRange._end (GridRange.self st) = Some e ->
  nonzero (Address.row s) -> nonzero (Address.col s) ->
  nonzero (Address.row e) -> nonzero (Address.col e) ->
  past s e key ->
  fst (GridRange._apply_index_constraints "start" st) = Raise AssertionError.
Proof.
  intros Hs He Zsr Zsc Zer Zec Hp.
  rewrite (apply_index_constraints_unfold "start" st s e Hs He).
  destruct (norm_start_past s e key Zsr Zsc Zer Zec Hp)
    as (Eb & Hm & Z1 & Z2 & Z3 & Z4 & key' & Hp').
  rewrite Eb.
  destruct (normalize_spec "start" st s e Hs He) as (st1 & Hn & Hs1 & He1 & _).
  erewrite bind_eq by exact Hn.
  now rewrite (check_past "start" st1 _ _ key' Hs1 He1 Z1 Z2 Z3 Z4 Hm Hp').
Qed.

Lemma start_past_end_fails_assert_witness :
  fst (GridRange._apply_index_constraints "start"
         (range_state None None None (Some 3, Some 3) (Some 1, Some 1)))
  = Raise AssertionError.
Proof.
  apply (start_past_end_fails_assert _
           (Address.mk (Some 3, Some 3) true)
           (Address.mk (Some 1, Some 1) true) 0%nat);
    first [reflexivity | cbn; lia].
Defined.

(** GridRange(start=(3, 3), end=(1, 1)) fails, and not with
    InvalidArgumentValue. *)
Lemma start_past_end_not_invalid_argument :
  GridRange.__init__ None None
    (Address.Tuple (Some 3) (Some 3)) (Address.Tuple (Some 1) (Some 1))
    None None None
  = Raise AssertionError
  /\ GridRange.__init__ None None
       (Address.Tuple (Some 3) (Some 3)) (Address.Tuple (Some 1) (Some 1))
       None None None
     <> Raise InvalidArgumentValue.
Proof. split; [reflexivity | discriminate]. Qed.

(** * GridRange: construction from start and end *)

Section Construction.

Import GridRange.
Local Open Scope gr_scope.

Lemma validate_coordinates (r c : option Z) :
  coordinate_ok r -> coordinate_ok c ->
  made_by_range (Address.mk (r, c) true).
Proof.
  intros Hr Hc. split; [reflexivity |].
  unfold Address._validate, Address.row, Address.col.
  cbn [Address._value Address.allow_non_single fst snd negb andb].
  destruct r as [r|], c as [c|]; cbn in Hr, Hc;
    rewrite ?check_component_ok by assumption; reflexivity.
Qed.

Lemma init_tuples title wid ws (sr sc er ec : option Z) :
  coordinate_ok sr -> coordinate_ok sc ->
  coordinate_ok er -> coordinate_ok ec ->
  __init__ None ws (Address.Tuple sr sc) (Address.Tuple er ec) title wid None
  = match (_apply_index_constraints "start" ;;; _calculate_label)
            (range_state title wid ws (sr, sc) (er, ec)) with
    | (Ok _, st') => Ok st'
    | (Raise x, _) => Raise x
    end.
Proof.
  intros Hsr Hsc Her Hec. unfold __init__.
  cbn [Address.__init__].
  destruct (validate_coordinates sr sc Hsr Hsc) as [_ ->].
  destruct (validate_coordinates er ec Her Hec) as [_ ->].
  reflexivity.
Qed.

(** When a mismatch is left after the propagation based on start. *)
Lemma norm_start_mismatch (sr sc er ec : option Z) :
  coordinate_ok sr -> coordinate_ok sc ->
  coordinate_ok er -> coordinate_ok ec ->
  let s := Address.mk (sr, sc) true in
  let e := Address.mk (er, ec) true in
  (Address.__bool__ s || Address.__bool__ e = true
   /\ mismatch (fst (norm "start" s e)) (snd (norm "start" s e)) = true)
  <-> ((sr <> None \/ sc <> None)
       /\ (sr = None \/ er = None)
       /\ Py.is_none sc <> Py.is_none ec).
Proof.
  intros Hsr Hsc Her Hec.
  destruct sr as [sr|], sc as [sc|], er as [er|], ec as [ec|];
    cbn in Hsr, Hsc, Her, Hec |- *; unfold mismatch; cbn;
    repeat match goal with
           | |- context [negb (?x =? 0)] => destruct (x =? 0) eqn:?; cbn
           end;
    try lia;
    (split; [intros [? ?]; try discriminate
            | intros (H1 & H2 & H3);
              try (destruct H1; congruence);
              try (destruct H2; congruence);
              try congruence ]);
    repeat split; auto; try (left; congruence); try (right; congruence);
    try discriminate.
Qed.

End Construction.

(** C4, as amended. A GridRange constructed from tuples [start] and [end]
    of coordinates that are absent or at least 1 raises
    InvalidArgumentValue exactly when a disagreement in boundedness is
    left after the constructor's propagation of unbound axes: [start] is
    not wholly unbound, a row is unbound at some end, and the column is
    bound at exactly one end.  GridRange(start=(1, None), end=(3, 3)) is
    not such a case: it is constructed, with the column unbound at both
    ends. *)
Theorem init_mismatch_after_propagation
  (title : option string) (wid : option Z) (ws : option GridRange.Worksheet)
  (sr sc er ec : option Z) :
  coordinate_ok sr -> coordinate_ok sc ->
  coordinate_ok er -> coordinate_ok ec ->
  (GridRange.__init__ None ws (Address.Tuple sr sc) (Address.Tuple er ec)
     title wid None
   = Raise InvalidArgumentValue
   <-> ((sr <> None \/ sc <> None)
        /\ (sr = None \/ er = None)
        /\ Py.is_none sc <> Py.is_none ec))
  /\ exists st,
      GridRange.__init__ None None
        (Address.Tuple (Some 1) None) (Address.Tuple (Some 3) (Some 3))
        None None None = Ok st
      /\ GridRange.start_value st = Some (Some 1, None)
      /\ GridRange.end_value st = Some (Some 3, None).
Proof.
  intros Hsr Hsc Her Hec. split; [| eexists; split; [reflexivity |]; auto].
  rewrite (init_tuples title wid ws sr sc er ec Hsr Hsc Her Hec).
  rewrite <- (norm_start_mismatch sr sc er ec Hsr Hsc Her Hec). cbv zeta.
  pose proof (validate_coordinates sr sc Hsr Hsc) as Ms.
  pose proof (validate_coordinates er ec Her Hec) as Me.
  set (s := Address.mk (sr, sc) true) in *.
  set (e := Address.mk (er, ec) true) in *.
  set (st := range_state title wid ws (sr, sc) (er, ec)).
  destruct (apply_index_constraints_cases "start" st s e eq_refl eq_refl Ms Me)
    as [(Hb & Hm & Hf & _) | (Hno & Hf)];
    cbv zeta in *; unfold GridRange.bind;
    destruct (GridRange._apply_index_constraints "start" st) as [r st'];
    cbn [fst snd] in *.
  - subst r. split; [auto | reflexivity].
  - assert (Hcond : ~ (Address.__bool__ s || Address.__bool__ e = true
                       /\ GridRange.mismatch (fst (norm "start" s e))
                            (snd (norm "start" s e)) = true)).
    { intros [Hb Hm]. destruct Hno as [Hno | Hno]; congruence. }
    destruct Hf as [-> | (-> & Hs' & He')].
    + split; [discriminate | intros H; now destruct Hcond].
    + destruct (made_by_range_norm "start" s e Ms Me) as [[_ Vs] [_ Ve]].
      destruct (calculate_label_ok st' _ _ Hs' He' Vs Ve) as (st'' & -> & _).
      split; [discriminate | intros H; now destruct Hcond].
Qed.

Lemma init_mismatch_after_propagation_witness :
  GridRange.__init__ None None
    (Address.Tuple (Some 1) (Some 1)) (Address.Tuple None None) None None None
  = Raise InvalidArgumentValue.
Proof.
  apply (init_mismatch_after_propagation None None None
           (Some 1) (Some 1) None None); cbn; try lia.
  repeat split; try (left; discriminate); try (right; reflexivity);
    discriminate.
Defined.

(** GridRange(start=(1, None), end=(3, 3)) does not raise. *)
Lemma init_column_mismatch_constructs :
  GridRange.__init__ None None
    (Address.Tuple (Some 1) None) (Address.Tuple (Some 3) (Some 3))
    None None None
  <> Raise InvalidArgumentValue.
Proof. vm_compute. discriminate. Qed.

(** * Strings: splitting at a separator *)

Section Splitting.

Lemma contains_app (sep : ascii) (a b : string) :
  Py.contains sep (a +:+ b) = Py.contains sep a || Py.contains sep b.
Proof.
  induction a as [|x a IH]; [reflexivity |].
  rewrite app_cons. simpl. rewrite IH. now rewrite orb_assoc.
Qed.

(** A string of one class holds no character outside the class. *)
Lemma contains_outside (p : ascii -> bool) (sep : ascii) (s : string) :
  p sep = false -> all_chars p s = true -> Py.contains sep s = false.
Proof.
  intros Hsep. induction s as [|c s IH]; simpl; [reflexivity |].
  intros [Hc Hs]%andb_true_iff. rewrite (IH Hs), orb_false_r.
  destruct (Ascii.eqb c sep) eqn:E; [| reflexivity].
  apply Ascii.eqb_eq in E. congruence.
Qed.

Lemma split_none (sep : ascii) (s : string) :
  Py.contains sep s = false -> Py.split sep s = [s].
Proof.
  induction s as [|c s IH]; simpl; [reflexivity |].
  intros [Hc Hs]%orb_false_iff. rewrite Hc, (IH Hs). reflexivity.
Qed.

Lemma split_at (sep : ascii) (a b : string) :
  Py.contains sep a = false ->
  Py.split sep (a +:+ String sep b) = a :: Py.split sep b.
Proof.
  induction a as [|c a IH]; intros Ha.
  - rewrite app_nil. simpl. now rewrite Ascii.eqb_refl.
  - rewrite app_cons. simpl in *.
    apply orb_false_iff in Ha as [Hc Ha]. rewrite Hc, (IH Ha). reflexivity.
Qed.

End Splitting.

(** * GridRange: labels of ranges of cells *)

Section RangeLabels.

Import GridRange.

Ltac gr_eval :=
  cbv beta iota zeta delta
    [bind get put ret raise lift new deref setitem
     set_worksheet_title_field set_worksheet_id_field set_worksheet_field
     set_label_field set_start_field set_end_field start_obj end_obj
     worksheet_id worksheet_title _calculate_label assert_le mismatch
     normalize check _apply_index_constraints worksheet_title_set
     worksheet_id_set _calculate_addresses GridRange.__init__
     store self _worksheet_title _worksheet_id _worksheet _label _start _end
     range_state fst snd negb andb orb rbind
     Address.__getitem__ Address.__bool__ Address.row Address.col
     Address._value Address.allow_non_single Py.is_none Py.index
     lookup list_lookup length app Nat.ltb Nat.leb
     start_value end_value fmap option_fmap option_map
     String.eqb Ascii.eqb Bool.eqb].

(** The label of a cell holds neither separator and parses back. *)
Lemma cell_label (r c : Z) :
  1 <= r -> 1 <= c ->
  exists lab,
    Address.label (Address.mk (Some r, Some c) true) = Ok lab
    /\ Py.contains "!" lab = false
    /\ Py.contains ":" lab = false
    /\ Address.__init__ (Address.Str lab) true
       = Ok (Address.mk (Some r, Some c) true).
Proof.
  intros Hr Hc.
  destruct (label_bound r c true Hr Hc) as (cl & Hl & Hup & Hne & Hcol).
  destruct (str_spec r ltac:(lia)) as (Hdig & Hned & Hint).
  exists (cl +:+ Py.str r). split; [exact Hl |].
  rewrite !contains_app.
  rewrite (contains_outside is_upper "!" cl eq_refl Hup).
  rewrite (contains_outside is_upper ":" cl eq_refl Hup).
  rewrite (contains_outside Py.is_digit "!" _ eq_refl Hdig).
  rewrite (contains_outside Py.is_digit ":" _ eq_refl Hdig).
  repeat split. cbn [Address.__init__].
  rewrite label_to_coordinates_spec by (try assumption; lia).
  cbn [rbind]. now rewrite Hint, Hcol.
Qed.

Lemma nonempty_app_cons (a b : string) (c : ascii) :
  Py.nonempty (a +:+ String c b) = true.
Proof. now destruct a. Qed.

(** From start and end to the label. *)
Lemma init_cells_label (title : string) (r1 c1 r2 c2 : Z) (a b : string) :
  1 <= r1 <= r2 -> 1 <= c1 <= c2 ->
  Address.label (Address.mk (Some r1, Some c1) true) = Ok a ->
  Address.label (Address.mk (Some r2, Some c2) true) = Ok b ->
  exists st,
    __init__ None None
      (Address.Tuple (Some r1) (Some c1)) (Address.Tuple (Some r2) (Some c2))
      (Some title) None None = Ok st
    /\ _label (self st) = Some (title +:+ "!" +:+ a +:+ ":" +:+ b).
Proof.
  intros Hr Hc Ha Hb.
  rewrite init_tuples by (cbn; lia).
  gr_eval. rewrite !truthy_pos by lia. gr_eval.
  replace (r1 <=? r2) with true by lia.
  replace (c1 <=? c2) with true by lia.
  gr_eval. rewrite Ha, Hb. gr_eval. rewrite Ha, Hb. gr_eval.
  eexists. split; reflexivity.
Qed.

(** From the label to start and end. *)
Lemma init_label_cells (title : string) (r1 c1 r2 c2 : Z) (a b : string) :
  Py.contains "!" title = false ->
  1 <= r1 <= r2 -> 1 <= c1 <= c2 ->
  Address.label (Address.mk (Some r1, Some c1) true) = Ok a ->
  Address.label (Address.mk (Some r2, Some c2) true) = Ok b ->
  Py.contains "!" a = false -> Py.contains ":" a = false ->
  Py.contains "!" b = false -> Py.contains ":" b = false ->
  Address.__init__ (Address.Str a) true = Ok (Address.mk (Some r1, Some c1) true) ->
  Address.__init__ (Address.Str b) true = Ok (Address.mk (Some r2, Some c2) true) ->
  let lab := title +:+ "!" +:+ a +:+ ":" +:+ b in
  exists st,
    __init__ (Some lab) None Address.Falsy Address.Falsy None None None = Ok st
    /\ start_value st = Some (Some r1, Some c1)
    /\ end_value st = Some (Some r2, Some c2)
    /\ _label (self st) = Some lab
    /\ _worksheet_title (self st) = Some title.
Proof.
  intros Ht Hr Hc Ha Hb Ea Ca Eb Cb Pa Pb lab.
  assert (Hsplit : Py.split "!" lab = [title; a +:+ ":" +:+ b]).
  { change lab with (title +:+ String "!" (a +:+ String ":" b)).
    rewrite (split_at "!" title _ Ht). f_equal.
    apply split_none. rewrite contains_app, Ea. simpl. exact Eb. }
  assert (Hcolon : Py.contains ":" (a +:+ ":" +:+ b) = true).
  { change (a +:+ ":" +:+ b) with (a +:+ String ":" b).
    rewrite contains_app. simpl. now rewrite orb_true_r. }
  assert (Hsplit2 : Py.split ":" (a +:+ ":" +:+ b) = [a; b]).
  { change (a +:+ ":" +:+ b) with (a +:+ String ":" b).
    rewrite (split_at ":" a _ Ca). f_equal. now apply split_none. }
  assert (Hne : Py.nonempty lab = true).
  { change lab with (title +:+ String "!" (a +:+ String ":" b)).
    apply nonempty_app_cons. }
  unfold __init__. cbn [Address.__init__ Address._validate rbind].
  cbn. rewrite Hne.
  gr_eval. rewrite Hsplit. gr_eval.
  change (Address.__init__ Address.Falsy true)
    with (Ok (Address.mk (None, None) true)).
  gr_eval. rewrite Hcolon, Hsplit2. gr_eval.
  rewrite Pa. gr_eval. rewrite Pb. gr_eval.
  rewrite !truthy_pos by lia. gr_eval.
  replace (r1 <=? r2) with true by lia.
  replace (c1 <=? c2) with true by lia.
  gr_eval. rewrite Ha, Hb. gr_eval.
  eexists. split; [reflexivity |]. repeat split.
Qed.

End RangeLabels.

(** * The examples of the specification, run on the code *)

(** C1. [set_json] of the example object, then [to_json]: the start row
    index and the end column index come back as given, but the end row
    index comes back as 2 for 3, and the start column index as 1 for 0. *)
Theorem json_roundtrip_example :
  exists d,
    json_roundtrip example_json = Ok d
    /\ d !! "sheetId" = Some (Some 0)
    /\ d !! "startRowIndex" = Some (Some 0)
    /\ d !! "endRowIndex" = Some (Some 2)
    /\ d !! "startColumnIndex" = Some (Some 1)
    /\ d !! "endColumnIndex" = Some (Some 3).
Proof. eexists. split; [vm_compute; reflexivity |]. repeat split. Qed.

(** C2. A coordinate of 0 passes validation: Address((0, 1)) and
    Address((1, 0)) are constructed, and so is Address("A1") - (0, 1),
    with column 0.  A negative coordinate is rejected. *)
Theorem zero_coordinate_accepted :
  address_tuple (Address.Tuple (Some 0) (Some 1)) = Ok (Some 0, Some 1)
  /\ address_tuple (Address.Tuple (Some 1) (Some 0)) = Ok (Some 1, Some 0)
  /\ (a <-- Address.__init__ (Address.Str "A1") false ;;
      b <-- Address.__sub__ a (Address.OTuple (Some 0) (Some 1)) ;;
      Ok (Address._value b))%res = Ok (Some 1, Some 0)
  /\ address_tuple (Address.Tuple (Some (-1)) (Some 1))
     = Raise InvalidArgumentValue
  /\ address_tuple (Address.Tuple (Some 1) (Some (-1)))
     = Raise InvalidArgumentValue.
Proof. repeat split. Qed.

(** C5. A wholly unbound range on a worksheet of 100 rows and 26 columns:
    [get_bounded_indexes] gives ((0, 0), (100, 26)), so the height is 101
    and the width 27. *)
Theorem bounded_indexes_example :
  exists st,
    GridRange.__init__ None (Some sheet1)
      (Address.Tuple None None) (Address.Tuple None None) None None None
    = Ok st
    /\ fst (GridRange.get_bounded_indexes st)
       = Ok (Address.mk (Some 0, Some 0) false,
             Address.mk (Some 100, Some 26) false)
    /\ fst (GridRange.height st) = Ok 101
    /\ fst (GridRange.width st) = Ok 27.
Proof. eexists. split; [reflexivity |]. repeat split. Qed.

(** C6. Label and coordinates of a GridRange agree.  For every title
    without an exclamation mark and all cells (r1, c1), (r2, c2) with
    1 <= r1 <= r2 and 1 <= c1 <= c2: GridRange(start=(r1, c1),
    end=(r2, c2)) with that worksheet title has the label made of the
    title, an exclamation mark, the label of start, a colon and the label
    of end; and a GridRange made from that label has start (r1, c1) and
    end (r2, c2), that label and that title.  In particular
    GridRange(start=(1, 1), end=(3, 3)) on a worksheet titled Sheet1,
    attached or given by its title, has the label Sheet1!A1:C3, and a
    GridRange made from the label Sheet1!A1:C3 has start (1, 1) and end
    (3, 3). *)
Theorem range_label_consistent (title : string) (r1 c1 r2 c2 : Z) :
  Py.contains "!" title = false ->
  1 <= r1 <= r2 -> 1 <= c1 <= c2 ->
  (exists a b lab,
      Address.label (Address.mk (Some r1, Some c1) true) = Ok a
      /\ Address.label (Address.mk (Some r2, Some c2) true) = Ok b
      /\ lab = title +:+ "!" +:+ a +:+ ":" +:+ b
      /\ (exists st,
            GridRange.__init__ None None
              (Address.Tuple (Some r1) (Some c1))
              (Address.Tuple (Some r2) (Some c2))
              (Some title) None None = Ok st
            /\ GridRange._label (GridRange.self st) = Some lab)
      /\ (exists st,
            GridRange.__init__ (Some lab) None
              Address.Falsy Address.Falsy None None None = Ok st
            /\ GridRange.start_value st = Some (Some r1, Some c1)
            /\ GridRange.end_value st = Some (Some r2, Some c2)
            /\ GridRange._label (GridRange.self st) = Some lab
            /\ GridRange._worksheet_title (GridRange.self st) = Some title))
  /\ (exists st,
      GridRange.__init__ None (Some sheet1)
        (Address.Tuple (Some 1) (Some 1)) (Address.Tuple (Some 3) (Some 3))
        None None None = Ok st
      /\ GridRange._label (GridRange.self st) = Some "Sheet1!A1:C3")
  /\ (exists st,
      GridRange.__init__ None None
        (Address.Tuple (Some 1) (Some 1)) (Address.Tuple (Some 3) (Some 3))
        (Some "Sheet1") None None = Ok st
      /\ GridRange._label (GridRange.self st) = Some "Sheet1!A1:C3")
  /\ (exists st,
      GridRange.__init__ (Some "Sheet1!A1:C3") None
        Address.Falsy Address.Falsy None None None = Ok st
      /\ GridRange.start_value st = Some (Some 1, Some 1)
      /\ GridRange.end_value st = Some (Some 3, Some 3)
      /\ GridRange._label (GridRange.self st) = Some "Sheet1!A1:C3"
      /\ GridRange._worksheet_title (GridRange.self st) = Some "Sheet1").
Proof.
  intros Ht Hr Hc. split.
  - destruct (cell_label r1 c1 ltac:(lia) ltac:(lia))
      as (a & Ha & Ea & Ca & Pa).
    destruct (cell_label r2 c2 ltac:(lia) ltac:(lia))
      as (b & Hb & Eb & Cb & Pb).
    exists a, b, (title +:+ "!" +:+ a +:+ ":" +:+ b).
    split; [exact Ha |]. split; [exact Hb |]. split; [reflexivity |]. split.
    + exact (init_cells_label title r1 c1 r2 c2 a b Hr Hc Ha Hb).
    + exact (init_label_cells title r1 c1 r2 c2 a b
               Ht Hr Hc Ha Hb Ea Ca Eb Cb Pa Pb).
  - repeat split; eexists; (split; [vm_compute; reflexivity |]);
      repeat split.
Qed.

Lemma range_label_consistent_witness :
  Py.contains "!" "Sheet1" = false
  /\ 1 <= 1 <= 3
  /\ exists a b lab,
      Address.label (Address.mk (Some 1, Some 1) true) = Ok a
      /\ Address.label (Address.mk (Some 3, Some 3) true) = Ok b
      /\ lab = "Sheet1" +:+ "!" +:+ a +:+ ":" +:+ b
      /\ (exists st,
            GridRange.__init__ None None
              (Address.Tuple (Some 1) (Some 1))
              (Address.Tuple (Some 3) (Some 3))
              (Some "Sheet1") None None = Ok st
            /\ GridRange._label (GridRange.self st) = Some lab)
      /\ (exists st,
            GridRange.__init__ (Some lab) None
              Address.Falsy Address.Falsy None None None = Ok st
            /\ GridRange.start_value st = Some (Some 1, Some 1)
            /\ GridRange.end_value st = Some (Some 3, Some 3)
            /\ GridRange._label (GridRange.self st) = Some lab
            /\ GridRange._worksheet_title (GridRange.self st)
               = Some "Sheet1").
Proof.
  split; [reflexivity |]. split; [lia |].
  apply (range_label_consistent "Sheet1" 1 1 3 3); [reflexivity | lia | lia].
Defined.

(** C7. Characters after the letters and digits are not looked at:
    Address("A1B2") is the cell (1, 1), and with unbound axes allowed
    Address("1A") is row 1. *)
Theorem trailing_characters_ignored :
  address_tuple (Address.Str "A1B2") = Ok (Some 1, Some 1)
  /\ Address.__init__ (Address.Str "A1B2") true
     = Ok (Address.mk (Some 1, Some 1) true)
  /\ Address.__init__ (Address.Str "1A") true
     = Ok (Address.mk (Some 1, None) true)
  /\ address_tuple (Address.Str "1A") = Raise IncorrectCellLabel.
Proof. repeat split. Qed.

(** C10. With [allow_non_single] false, a missing row is rejected but a
    missing column is not: Address((None, 1)) raises, Address((1, None))
    is constructed. *)
Theorem missing_column_accepted :
  address_tuple (Address.Tuple None (Some 1)) = Raise InvalidArgumentValue
  /\ address_tuple (Address.Tuple (Some 1) None) = Ok (Some 1, None)
  /\ (forall r, Address._validate (Address.mk (Some r, None) false)
                = Address.check_component (Some r)).
Proof.
  repeat split. intros r.
  unfold Address._validate, Address.row, Address.col.
  cbn [Address._value Address.allow_non_single fst snd Py.is_none orb andb
       negb].
  now destruct (Address.check_component (Some r)) as [[]|].
Qed.

(** * Address: letters are read without regard to case *)

Section Parsing.

Lemma span_fst_all p (s : string) : all_chars p (fst (Py.span p s)) = true.
Proof.
  induction s as [|c s IH]; simpl; [reflexivity |].
  destruct (p c) eqn:E; [| reflexivity].
  destruct (Py.span p s). simpl in *. now rewrite E.
Qed.

Lemma is_alpha_upper_char (c : ascii) :
  Py.is_alpha (Py.upper_char c) = Py.is_alpha c.
Proof.
  unfold Py.upper_char.
  destruct ((97 <=? Py.ord c) && (Py.ord c <=? 122)) eqn:E; [| reflexivity].
  pose proof (ord_range c). unfold Py.is_alpha.
  rewrite ord_chr by lia. lia.
Qed.

Lemma upper_char_idem (c : ascii) :
  Py.upper_char (Py.upper_char c) = Py.upper_char c.
Proof.
  unfold Py.upper_char at 2 3.
  destruct ((97 <=? Py.ord c) && (Py.ord c <=? 122)) eqn:E.
  - unfold Py.upper_char. pose proof (ord_range c).
    rewrite ord_chr by lia.
    destruct ((97 <=? Py.ord c - 32) && (Py.ord c - 32 <=? 122)) eqn:E'; [lia | reflexivity].
  - unfold Py.upper_char. now rewrite E.
Qed.

Lemma upper_char_not_alpha (c : ascii) :
  Py.is_alpha c = false -> Py.upper_char c = c.
Proof.
  unfold Py.is_alpha, Py.upper_char. intros H.
  destruct ((97 <=? Py.ord c) && (Py.ord c <=? 122)) eqn:E; [lia | reflexivity].
Qed.

Lemma upper_idem (s : string) : Py.upper (Py.upper s) = Py.upper s.
Proof.
  induction s as [|c s IH]; simpl; [reflexivity |].
  now rewrite upper_char_idem, IH.
Qed.

Lemma upper_all_upper (s : string) :
  all_chars Py.is_alpha s = true -> all_chars is_upper (Py.upper s) = true.
Proof.
  induction s as [|c s IH]; simpl; [reflexivity |].
  intros [Hc Hs]%andb_true_iff. rewrite (IH Hs), andb_true_r.
  unfold Py.is_alpha in Hc. unfold is_upper, Py.upper_char.
  pose proof (ord_range c).
  destruct ((97 <=? Py.ord c) && (Py.ord c <=? 122)) eqn:E.
  - rewrite ord_chr by lia. lia.
  - lia.
Qed.

Lemma nonempty_upper (s : string) : Py.nonempty (Py.upper s) = Py.nonempty s.
Proof. now destruct s. Qed.

(** The letters group of an upper-cased label is the upper-cased letters
    group, and so for what follows it. *)
Lemma span_alpha_upper (s : string) :
  Py.span Py.is_alpha (Py.upper s)
  = (Py.upper (fst (Py.span Py.is_alpha s)),
     Py.upper (snd (Py.span Py.is_alpha s))).
Proof.
  induction s as [|c s IH]; simpl; [reflexivity |].
  rewrite is_alpha_upper_char.
  destruct (Py.is_alpha c) eqn:E.
  - rewrite IH. now destruct (Py.span Py.is_alpha s).
  - reflexivity.
Qed.

Lemma is_digit_upper_char (c : ascii) :
  Py.is_digit (Py.upper_char c) = Py.is_digit c.
Proof.
  unfold Py.upper_char.
  destruct ((97 <=? Py.ord c) && (Py.ord c <=? 122)) eqn:E; [| reflexivity].
  pose proof (ord_range c). unfold Py.is_digit.
  rewrite ord_chr by lia. lia.
Qed.

Lemma upper_char_digit (c : ascii) :
  Py.is_digit c = true -> Py.upper_char c = c.
Proof.
  intros H. apply upper_char_not_alpha. now apply digit_not_alpha.
Qed.

(** Upper-casing does not touch the digits group. *)
Lemma span_digit_upper (s : string) :
  fst (Py.span Py.is_digit (Py.upper s)) = fst (Py.span Py.is_digit s).
Proof.
  induction s as [|c s IH]; simpl; [reflexivity |].
  rewrite is_digit_upper_char.
  destruct (Py.is_digit c) eqn:E; [| reflexivity].
  rewrite (upper_char_digit c E).
  destruct (Py.span Py.is_digit (Py.upper s)), (Py.span Py.is_digit s).
  simpl in *. now rewrite IH.
Qed.

Lemma label_to_coordinates_upper (allow : bool) (s : string) :
  Address._label_to_coordinates allow (Py.upper s)
  = Address._label_to_coordinates allow s.
Proof.
  unfold Address._label_to_coordinates, Py.re_match_label.
  rewrite span_alpha_upper.
  destruct (Py.span Py.is_alpha s) as [g1 rest]. cbn [fst snd].
  pose proof (span_digit_upper rest) as Hd.
  destruct (Py.span Py.is_digit (Py.upper rest)) as [g2 r2].
  destruct (Py.span Py.is_digit rest) as [g2' r2'].
  cbn [fst] in Hd. subst g2'. now rewrite upper_idem.
Qed.

Lemma upper_char_of_lower (a b : ascii) :
  is_upper a = true -> Py.ord b = Py.ord a + 32 ->
  Py.upper_char a = a /\ Py.upper_char b = a.
Proof.
  unfold is_upper, Py.upper_char. intros Hu Hb.
  apply andb_true_iff in Hu as [H1 H2]. apply Z.leb_le in H1, H2.
  split.
  - destruct ((97 <=? Py.ord a) && (Py.ord a <=? 122)) eqn:E; [| reflexivity].
    apply andb_true_iff in E as [E1 _]. apply Z.leb_le in E1. lia.
  - destruct ((97 <=? Py.ord b) && (Py.ord b <=? 122)) eqn:E.
    + replace (Py.ord b - 32) with (Py.ord a) by lia.
      unfold Py.chr, Py.ord. rewrite N2Z.id. apply ascii_N_embedding.
    + apply andb_false_iff in E as [E | E]; apply Z.leb_gt in E; lia.
Qed.

Lemma same_letter_upper (a b : ascii) :
  same_letter a b = true -> Py.upper_char a = Py.upper_char b.
Proof.
  unfold same_letter. intros H.
  apply orb_true_iff in H as [H | H]; [apply orb_true_iff in H as [H | H] |].
  - apply Ascii.eqb_eq in H. now subst.
  - apply andb_true_iff in H as [Hu Ho]. apply Z.eqb_eq in Ho.
    destruct (upper_char_of_lower a b Hu Ho) as [-> ->]. reflexivity.
  - apply andb_true_iff in H as [Hu Ho]. apply Z.eqb_eq in Ho.
    destruct (upper_char_of_lower b a Hu Ho) as [-> ->]. reflexivity.
Qed.

Lemma same_but_case_upper (s t : string) :
  same_but_case s t = true -> Py.upper s = Py.upper t.
Proof.
  revert t. induction s as [|a s IH]; intros [|b t]; simpl; try discriminate.
  - reflexivity.
  - intros H. apply andb_true_iff in H as [Hc Hs].
    now rewrite (same_letter_upper a b Hc), (IH t Hs).
Qed.

End Parsing.

(** X1. The letters A-Z are read without regard to case: two strings of
    the same length that agree character by character, but for the case of
    letters of A-Z, give the same Address, or the same error.  Every other
    character has to be the same in both strings. *)
Theorem address_label_case_insensitive (s t : string) (allow : bool) :
  same_but_case s t = true ->
  Address.__init__ (Address.Str s) allow
  = Address.__init__ (Address.Str t) allow.
Proof.
  intros H. apply same_but_case_upper in H. cbn [Address.__init__].
  rewrite <- (label_to_coordinates_upper allow s).
  rewrite <- (label_to_coordinates_upper allow t).
  now rewrite H.
Qed.

Lemma address_label_case_insensitive_witness :
  Address.__init__ (Address.Str "ab12") false
  = Address.__init__ (Address.Str "Ab12") false.
Proof. apply address_label_case_insensitive. reflexivity. Defined.

(** * Canonical numerals and column letters *)

Section Canonical.

Lemma chr_ord (c : ascii) : Py.chr (Py.ord c) = c.
Proof.
  unfold Py.chr, Py.ord. rewrite N2Z.id. apply ascii_N_embedding.
Qed.

(** Induction on a string from its end. *)
Lemma string_snoc_ind (P : string -> Prop) :
  P "" -> (forall s c, P s -> P (snoc s c)) -> forall s, P s.
Proof.
  intros Hnil Hsnoc.
  assert (H : forall s acc, P acc -> P (acc +:+ s)).
  { induction s as [|c s IH]; intros acc Hacc.
    - now rewrite app_empty_r.
    - replace (acc +:+ String c s) with (snoc acc c +:+ s)
        by (unfold snoc; now rewrite app_assoc).
      apply IH, Hsnoc, Hacc. }
  intros s. apply (H s "" Hnil).
Qed.

Lemma all_chars_snoc p (s : string) (c : ascii) :
  all_chars p (snoc s c) = all_chars p s && p c.
Proof. unfold snoc. rewrite all_chars_app. simpl. now rewrite andb_true_r. Qed.

Lemma col_of_bounds (s : string) :
  all_chars is_upper s = true ->
  0 <= col_of s /\ (Py.nonempty s = true -> 1 <= col_of s).
Proof.
  induction s as [|s c IH] using string_snoc_ind.
  - intros _. split; [reflexivity | discriminate].
  - rewrite all_chars_snoc. intros [Hs Hc]%andb_true_iff.
    destruct (IH Hs) as [H0 _]. rewrite col_of_snoc.
    unfold is_upper in Hc. unfold Address._MAGIC_NUMBER. lia.
Qed.

Lemma int_loop_lower (s : string) :
  all_chars Py.is_digit s = true ->
  forall acc, 0 <= acc -> acc <= Py.int_loop s acc.
Proof.
  induction s as [|c s IH]; cbn [all_chars Py.int_loop]; [lia |].
  intros [Hc Hs]%andb_true_iff acc Hacc. unfold Py.is_digit in Hc.
  assert (Hacc' : 0 <= 10 * acc + (Py.ord c - 48)) by lia.
  specialize (IH Hs _ Hacc'). lia.
Qed.

Lemma int_nonneg (s : string) :
  all_chars Py.is_digit s = true -> 0 <= Py.int s.
Proof. intros H. now apply (int_loop_lower s H 0). Qed.

Lemma ord_zero (c : ascii) : Ascii.eqb c "0" = false -> Py.ord c <> 48.
Proof.
  intros H Ho. apply Ascii.eqb_neq in H. apply H.
  rewrite <- (chr_ord c), Ho. reflexivity.
Qed.

Lemma int_pos (s : string) :
  all_chars Py.is_digit s = true -> Py.nonempty s = true ->
  no_leading_zero s = true -> 1 <= Py.int s.
Proof.
  destruct s as [|c s]; [discriminate |]. simpl.
  intros [Hc Hs]%andb_true_iff _ Hz.
  apply negb_true_iff, ord_zero in Hz. unfold Py.is_digit in Hc.
  unfold Py.int. cbn [Py.int_loop].
  assert (H0 : 0 <= 10 * 0 + (Py.ord c - 48)) by lia.
  pose proof (int_loop_lower s Hs _ H0). lia.
Qed.

Lemma int_snoc (s : string) (c : ascii) :
  Py.int (snoc s c) = 10 * Py.int s + (Py.ord c - 48).
Proof. unfold Py.int, snoc. now rewrite int_loop_app. Qed.

Lemma nonempty_app_l (a b : string) :
  Py.nonempty a = true -> Py.nonempty (a +:+ b) = true.
Proof. now destruct a. Qed.

Lemma no_leading_zero_app (a b : string) :
  Py.nonempty a = true -> no_leading_zero (a +:+ b) = no_leading_zero a.
Proof. now destruct a. Qed.

(** The letters of a column number are the letters it was read from. *)
Lemma column_loop_of_letters (cl : string) :
  all_chars is_upper cl = true ->
  forall fuel, col_of cl < 2 ^ Z.of_nat fuel ->
    Address.column_loop fuel (col_of cl) "" = Some cl.
Proof.
  induction cl as [|d c IH] using string_snoc_ind.
  - intros _ fuel _. now destruct fuel.
  - rewrite all_chars_snoc. intros [Hd Hc]%andb_true_iff fuel Hfuel.
    destruct (col_of_bounds d Hd) as [Hd0 _].
    rewrite col_of_snoc in *. unfold is_upper in Hc.
    unfold Address._MAGIC_NUMBER in *.
    set (k := Py.ord c - 64) in *. set (q := col_of d) in *.
    destruct fuel as [|f]; [simpl in Hfuel; lia |].
    rewrite Nat2Z.inj_succ, Z.pow_succ_r in Hfuel by lia.
    simpl. destruct (k + 26 * q =? 0) eqn:E0; [lia |].
    destruct (Z.eq_dec k 26) as [Hk | Hk].
    + assert (Hm : (k + 26 * q) mod 26 = 0).
      { symmetry. apply (Z.mod_unique _ _ (q + 1)); lia. }
      assert (Hq : (k + 26 * q) / 26 = q + 1).
      { symmetry. apply (Z.div_unique _ _ _ 0); lia. }
      rewrite Hm, Hq. simpl.
      replace (q + 1 - 1) with q by lia.
      rewrite column_loop_app, (IH Hd f ltac:(lia)). simpl.
      unfold snoc, Address._MAGIC_NUMBER.
      replace (26 + 64) with (Py.ord c) by (subst k; lia).
      now rewrite chr_ord.
    + assert (Hm : (k + 26 * q) mod 26 = k).
      { symmetry. apply (Z.mod_unique _ _ q); lia. }
      assert (Hq : (k + 26 * q) / 26 = q).
      { symmetry. apply (Z.div_unique _ _ _ k); lia. }
      rewrite Hm, Hq.
      destruct (k =? 0) eqn:Ek; [lia |].
      rewrite column_loop_app, (IH Hd f ltac:(lia)). simpl.
      unfold snoc, Address._MAGIC_NUMBER.
      replace (k + 64) with (Py.ord c) by (subst k; lia).
      now rewrite chr_ord.
Qed.

(** The digits of a number are the digits it was read from, when these
    have no leading zero. *)
Lemma digits_loop_of_digits (dl : string) :
  all_chars Py.is_digit dl = true -> Py.nonempty dl = true ->
  no_leading_zero dl = true ->
  forall fuel, Py.int dl < 2 ^ Z.of_nat fuel ->
    Py.digits_loop fuel (Py.int dl) "" = dl.
Proof.
  induction dl as [|d c IH] using string_snoc_ind; [discriminate |].
  rewrite all_chars_snoc. intros [Hd Hc]%andb_true_iff _ Hz fuel Hfuel.
  rewrite int_snoc in *. unfold Py.is_digit in Hc.
  set (k := Py.ord c - 48) in *.
  pose proof (int_nonneg d Hd) as Hd0.
  assert (Hm : (10 * Py.int d + k) mod 10 = k).
  { symmetry. apply (Z.mod_unique _ _ (Py.int d)); lia. }
  assert (Hq : (10 * Py.int d + k) / 10 = Py.int d).
  { symmetry. apply (Z.div_unique _ _ _ k); lia. }
  assert (Hch : Py.chr (48 + k) = c).
  { replace (48 + k) with (Py.ord c) by (subst k; lia). apply chr_ord. }
  destruct d as [|x d].
  - change (Py.int "") with 0 in *.
    destruct fuel as [|f]; simpl; rewrite ?Hm, ?Hq, Hch; reflexivity.
  - assert (Hpos : 1 <= Py.int (String x d)).
    { apply int_pos; [assumption | reflexivity |].
      unfold snoc in Hz. now rewrite no_leading_zero_app in Hz. }
    destruct fuel as [|f]; [simpl in Hfuel; lia |].
    rewrite Nat2Z.inj_succ, Z.pow_succ_r in Hfuel by lia.
    simpl Py.digits_loop. rewrite Hm, Hq, Hch.
    destruct (Py.int (String x d) =? 0) eqn:E0; [lia |].
    rewrite digits_loop_app. unfold snoc. f_equal.
    apply IH; [assumption | reflexivity | | lia].
    unfold snoc in Hz. now rewrite no_leading_zero_app in Hz.
Qed.

Lemma str_of_int (dl : string) :
  all_chars Py.is_digit dl = true -> Py.nonempty dl = true ->
  no_leading_zero dl = true -> Py.str (Py.int dl) = dl.
Proof.
  intros Hd Hne Hz. pose proof (int_nonneg dl Hd) as H0.
  unfold Py.str. destruct (Py.int dl <? 0) eqn:E; [lia |].
  apply digits_loop_of_digits; try assumption. now apply bits_bound.
Qed.

(** The digits of a positive number have no leading zero. *)
Lemma digits_loop_head (fuel : nat) :
  forall n, 1 <= n < 2 ^ Z.of_nat fuel ->
    no_leading_zero (Py.digits_loop fuel n "") = true.
Proof.
  assert (Hone : forall n, 1 <= n -> n / 10 = 0 ->
    no_leading_zero (String (Py.chr (48 + n mod 10)) "") = true).
  { intros n Hn Hq. simpl. apply negb_true_iff, Ascii.eqb_neq.
    intros Hc. apply (f_equal Py.ord) in Hc.
    pose proof (Z.mod_pos_bound n 10 ltac:(lia)).
    pose proof (Z.div_mod n 10 ltac:(lia)).
    rewrite ord_chr in Hc by lia. change (Py.ord "0") with 48 in Hc. lia. }
  induction fuel as [|f IH]; intros n Hn.
  - simpl in Hn. lia.
  - simpl. destruct (n / 10 =? 0) eqn:Hq; [apply Hone; lia |].
    rewrite digits_loop_app.
    assert (Hn' : 1 <= n / 10 < 2 ^ Z.of_nat f).
    { rewrite Nat2Z.inj_succ, Z.pow_succ_r in Hn by lia.
      pose proof (Z.div_pos n 10 ltac:(lia) ltac:(lia)).
      split; [lia | apply Z.div_lt_upper_bound; lia]. }
    destruct (digits_loop_spec f (n / 10) ltac:(lia)) as (_ & Hne & _).
    rewrite no_leading_zero_app by assumption. now apply IH.
Qed.

Lemma str_no_leading_zero (n : Z) :
  1 <= n -> no_leading_zero (Py.str n) = true.
Proof.
  intros Hn. unfold Py.str. destruct (n <? 0) eqn:E; [lia |].
  apply digits_loop_head. split; [lia | apply bits_bound; lia].
Qed.

End Canonical.

(** * Address: what the constructor returns *)

Section ParsedAddresses.

(** What a label parses to, by its letters group and digits group. *)
Lemma label_to_coordinates_unfold (allow : bool) (s : string) :
  let g1 := fst (Py.span Py.is_alpha s) in
  let g2 := fst (Py.span Py.is_digit (snd (Py.span Py.is_alpha s))) in
  let col := if Py.nonempty g1 then Some (col_of (Py.upper g1)) else None in
  let row := if Py.nonempty g2 then Some (Py.int g2) else None in
  Address._label_to_coordinates allow s
  = if negb allow && negb (Py.truthy row && Py.truthy col)
    then Raise IncorrectCellLabel else Ok (row, col).
Proof.
  unfold Address._label_to_coordinates, Py.re_match_label.
  destruct (Py.span Py.is_alpha s) as [g1 rest]. cbn [fst snd].
  destruct (Py.span Py.is_digit rest) as [g2 r2]. cbn [fst snd].
  rewrite nonempty_upper. reflexivity.
Qed.

(** The coordinates that a label parses to are in range. *)
Lemma label_to_coordinates_range (allow : bool) (s : string) row col :
  Address._label_to_coordinates allow s = Ok (row, col) ->
  coordinate_nonneg row /\ coordinate_ok col
  /\ (allow = false -> Py.truthy row = true /\ Py.truthy col = true).
Proof.
  rewrite label_to_coordinates_unfold. cbv zeta.
  pose proof (span_fst_all Py.is_alpha s) as Ha.
  pose proof (span_fst_all Py.is_digit (snd (Py.span Py.is_alpha s))) as Hd.
  set (g1 := fst (Py.span Py.is_alpha s)) in *.
  set (g2 := fst (Py.span Py.is_digit (snd (Py.span Py.is_alpha s)))) in *.
  set (c0 := if Py.nonempty g1 then Some (col_of (Py.upper g1)) else None).
  set (r0 := if Py.nonempty g2 then Some (Py.int g2) else None).
  assert (Hc0 : coordinate_ok c0).
  { subst c0. destruct (Py.nonempty g1) eqn:E; [| exact I]. cbn.
    apply col_of_bounds; [now apply upper_all_upper |].
    now rewrite nonempty_upper. }
  assert (Hr0 : coordinate_nonneg r0).
  { subst r0. destruct (Py.nonempty g2); [| exact I]. cbn.
    now apply int_nonneg. }
  destruct (negb allow && negb (Py.truthy r0 && Py.truthy c0)) eqn:E;
    [discriminate |].
  intros [= <- <-]. split; [assumption |]. split; [assumption |].
  intros ->. destruct (Py.truthy r0), (Py.truthy c0); easy.
Qed.

Lemma check_component_nonneg (v : option Z) :
  coordinate_nonneg v -> Address.check_component v = Ok tt.
Proof.
  destruct v as [n|]; [| reflexivity]. cbn. intros Hn.
  destruct (n =? 0) eqn:E0; [reflexivity |]. cbn.
  destruct (n <? 1) eqn:E1; [lia | reflexivity].
Qed.

Lemma validate_nonneg (row col : option Z) (allow : bool) :
  coordinate_nonneg row -> coordinate_nonneg col ->
  (allow = false -> row <> None) ->
  Address._validate (Address.mk (row, col) allow) = Ok tt.
Proof.
  intros Hr Hc Ha. unfold Address._validate, Address.row, Address.col.
  cbn [Address._value Address.allow_non_single fst snd].
  rewrite !check_component_nonneg by assumption.
  destruct allow; [reflexivity |].
  destruct row; [reflexivity | now destruct Ha].
Qed.

Lemma coordinate_ok_nonneg (v : option Z) :
  coordinate_ok v -> coordinate_nonneg v.
Proof. destruct v; cbn; [lia | easy]. Qed.

Lemma truthy_some (v : option Z) : Py.truthy v = true -> v <> None.
Proof. now destruct v. Qed.

(** An Address read from a label is valid. *)
Lemma init_str_valid (s : string) (allow : bool) a :
  Address.__init__ (Address.Str s) allow = Ok a ->
  Address.allow_non_single a = allow /\ Address._validate a = Ok tt.
Proof.
  cbn [Address.__init__].
  destruct (Address._label_to_coordinates allow s) as [[row col]|] eqn:E;
    [| discriminate].
  cbn [rbind]. intros [= <-]. split; [reflexivity |].
  destruct (label_to_coordinates_range _ _ _ _ E) as (Hr & Hc & Ha).
  apply validate_nonneg; [assumption | now apply coordinate_ok_nonneg |].
  intros H. apply truthy_some, (Ha H).
Qed.

Lemma init_valid (value : Address.arg) (allow : bool) a :
  Address.__init__ value allow = Ok a ->
  Address.allow_non_single a = allow /\ Address._validate a = Ok tt.
Proof.
  destruct value as [s | r c | | a0 | |]; try discriminate.
  - apply init_str_valid.
  - cbn [Address.__init__].
    destruct (Address._validate (Address.mk (r, c) allow)) as [[]|] eqn:E;
      [| discriminate].
    cbn [rbind]. intros [= <-]. auto.
  - cbn [Address.__init__].
    destruct (negb (Address.__bool__ a0) && allow) eqn:Eb.
    + apply andb_true_iff in Eb as [_ ->]. cbn. intros [= <-]. auto.
    + destruct (Address.label a0) as [l|] eqn:El; [| discriminate].
      cbn [rbind]. apply init_str_valid.
  - cbn [Address.__init__]. destruct allow; [| discriminate].
    cbn. intros [= <-]. auto.
Qed.

End ParsedAddresses.

(** X2. A string given to Address with allow_non_single False gives a
    single cell with row and column at least 1, or raises
    IncorrectCellLabel; no other outcome. *)
Theorem address_of_label_single (s : string) :
  (exists r c,
      1 <= r /\ 1 <= c
      /\ Address.__init__ (Address.Str s) false
         = Ok (Address.mk (Some r, Some c) false))
  \/ Address.__init__ (Address.Str s) false = Raise IncorrectCellLabel.
Proof.
  cbn [Address.__init__].
  destruct (Address._label_to_coordinates false s) as [[row col]|e] eqn:E.
  - left.
    destruct (label_to_coordinates_range _ _ _ _ E) as (Hr & Hc & Ha).
    destruct (Ha eq_refl) as [Tr Tc].
    destruct row as [r|]; [| discriminate]. destruct col as [c|]; [| discriminate].
    exists r, c. cbn in Hr, Hc, Tr.
    destruct (r =? 0) eqn:E0; [discriminate |]. repeat split; [lia | lia].
  - right. rewrite label_to_coordinates_unfold in E. cbv zeta in E.
    destruct (negb false && _) in E; [| discriminate]. now injection E as <-.
Qed.

(** X3. With allow_non_single True every string is accepted: the
    constructor returns an Address whose row, if present, is not negative
    and whose column, if present, is at least 1. *)
Theorem address_of_label_any (s : string) :
  exists row col,
    Address.__init__ (Address.Str s) true = Ok (Address.mk (row, col) true)
    /\ coordinate_nonneg row /\ coordinate_ok col.
Proof.
  cbn [Address.__init__].
  destruct (Address._label_to_coordinates true s) as [[row col]|e] eqn:E.
  - destruct (label_to_coordinates_range _ _ _ _ E) as (Hr & Hc & _).
    exists row, col. auto.
  - rewrite label_to_coordinates_unfold in E. discriminate.
Qed.

(** X4. Every Address that the constructor returns keeps the flag it was
    given, passes validation, and has a label. *)
Theorem address_constructed_has_label
  (value : Address.arg) (allow : bool) (a : Address.t) :
  Address.__init__ value allow = Ok a ->
  Address.allow_non_single a = allow
  /\ Address._validate a = Ok tt
  /\ exists lab, Address.label a = Ok lab.
Proof.
  intros H. destruct (init_valid value allow a H) as [Hf Hv].
  repeat split; try assumption. now apply label_total.
Qed.

Lemma address_constructed_has_label_witness :
  exists lab,
    Address.label (Address.mk (Some 7, Some 28) false) = Ok lab.
Proof.
  apply (address_constructed_has_label (Address.Str "ab7") false).
  reflexivity.
Defined.

(** * Address: the shape of labels *)

Section LabelShape.

(** A coordinate that validation accepted is, when truthy, at least 1. *)
Lemma check_component_truthy (v : option Z) :
  Address.check_component v = Ok tt -> Py.truthy v = true ->
  exists n, v = Some n /\ 1 <= n.
Proof.
  destruct v as [n|]; [| discriminate]. unfold Address.check_component.
  intros H Ht. rewrite Ht in H. exists n. split; [reflexivity |].
  destruct (n <? 1) eqn:E; [discriminate | lia].
Qed.

Lemma validate_components (a : Address.t) :
  Address._validate a = Ok tt ->
  Address.check_component (Address.row a) = Ok tt
  /\ Address.check_component (Address.col a) = Ok tt.
Proof.
  unfold Address._validate. destruct (negb _ && _); [discriminate |].
  destruct (Address.check_component (Address.row a)) as [[]|]; [| discriminate].
  cbn [rbind]. auto.
Qed.

(** The two parts of a label. *)
Lemma label_parts (a : Address.t) :
  Address._validate a = Ok tt ->
  exists cl dl,
    Address.label a = Ok (cl +:+ dl)
    /\ (if Py.truthy (Address.col a)
        then exists c, Address.col a = Some c /\ 1 <= c
                       /\ Address.column_loop (Py.bits c) c "" = Some cl
        else cl = "")
    /\ (if Py.truthy (Address.row a)
        then exists r, Address.row a = Some r /\ 1 <= r /\ dl = Py.str r
        else dl = "").
Proof.
  intros Hv. destruct (validate_components a Hv) as [Hr Hc].
  unfold Address.label, Address._value_as_label. rewrite Hv. cbn [rbind].
  assert (Hrow : exists dl,
    match Address.row a with
    | Some r => if Py.truthy (Address.row a) then Py.str r else ""
    | None => ""
    end = dl
    /\ (if Py.truthy (Address.row a)
        then exists r, Address.row a = Some r /\ 1 <= r /\ dl = Py.str r
        else dl = "")).
  { destruct (Py.truthy (Address.row a)) eqn:Tr.
    - destruct (check_component_truthy _ Hr Tr) as (r & Er & Hr1).
      rewrite Er. eauto 10.
    - exists "". split; [now destruct (Address.row a) | reflexivity]. }
  destruct Hrow as (dl & -> & Hdl).
  assert (Hcol : exists cl,
    match Address.col a with
    | Some c =>
        if Py.truthy (Address.col a) then
          match Address.column_loop (Py.bits c) c "" with
          | Some s => Ok s
          | None => Raise Diverges
          end
        else Ok ""
    | None => Ok ""
    end = Ok cl
    /\ (if Py.truthy (Address.col a)
        then exists c, Address.col a = Some c /\ 1 <= c
                       /\ Address.column_loop (Py.bits c) c "" = Some cl
        else cl = "")).
  { destruct (Py.truthy (Address.col a)) eqn:Tc.
    - destruct (check_component_truthy _ Hc Tc) as (c & Ec & Hc1).
      rewrite Ec.
      destruct (column_loop_terminates c ltac:(lia)) as [cl Hcl].
      rewrite Hcl. eauto 10.
    - exists "". split; [now destruct (Address.col a) | reflexivity]. }
  destruct Hcol as (cl & -> & Hcl). cbn [rbind]. eauto.
Qed.

Lemma col_of_inj (a b : string) :
  all_chars is_upper a = true -> all_chars is_upper b = true ->
  col_of a = col_of b -> a = b.
Proof.
  intros Ha Hb Heq.
  destruct (col_of_bounds a Ha) as [H0 _].
  pose proof (column_loop_of_letters a Ha (Py.bits (col_of a))
                (bits_bound _ H0)) as Ea.
  pose proof (column_loop_of_letters b Hb (Py.bits (col_of a))) as Eb.
  rewrite <- Heq in Eb. specialize (Eb (bits_bound _ H0)). congruence.
Qed.

(** Parsing capital letters followed by digits, either of which may be
    missing. *)
Lemma label_to_coordinates_parts (cl dl : string) :
  all_chars is_upper cl = true -> all_chars Py.is_digit dl = true ->
  Address._label_to_coordinates true (cl +:+ dl)
  = Ok (if Py.nonempty dl then Some (Py.int dl) else None,
        if Py.nonempty cl then Some (col_of cl) else None).
Proof.
  intros Hup Hdig. rewrite label_to_coordinates_unfold. cbv zeta.
  rewrite (span_app Py.is_alpha cl dl)
    by (eapply all_chars_impl; [apply upper_is_alpha | exact Hup]).
  rewrite (span_none Py.is_alpha Py.is_digit dl digit_not_alpha Hdig).
  cbn [fst snd]. rewrite app_empty_r, (span_all Py.is_digit dl Hdig).
  cbn [fst]. now rewrite (upper_of_upper cl Hup).
Qed.

End LabelShape.

(** X5. The label of a valid Address is a run of capital letters followed
    by a run of decimal digits with no leading zero; the letters are
    there exactly when the column is bound (and not zero), the digits
    exactly when the row is. *)
Theorem address_label_shape (a : Address.t) :
  Address._validate a = Ok tt ->
  exists cl dl,
    Address.label a = Ok (cl +:+ dl)
    /\ all_chars is_upper cl = true
    /\ all_chars Py.is_digit dl = true
    /\ no_leading_zero dl = true
    /\ Py.nonempty cl = Py.truthy (Address.col a)
    /\ Py.nonempty dl = Py.truthy (Address.row a).
Proof.
  intros Hv. destruct (label_parts a Hv) as (cl & dl & Hl & Hc & Hr).
  exists cl, dl. split; [exact Hl |].
  assert (Hcl : all_chars is_upper cl = true
                /\ Py.nonempty cl = Py.truthy (Address.col a)).
  { destruct (Py.truthy (Address.col a)).
    - destruct Hc as (c & _ & Hc1 & Hloop).
      destruct (column_loop_spec (Py.bits c) c) as (s & Hs & Hup & _ & Hne).
      { split; [lia | apply bits_bound; lia]. }
      assert (s = cl) as -> by congruence.
      split; [assumption | apply Hne; lia].
    - subst cl. auto. }
  assert (Hdl : all_chars Py.is_digit dl = true
                /\ no_leading_zero dl = true
                /\ Py.nonempty dl = Py.truthy (Address.row a)).
  { destruct (Py.truthy (Address.row a)).
    - destruct Hr as (r & _ & Hr1 & ->).
      destruct (str_spec r ltac:(lia)) as (Hd & Hne & _).
      repeat split; [assumption | now apply str_no_leading_zero | assumption].
    - subst dl. auto. }
  tauto.
Qed.

Lemma address_label_shape_witness :
  exists cl dl,
    Address.label (Address.mk (Some 10, Some 27) true) = Ok (cl +:+ dl)
    /\ all_chars is_upper cl = true
    /\ all_chars Py.is_digit dl = true
    /\ no_leading_zero dl = true
    /\ Py.nonempty cl = true
    /\ Py.nonempty dl = true.
Proof.
  apply (address_label_shape (Address.mk (Some 10, Some 27) true)).
  reflexivity.
Defined.

(** X6. Label, parse, label: for capital letters [cl] and decimal digits
    [dl] with no leading zero (either may be empty), the Address that
    Address(cl + dl, allow_non_single=True) returns has the label
    cl + dl again. *)
Theorem address_parse_label_roundtrip (cl dl : string) :
  all_chars is_upper cl = true ->
  all_chars Py.is_digit dl = true ->
  no_leading_zero dl = true ->
  (a <-- Address.__init__ (Address.Str (cl +:+ dl)) true ;;
   Address.label a)%res = Ok (cl +:+ dl).
Proof.
  intros Hup Hdig Hz. cbn [Address.__init__].
  rewrite (label_to_coordinates_parts cl dl Hup Hdig). cbn [rbind].
  set (a := Address.mk _ true).
  assert (Hv : Address._validate a = Ok tt).
  { apply validate_nonneg; [| | discriminate].
    - destruct (Py.nonempty dl); [| exact I]. now apply int_nonneg.
    - destruct (Py.nonempty cl); [| exact I].
      now apply col_of_bounds. }
  destruct (label_parts a Hv) as (cl' & dl' & Hl & Hc & Hr).
  rewrite Hl. do 2 f_equal.
  - subst a. unfold Address.col in Hc. cbn [Address._value snd] in Hc.
    destruct (Py.nonempty cl) eqn:Ne.
    + destruct (col_of_bounds cl Hup) as [H0 H1]. specialize (H1 Ne).
      rewrite (truthy_pos _ H1) in Hc.
      destruct Hc as (c & [= <-] & _ & Hloop).
      rewrite (column_loop_of_letters cl Hup) in Hloop
        by (apply bits_bound; lia).
      congruence.
    + cbn in Hc. subst cl'. now destruct cl.
  - subst a. unfold Address.row in Hr. cbn [Address._value fst] in Hr.
    destruct (Py.nonempty dl) eqn:Ne.
    + pose proof (int_pos dl Hdig Ne Hz) as H1.
      rewrite (truthy_pos _ H1) in Hr.
      destruct Hr as (r & [= <-] & _ & ->).
      now apply str_of_int.
    + cbn in Hr. subst dl'. now destruct dl.
Qed.

Lemma address_parse_label_roundtrip_witness :
  (a <-- Address.__init__ (Address.Str ("ZZ" +:+ "105")) true ;;
   Address.label a)%res = Ok ("ZZ" +:+ "105").
Proof. apply address_parse_label_roundtrip; reflexivity. Defined.

(** * Address: arithmetic and equality *)

Section Arithmetic.

Lemma check_component_some (n : Z) :
  Address.check_component (Some n) = Ok tt -> 0 <= n.
Proof.
  unfold Address.check_component, Py.truthy.
  destruct (n =? 0) eqn:E0; cbn; [lia |].
  destruct (n <? 1) eqn:E1; [discriminate | lia].
Qed.

(** What [+] and [-] return, when they return. *)
Lemma arith_result (op : Z -> Z -> Z) (self : Address.t)
  (o : option Z * option Z) (b : Address.t) :
  (r' <-- Address.arith op (Address.row self) (fst o) ;;
   c' <-- Address.arith op (Address.col self) (snd o) ;;
   Address.__init__ (Address.Tuple r' c') false)%res = Ok b ->
  exists r c dr dc,
    Address._value self = (Some r, Some c) /\ o = (Some dr, Some dc)
    /\ b = Address.mk (Some (op r dr), Some (op c dc)) false
    /\ 0 <= op r dr /\ 0 <= op c dc.
Proof.
  destruct self as [[[r|] [c|]] f], o as [[dr|] [dc|]];
    cbn [Address.row Address.col Address._value fst snd Address.arith rbind
         Address.__init__];
    try discriminate.
  destruct (Address._validate _) as [[]|] eqn:Ev; [| discriminate].
  cbn [rbind]. intros [= <-].
  destruct (validate_components _ Ev) as [Hr Hc].
  apply check_component_some in Hr, Hc.
  exists r, c, dr, dc. auto.
Qed.

End Arithmetic.

(** X7. The Address that [+] or [-] returns has both coordinates, neither
    negative, and does not allow unbound axes, whatever the operands
    allowed. *)
Theorem address_arithmetic_result
  (self : Address.t) (other : Address.operand) (b : Address.t) :
  Address.__add__ self other = Ok b \/ Address.__sub__ self other = Ok b ->
  Address.allow_non_single b = false
  /\ exists r c, Address._value b = (Some r, Some c) /\ 0 <= r /\ 0 <= c.
Proof.
  unfold Address.__add__, Address.__sub__.
  destruct (Address.operand_value other) as [[r0 c0]|];
    [| intros [H | H]; discriminate].
  intros [H | H];
    apply (arith_result _ self (r0, c0) b) in H;
    destruct H as (r & c & dr & dc & _ & _ & -> & Hr & Hc);
    (split; [reflexivity | eauto]).
Qed.

Lemma address_arithmetic_result_witness :
  Address.allow_non_single (Address.mk (Some 3, Some 5) false) = false
  /\ exists r c,
      Address._value (Address.mk (Some 3, Some 5) false) = (Some r, Some c)
      /\ 0 <= r /\ 0 <= c.
Proof.
  apply (address_arithmetic_result (Address.mk (Some 1, Some 2) true)
           (Address.OTuple (Some 2) (Some 3))).
  left. reflexivity.
Defined.

(** X8. Adding a tuple and subtracting it again gives the cell back: for
    a cell (r, c) and an offset (dr, dc) with r, c, r + dr, c + dc all at
    least 1, (Address((r, c)) + (dr, dc)) - (dr, dc) is the cell (r, c). *)
Theorem address_add_sub_inverse (r c dr dc : Z) (allow : bool) :
  1 <= r -> 1 <= c -> 1 <= r + dr -> 1 <= c + dc ->
  (b <-- Address.__add__ (Address.mk (Some r, Some c) allow)
           (Address.OTuple (Some dr) (Some dc)) ;;
   Address.__sub__ b (Address.OTuple (Some dr) (Some dc)))%res
  = Ok (Address.mk (Some r, Some c) false).
Proof.
  intros Hr Hc Hr' Hc'. unfold Address.__add__, Address.__sub__.
  cbn [Address.operand_value Address.row Address.col Address._value fst snd
       Address.arith rbind Address.__init__].
  rewrite validate_bound by assumption.
  cbn [rbind Address.row Address.col Address._value fst snd Address.arith
       Address.__init__].
  replace (r + dr - dr) with r by lia. replace (c + dc - dc) with c by lia.
  now rewrite validate_bound by assumption.
Qed.

Lemma address_add_sub_inverse_witness :
  (b <-- Address.__add__ (Address.mk (Some 4, Some 2) false)
           (Address.OTuple (Some (-3)) (Some 5)) ;;
   Address.__sub__ b (Address.OTuple (Some (-3)) (Some 5)))%res
  = Ok (Address.mk (Some 4, Some 2) false).
Proof. apply address_add_sub_inverse; lia. Defined.

Section Equality.

(** The labels of two cells are equal only if the cells are. *)
Lemma cell_label_inj (r1 c1 r2 c2 : Z) (f1 f2 : bool) (l : string) :
  1 <= r1 -> 1 <= c1 -> 1 <= r2 -> 1 <= c2 ->
  Address.label (Address.mk (Some r1, Some c1) f1) = Ok l ->
  Address.label (Address.mk (Some r2, Some c2) f2) = Ok l ->
  r1 = r2 /\ c1 = c2.
Proof.
  intros Hr1 Hc1 Hr2 Hc2 H1 H2.
  destruct (label_bound r1 c1 f1 Hr1 Hc1) as (cl1 & L1 & U1 & N1 & C1).
  destruct (label_bound r2 c2 f2 Hr2 Hc2) as (cl2 & L2 & U2 & N2 & C2).
  destruct (str_spec r1 ltac:(lia)) as (D1 & E1 & I1).
  destruct (str_spec r2 ltac:(lia)) as (D2 & E2 & I2).
  pose proof (label_to_coordinates_spec cl1 (Py.str r1) true
                U1 N1 D1 E1 ltac:(lia) ltac:(lia)) as P1.
  pose proof (label_to_coordinates_spec cl2 (Py.str r2) true
                U2 N2 D2 E2 ltac:(lia) ltac:(lia)) as P2.
  assert (Heq : cl1 +:+ Py.str r1 = cl2 +:+ Py.str r2) by congruence.
  rewrite Heq, P2 in P1. injection P1 as Hr Hc. lia.
Qed.

(** The label of a cell does not depend on its flag. *)
Lemma cell_label_flag (r c : Z) (f1 f2 : bool) :
  1 <= r -> 1 <= c ->
  Address.label (Address.mk (Some r, Some c) f1)
  = Address.label (Address.mk (Some r, Some c) f2).
Proof.
  intros Hr Hc. unfold Address.label, Address._value_as_label.
  now rewrite !validate_bound by assumption.
Qed.

End Equality.

(** X9. Equality of two cells: for coordinates at least 1,
    Address((r1, c1)) == Address((r2, c2)), which compares labels, holds
    exactly when the coordinates are equal, as does the comparison with
    the tuple (r2, c2); the flags of the two objects play no part, and
    [!=] is the negation. *)
Theorem address_eq_cells (r1 c1 r2 c2 : Z) (f1 f2 : bool) :
  1 <= r1 -> 1 <= c1 -> 1 <= r2 -> 1 <= c2 ->
  let a := Address.mk (Some r1, Some c1) f1 in
  let b := Address.mk (Some r2, Some c2) f2 in
  let same := bool_decide ((r1, c1) = (r2, c2)) in
  Address.__eq__ a (Address.CAddr b) = Ok same
  /\ Address.__eq__ a (Address.CTuple (Some r2) (Some c2)) = Ok same
  /\ Address.__ne__ a (Address.CAddr b) = Ok (negb same).
Proof.
  intros Hr1 Hc1 Hr2 Hc2 a b same.
  assert (Haddr : Address.__eq__ a (Address.CAddr b) = Ok same).
  { unfold Address.__eq__.
    destruct (label_bound r1 c1 f1 Hr1 Hc1) as (cl1 & L1 & _).
    destruct (label_bound r2 c2 f2 Hr2 Hc2) as (cl2 & L2 & _).
    subst a b. rewrite L1, L2. cbn [rbind]. f_equal. subst same.
    destruct (String.eqb _ _) eqn:E.
    - apply String.eqb_eq in E. rewrite <- E in L2.
      destruct (cell_label_inj _ _ _ _ _ _ _ Hr1 Hc1 Hr2 Hc2 L1 L2) as [-> ->].
      symmetry. now apply bool_decide_eq_true.
    - apply String.eqb_neq in E. symmetry. apply bool_decide_eq_false.
      intros [= <- <-]. apply E.
      rewrite (cell_label_flag r1 c1 f1 f2 Hr1 Hc1) in L1. congruence. }
  split; [exact Haddr |]. split.
  - unfold Address.__eq__. subst a same. cbn [Address._value]. f_equal.
    apply bool_decide_ext. split; intros [= -> ->]; reflexivity.
  - unfold Address.__ne__. now rewrite Haddr.
Qed.

Lemma address_eq_cells_witness :
  Address.__eq__ (Address.mk (Some 2, Some 3) true)
    (Address.CAddr (Address.mk (Some 2, Some 3) false)) = Ok true.
Proof.
  apply (address_eq_cells 2 3 2 3 true false); lia.
Defined.

(** * GridRange: stepping through the monad *)

Section Monad.

Import GridRange.
Local Open Scope gr_scope.

Implicit Types (st : state).

Lemma bind_ok_inv {A B} (m : M A) (k : A -> M B) st b st' :
  bind m k st = (Ok b, st') ->
  exists a st1, m st = (Ok a, st1) /\ k a st1 = (Ok b, st').
Proof.
  unfold bind. destruct (m st) as [[a|x] st1]; [eauto | discriminate].
Qed.

Lemma bind_inv {A B} (m : M A) (k : A -> M B) st r st' :
  bind m k st = (r, st') ->
  (exists x, m st = (Raise x, st') /\ r = Raise x)
  \/ exists a st1, m st = (Ok a, st1) /\ k a st1 = (r, st').
Proof.
  unfold bind. destruct (m st) as [[a|x] st1]; [eauto |].
  intros [= <- <-]. eauto.
Qed.

(** [_calculate_label] changes the label only, whatever its outcome. *)
Lemma calculate_label_frame st :
  same_but_label st (snd (_calculate_label st)).
Proof.
  unfold _calculate_label, worksheet_title, start_obj, end_obj, deref,
    set_label_field, bind, get, put, ret, lift, same_but_label.
  destruct st as [sto [t i w l s e]]. cbn.
  destruct w; cbn;
    destruct (sto !! s); cbn; auto 10;
    destruct (sto !! e); cbn; auto 10;
    destruct (Address.__bool__ _ && Address.__bool__ _); cbn; auto 10;
    repeat (destruct (Address.label _); cbn; auto 10).
Qed.

Lemma same_but_label_consistent st st' :
  same_but_label st st' -> consistent st -> consistent st'.
Proof.
  intros (Hs & H1 & H2 & _) (s & e & Ls & Le & Hm & Ho).
  exists s, e. rewrite Hs, H1, H2. auto.
Qed.

End Monad.

(** * GridRange: start and end after propagation *)

Section Consistency.

Import GridRange.
Local Open Scope gr_scope.

Implicit Types (st : state).

(** When [check] returns, start and end are consistent, and only the
    label has changed. *)
Lemma check_ok (based_on : string) st st' :
  check based_on st = (Ok tt, st') ->
  consistent st /\ same_but_label st st'.
Proof.
  intros H. pose proof calculate_label_frame as Hf.
  unfold check in H. revert H Hf. generalize _calculate_label.
  intros lbl H Hf.
  unfold start_obj, end_obj, deref, bind, get in H.
  destruct (store st !! _start (self st)) as [s|] eqn:Ls; [| discriminate].
  destruct (store st !! _end (self st)) as [e|] eqn:Le; [| discriminate].
  destruct (mismatch s e) eqn:Hm.
  { destruct (String.eqb based_on "start"); discriminate. }
  assert (Hord : ordered s e /\ lbl st = (Ok tt, st')).
  { unfold mismatch in Hm. unfold ordered.
    destruct s as [[sr sc] sa], e as [[er ec] ea].
    destruct sr as [sr|], sc as [sc|], er as [er|], ec as [ec|];
      cbn in Hm, H |- *;
      repeat first
        [ match type of Hm with
          | context [negb (?x =? 0)] =>
              destruct (x =? 0) eqn:?; cbn in Hm, H |- *
          end
        | match type of H with
          | context [negb (?x =? 0)] =>
              destruct (x =? 0) eqn:?; cbn in Hm, H |- *
          | context [?x <=? ?y] =>
              destruct (x <=? y) eqn:?; cbn in Hm, H |- *
          end ];
      try discriminate;
      (split; [| first [exact H | destruct (lbl st) as [[[]|] ?]; exact H
                       | destruct (lbl st) as [[[]|] ?]; discriminate]]);
      intros [|key] x [= <-] Hx; try lia; eexists; (split; [reflexivity | lia]). }
  destruct Hord as [Hord Hl]. split.
  - exists s, e. auto.
  - specialize (Hf st). now rewrite Hl in Hf.
Qed.

Lemma unbound_consistent st s e :
  store st !! _start (self st) = Some s ->
  store st !! _end (self st) = Some e ->
  negb (Address.__bool__ s) && negb (Address.__bool__ e) = true ->
  consistent st.
Proof.
  intros Ls Le Hb. exists s, e. split; [exact Ls |]. split; [exact Le |].
  destruct s as [[[sr|] [sc|]] sa], e as [[[er|] [ec|]] ea];
    try discriminate.
  split; [reflexivity |]. intros [|key] x; discriminate.
Qed.

Lemma apply_index_constraints_ok (based_on : string) st st' :
  _apply_index_constraints based_on st = (Ok tt, st') -> consistent st'.
Proof.
  intros H.
  destruct (store st !! _start (self st)) as [s|] eqn:Ls.
  2: { unfold _apply_index_constraints, start_obj, bind, get, deref in H.
       rewrite Ls in H. discriminate. }
  destruct (store st !! _end (self st)) as [e|] eqn:Le.
  2: { unfold _apply_index_constraints, start_obj, end_obj, bind, get, deref
         in H.
       rewrite Ls, Le in H. discriminate. }
  rewrite (apply_index_constraints_unfold based_on st s e Ls Le) in H.
  destruct (negb (Address.__bool__ s) && negb (Address.__bool__ e)) eqn:Hb.
  - injection H as <-. now apply (unbound_consistent st s e).
  - apply bind_ok_inv in H as ([] & st1 & _ & Hc).
    destruct (check_ok based_on st1 st' Hc) as [Hcons Hsame].
    now apply (same_but_label_consistent st1).
Qed.

Lemma calculate_label_consistent st r st' :
  _calculate_label st = (r, st') -> consistent st -> consistent st'.
Proof.
  intros H. apply same_but_label_consistent.
  pose proof (calculate_label_frame st) as Hf. now rewrite H in Hf.
Qed.

Lemma calculate_addresses_ok st st' :
  _calculate_addresses st = (Ok tt, st') -> consistent st'.
Proof.
  unfold _calculate_addresses. intros H.
  apply bind_ok_inv in H as (g & st1 & _ & H).
  destruct (_label g) as [label|]; [| discriminate].
  do 7 (apply bind_ok_inv in H as (? & ? & _ & H)).
  now apply apply_index_constraints_ok in H.
Qed.

Lemma init_ok_consistent
  (label : option string) (ws : option Worksheet)
  (start end_ : Address.arg) (title : option string) (wid : option Z)
  (st : state) :
  __init__ label ws start end_ title wid None = Ok st ->
  consistent st.
Proof.
  unfold __init__.
  destruct (Address.__init__ start true) as [s|]; [| discriminate].
  destruct (Address.__init__ end_ true) as [e|]; [| discriminate].
  cbn [rbind].
  set (st0 := mkState _ _).
  assert (Hseq : forall st1,
    (_apply_index_constraints "start" ;;;
     _calculate_label)%gr st0 = (Ok tt, st1) -> consistent st1).
  { intros st1 H. apply bind_ok_inv in H as ([] & ? & Ha & H).
    apply apply_index_constraints_ok in Ha.
    exact (calculate_label_consistent _ _ _ H Ha). }
  destruct label as [l|].
  - destruct (Py.nonempty l).
    + destruct (_calculate_addresses st0) as [[[]|] st1] eqn:E;
        [| discriminate].
      intros [= <-]. now apply calculate_addresses_ok in E.
    + destruct ((_apply_index_constraints "start" ;;;
                 _calculate_label)%gr st0) as [[[]|] st1] eqn:E;
        [| discriminate].
      intros [= <-]. now apply Hseq.
  - destruct ((_apply_index_constraints "start" ;;;
               _calculate_label)%gr st0) as [[[]|] st1] eqn:E;
      [| discriminate].
    intros [= <-]. now apply Hseq.
Qed.


End Consistency.

(** X10. When constraint propagation returns, start and end agree in
    boundedness on each axis, and on each bound axis start is not past
    end. *)
Theorem propagation_gives_consistent_range
  (based_on : string) (st st' : GridRange.state) :
  GridRange._apply_index_constraints based_on st = (Ok tt, st') ->
  consistent st'.
Proof. apply apply_index_constraints_ok. Qed.

Lemma propagation_gives_consistent_range_witness :
  consistent
    (snd (GridRange._apply_index_constraints "start"
            (range_state None None None (Some 1, None) (Some 3, Some 3)))).
Proof.
  apply (propagation_gives_consistent_range "start"
           (range_state None None None (Some 1, None) (Some 3, Some 3))).
  reflexivity.
Defined.

(** X11. Whenever a setter of start, end, indexes or label returns, it
    leaves a range in which no axis is truthy (present and not 0) at one
    end and not at the other, and in which, on each axis where start is
    present and not 0, end is present and not before start.  A coordinate
    of 0 counts as not truthy: start (None, 0) with end (None, None) is
    such a range. *)
Theorem setters_give_consistent_range
  (st st' : GridRange.state) (v w : Address.arg) (lab : string) :
  GridRange.start_set v st = (Ok tt, st')
  \/ GridRange.end_set v st = (Ok tt, st')
  \/ GridRange.indexes_set (Some (v, w)) st = (Ok tt, st')
  \/ GridRange.label_set (Some lab) st = (Ok tt, st') ->
  consistent st'.
Proof.
  intros [H | [H | [H | H]]].
  - unfold GridRange.start_set in H.
    do 3 (apply bind_ok_inv in H as (? & ? & ? & H)).
    match goal with
    | Ha : GridRange._apply_index_constraints _ _ = (Ok ?u, _) |- _ =>
        destruct u; apply apply_index_constraints_ok in Ha;
        exact (calculate_label_consistent _ _ _ H Ha)
    end.
  - unfold GridRange.end_set in H.
    do 3 (apply bind_ok_inv in H as (? & ? & ? & H)).
    match goal with
    | Ha : GridRange._apply_index_constraints _ _ = (Ok ?u, _) |- _ =>
        destruct u; apply apply_index_constraints_ok in Ha;
        exact (calculate_label_consistent _ _ _ H Ha)
    end.
  - unfold GridRange.indexes_set in H.
    do 5 (apply bind_ok_inv in H as (? & ? & ? & H)).
    match goal with
    | Ha : GridRange._apply_index_constraints _ _ = (Ok ?u, _) |- _ =>
        destruct u; apply apply_index_constraints_ok in Ha;
        exact (calculate_label_consistent _ _ _ H Ha)
    end.
  - unfold GridRange.label_set in H.
    apply bind_ok_inv in H as (? & ? & ? & H).
    now apply calculate_addresses_ok in H.
Qed.

Lemma setters_give_consistent_range_witness :
  consistent
    (snd (GridRange.indexes_set
            (Some (Address.Tuple (Some 2) (Some 2), Address.Str "D5"))
            (range_state None None None (None, None) (None, None)))).
Proof.
  eapply (setters_give_consistent_range
            (range_state None None None (None, None) (None, None)) _
            (Address.Tuple (Some 2) (Some 2)) (Address.Str "D5") "").
  right. right. left. reflexivity.
Defined.

(** X12. In a GridRange constructed from a label or from start and end
    (no JSON), no axis is truthy (present and not 0) at one end and not at
    the other, and on each axis where start is present and not 0, end is
    present and not before start.  A coordinate of 0 counts as not
    truthy: start (None, 0) with end (None, None) is such a range. *)
Theorem init_gives_consistent_range
  (label : option string) (ws : option GridRange.Worksheet)
  (start end_ : Address.arg) (title : option string) (wid : option Z)
  (st : GridRange.state) :
  GridRange.__init__ label ws start end_ title wid None = Ok st ->
  consistent st.
Proof. apply init_ok_consistent. Qed.

Lemma init_gives_consistent_range_witness :
  match GridRange.__init__ (Some "Sheet1!B2:C7") None
          Address.Falsy Address.Falsy None None None with
  | Ok st => consistent st
  | Raise _ => False
  end.
Proof.
  destruct (GridRange.__init__ (Some "Sheet1!B2:C7") None
              Address.Falsy Address.Falsy None None None) as [st|x] eqn:E.
  - exact (init_gives_consistent_range _ _ _ _ _ _ _ E).
  - vm_compute in E. discriminate.
Defined.

(** * GridRange: the Address objects of a range *)

Section StoreInvariant.

Import GridRange.
Local Open Scope gr_scope.

Implicit Types (st : state).

Lemma keeps_ret {A} (a : A) : keeps (ret a).
Proof. now intros st. Qed.

Lemma keeps_raise {A} (x : exn) : keeps (@raise A x).
Proof. now intros st. Qed.

Lemma keeps_lift {A} (r : result A) : keeps (lift r).
Proof. now intros st. Qed.

Lemma keeps_get : keeps get.
Proof. now intros st. Qed.

Lemma keeps_put (g : t) : keeps (put g).
Proof. now intros st. Qed.

Lemma keeps_bind {A B} (m : M A) (k : A -> M B) :
  keeps m -> (forall a, keeps (k a)) -> keeps (bind m k).
Proof.
  intros Hm Hk st Hst. unfold bind. specialize (Hm st Hst).
  destruct (m st) as [[a|x] st1]; cbn in *; [now apply Hk | assumption].
Qed.

Lemma keeps_deref (l : loc) : keeps (deref l).
Proof. intros st Hst. unfold deref. now destruct (store st !! l). Qed.

Lemma keeps_new (r : result Address.t) :
  (forall a, r = Ok a -> made_by_range a) -> keeps (new r).
Proof.
  intros Hr st Hst. unfold new, bind, lift. destruct r as [a|x]; [| assumption].
  cbn. unfold valid_store in *. cbn. apply Forall_app. split; [assumption |].
  constructor; [now apply Hr | constructor].
Qed.

Lemma keeps_setitem (l : loc) (key : nat) : keeps (setitem l key None).
Proof.
  intros st Hst. unfold setitem, bind, deref.
  destruct (store st !! l) as [a|] eqn:E; [| assumption].
  cbn. unfold valid_store in *. cbn.
  apply Forall_insert; [assumption |].
  apply (made_by_range_unbind a key).
  now apply (Forall_lookup_1 _ _ _ _ Hst E).
Qed.

Lemma init_made_by_range (value : Address.arg) (a : Address.t) :
  Address.__init__ value true = Ok a -> made_by_range a.
Proof. intros H. now apply init_valid in H. Qed.

Create HintDb keeps.
#[local] Hint Resolve keeps_ret keeps_raise keeps_lift keeps_get keeps_put
  keeps_deref keeps_setitem init_made_by_range : keeps.

Ltac keeps_step :=
  match goal with
  | |- keeps (bind _ _) => apply keeps_bind; [| intros]
  | |- keeps (new _) => apply keeps_new; intros
  | |- keeps (if ?b then _ else _) => destruct b
  | |- keeps (match ?x with _ => _ end) => destruct x
  | |- keeps (let '(_, _) := ?x in _) => destruct x
  | |- _ => solve [eauto with keeps]
  end.

Ltac keeps_all := repeat keeps_step.

Lemma keeps_set_worksheet_title_field v : keeps (set_worksheet_title_field v).
Proof. unfold set_worksheet_title_field. keeps_all. Qed.
Lemma keeps_set_worksheet_id_field v : keeps (set_worksheet_id_field v).
Proof. unfold set_worksheet_id_field. keeps_all. Qed.
Lemma keeps_set_worksheet_field v : keeps (set_worksheet_field v).
Proof. unfold set_worksheet_field. keeps_all. Qed.
Lemma keeps_set_label_field v : keeps (set_label_field v).
Proof. unfold set_label_field. keeps_all. Qed.
Lemma keeps_set_start_field l : keeps (set_start_field l).
Proof. unfold set_start_field. keeps_all. Qed.
Lemma keeps_set_end_field l : keeps (set_end_field l).
Proof. unfold set_end_field. keeps_all. Qed.
Lemma keeps_start_obj : keeps start_obj.
Proof. unfold start_obj. keeps_all. Qed.
Lemma keeps_end_obj : keeps end_obj.
Proof. unfold end_obj. keeps_all. Qed.
Lemma keeps_worksheet_id : keeps worksheet_id.
Proof. unfold worksheet_id. keeps_all. Qed.
Lemma keeps_worksheet_title : keeps worksheet_title.
Proof. unfold worksheet_title. keeps_all. Qed.

#[local] Hint Resolve keeps_set_worksheet_title_field
  keeps_set_worksheet_id_field keeps_set_worksheet_field
  keeps_set_label_field keeps_set_start_field keeps_set_end_field
  keeps_start_obj keeps_end_obj keeps_worksheet_id keeps_worksheet_title
  : keeps.

Lemma keeps_assert_le a b : keeps (assert_le a b).
Proof. unfold assert_le. keeps_all. Qed.

Lemma keeps_calculate_label : keeps _calculate_label.
Proof. unfold _calculate_label. keeps_all. Qed.

#[local] Hint Resolve keeps_assert_le keeps_calculate_label : keeps.

Lemma keeps_normalize based_on : keeps (normalize based_on).
Proof. unfold normalize. keeps_all. Qed.

Lemma keeps_check based_on : keeps (check based_on).
Proof. unfold check. keeps_all. Qed.

#[local] Hint Resolve keeps_normalize keeps_check : keeps.

Lemma keeps_apply_index_constraints based_on :
  keeps (_apply_index_constraints based_on).
Proof. unfold _apply_index_constraints. keeps_all. Qed.

#[local] Hint Resolve keeps_apply_index_constraints : keeps.

Lemma keeps_worksheet_title_set v : keeps (worksheet_title_set v).
Proof. unfold worksheet_title_set. keeps_all. Qed.

Lemma keeps_worksheet_id_set v : keeps (worksheet_id_set v).
Proof. unfold worksheet_id_set. keeps_all. Qed.

#[local] Hint Resolve keeps_worksheet_title_set keeps_worksheet_id_set : keeps.

Lemma keeps_calculate_addresses : keeps _calculate_addresses.
Proof. unfold _calculate_addresses. keeps_all. Qed.

#[local] Hint Resolve keeps_calculate_addresses : keeps.

Lemma keeps_set_worksheet ws : keeps (set_worksheet ws).
Proof. unfold set_worksheet. keeps_all. Qed.

Lemma keeps_start_set v : keeps (start_set v).
Proof. unfold start_set. keeps_all. Qed.

Lemma keeps_end_set v : keeps (end_set v).
Proof. unfold end_set. keeps_all. Qed.

Lemma keeps_indexes_set v : keeps (indexes_set v).
Proof. unfold indexes_set. keeps_all. Qed.

Lemma keeps_label_set v : keeps (label_set v).
Proof. unfold label_set. keeps_all. Qed.

Lemma keeps_set_json d : keeps (set_json d).
Proof. unfold set_json. keeps_all. Qed.

Lemma keeps_to_json : keeps to_json.
Proof. unfold to_json. keeps_all. Qed.

Lemma keeps_get_bounded_indexes : keeps get_bounded_indexes.
Proof. unfold get_bounded_indexes. keeps_all. Qed.

End StoreInvariant.

Section StoreInvariantUse.

Import GridRange.

Lemma valid_store_label (st : state) (l : loc) (a : Address.t) :
  valid_store st -> store st !! l = Some a ->
  Address.allow_non_single a = true /\ exists lab, Address.label a = Ok lab.
Proof.
  intros Hst Hl. destruct (Forall_lookup_1 _ _ _ _ Hst Hl) as [Hf Hv].
  split; [exact Hf | now apply label_total].
Qed.

Lemma init_valid_store label ws start end_ title wid nj (st : state) :
  __init__ label ws start end_ title wid nj = Ok st -> valid_store st.
Proof.
  unfold __init__.
  destruct (Address.__init__ start true) as [s|] eqn:Es; [| discriminate].
  destruct (Address.__init__ end_ true) as [e|] eqn:Ee; [| discriminate].
  cbn [rbind].
  set (st0 := mkState _ _).
  assert (H0 : valid_store st0).
  { unfold valid_store. cbn.
    constructor; [exact (init_made_by_range _ _ Es) |].
    constructor; [exact (init_made_by_range _ _ Ee) | constructor]. }
  set (body := match match nj with
                     | Some d => if bool_decide (d = ∅) then None
                                 else Some (set_json d)
                     | None => None
                     end with
               | Some b => b
               | None => _
               end).
  assert (Hk : keeps body).
  { subst body. destruct nj as [d|].
    - destruct (bool_decide (d = ∅)).
      + destruct label as [l|]; [destruct (Py.nonempty l) |];
          first [apply keeps_calculate_addresses
                | apply keeps_bind;
                  [apply keeps_apply_index_constraints
                  | intros; apply keeps_calculate_label]].
      + apply keeps_set_json.
    - destruct label as [l|]; [destruct (Py.nonempty l) |];
        first [apply keeps_calculate_addresses
              | apply keeps_bind;
                [apply keeps_apply_index_constraints
                | intros; apply keeps_calculate_label]]. }
  specialize (Hk st0 H0).
  destruct (body st0) as [[u|x] st1]; [| discriminate].
  now intros [= <-].
Qed.

End StoreInvariantUse.

(** X13. Every Address object that a constructed GridRange holds allows
    unbound axes, passes validation and has a label. *)
Theorem init_addresses_valid
  (label : option string) (ws : option GridRange.Worksheet)
  (start end_ : Address.arg) (title : option string) (wid : option Z)
  (namedjson : option (gmap string (option Z))) (st : GridRange.state) :
  GridRange.__init__ label ws start end_ title wid namedjson = Ok st ->
  valid_store st
  /\ forall l a,
      GridRange.store st !! l = Some a ->
      Address.allow_non_single a = true
      /\ exists lab, Address.label a = Ok lab.
Proof.
  intros H. apply init_valid_store in H. split; [exact H |].
  intros l a. now apply valid_store_label.
Qed.

Lemma init_addresses_valid_witness :
  match GridRange.__init__ None None
          (Address.Str "b2") (Address.Tuple (Some 4) (Some 3))
          None None None with
  | Ok st => valid_store st
  | Raise _ => False
  end.
Proof.
  destruct (GridRange.__init__ None None
              (Address.Str "b2") (Address.Tuple (Some 4) (Some 3))
              None None None) as [st|x] eqn:E.
  - exact (proj1 (init_addresses_valid _ _ _ _ _ _ _ _ E)).
  - vm_compute in E. discriminate.
Defined.

(** X14. No operation on a GridRange, whether it returns or raises, leaves
    an invalid Address object in it: if every Address held allows unbound
    axes and passes validation before a setter, set_json, set_worksheet or
    to_json runs, the same is true afterwards. *)
Theorem operations_keep_addresses_valid
  (st : GridRange.state) (v : Address.arg)
  (ix : option (Address.arg * Address.arg)) (lab : option string)
  (d : gmap string (option Z)) (ws : GridRange.Worksheet)
  (t : option string) (i : option Z) :
  valid_store st ->
  valid_store (snd (GridRange.start_set v st))
  /\ valid_store (snd (GridRange.end_set v st))
  /\ valid_store (snd (GridRange.indexes_set ix st))
  /\ valid_store (snd (GridRange.label_set lab st))
  /\ valid_store (snd (GridRange.set_json d st))
  /\ valid_store (snd (GridRange.set_worksheet ws st))
  /\ valid_store (snd (GridRange.worksheet_title_set t st))
  /\ valid_store (snd (GridRange.worksheet_id_set i st))
  /\ valid_store (snd (GridRange.to_json st)).
Proof.
  intros H. repeat split.
  - now apply keeps_start_set.
  - now apply keeps_end_set.
  - now apply keeps_indexes_set.
  - now apply keeps_label_set.
  - now apply keeps_set_json.
  - now apply keeps_set_worksheet.
  - now apply keeps_worksheet_title_set.
  - now apply keeps_worksheet_id_set.
  - now apply keeps_to_json.
Qed.

Lemma operations_keep_addresses_valid_witness :
  valid_store
    (snd (GridRange.start_set (Address.Tuple (Some 1) (Some 1))
            (range_state None None None (None, None) (None, None)))).
Proof.
  refine (proj1 (operations_keep_addresses_valid
                   (range_state None None None (None, None) (None, None))
                   (Address.Tuple (Some 1) (Some 1)) None None ∅ sheet1
                   None None _)).
  repeat constructor.
Defined.

(** * GridRange: worksheet, title and label *)

Section Worksheet.

Import GridRange.
Local Open Scope gr_scope.

Implicit Types (st : state).

Lemma calculate_label_twice st :
  _calculate_label (snd (_calculate_label st)) = _calculate_label st.
Proof.
  unfold _calculate_label, worksheet_title, start_obj, end_obj, deref,
    set_label_field, bind, get, put, ret, lift.
  destruct st as [sto [t i w l s e]].
  assert (Hcase : forall (A : Type) (x : A), x = x) by reflexivity.
  destruct (sto !! s) as [a|] eqn:Ls;
    [destruct (sto !! e) as [b|] eqn:Le;
     [destruct (Address.__bool__ a && Address.__bool__ b) eqn:Eb;
      [destruct (Address.label a) eqn:La;
       [destruct (Address.label b) eqn:Lb |] |] |] |];
    destruct w; cbn;
    repeat (match goal with
            | H : ?x = _ |- context [?x] => rewrite H
            end; cbn);
    reflexivity.
Qed.

Lemma worksheet_id_after_set st v :
  fst (worksheet_id (snd (worksheet_id_set v st)))
  = Ok (match _worksheet (self st) with
        | Some ws => Some (id ws)
        | None => v
        end).
Proof.
  unfold worksheet_id, worksheet_id_set, set_worksheet_id_field, bind, get,
    put, ret, raise.
  destruct st as [sto [t i w l s e]]. cbn.
  destruct w as [ws|]; cbn; [| reflexivity].
  destruct (bool_decide _); reflexivity.
Qed.

Lemma worksheet_title_after_set st v :
  fst (worksheet_title (snd (worksheet_title_set v st)))
  = Ok (match _worksheet (self st) with
        | Some ws => Some (title ws)
        | None => v
        end).
Proof.
  unfold worksheet_title_set. unfold bind at 1, get. cbn [fst snd].
  destruct (_worksheet (self st)) as [ws|] eqn:Ew.
  - assert (Hst : forall r, snd (r : result unit * state) = st ->
                  fst (worksheet_title (snd r)) = Ok (Some (title ws))).
    { intros r ->. unfold worksheet_title, bind, get. now rewrite Ew. }
    destruct (bool_decide _); now apply Hst.
  - unfold bind at 1.
    destruct (set_worksheet_title_field v st) as [[u|x] st1] eqn:E1;
      unfold set_worksheet_title_field, bind, get, put in E1;
      injection E1 as ? <-; [| discriminate].
    set (st1 := mkState _ _).
    destruct (calculate_label_frame st1) as (_ & _ & _ & Hw & Ht & _).
    unfold worksheet_title, bind, get. cbn [fst snd].
    rewrite Hw, Ht. cbn. now rewrite Ew.
Qed.

Lemma worksheet_set_attached st ws v t :
  _worksheet (self st) = Some ws ->
  worksheet_id_set v st
  = (if bool_decide (Some (id ws) = v) then Ok tt
     else Raise InvalidArgumentValue, st)
  /\ worksheet_title_set t st
     = (if bool_decide (Some (title ws) = t) then Ok tt
        else Raise InvalidArgumentValue, st).
Proof.
  intros Ew. unfold worksheet_id_set, worksheet_title_set, bind, get.
  rewrite Ew. split; destruct (bool_decide _); reflexivity.
Qed.

Lemma set_worksheet_run st ws :
  set_worksheet ws st
  = _calculate_label
      (mkState (store st)
         (mk (Some (title ws)) (Some (id ws)) (Some ws) (_label (self st))
             (_start (self st)) (_end (self st)))).
Proof. now destruct st as [sto [t i w l s e]]. Qed.

Lemma set_worksheet_fields st ws :
  let st' := snd (set_worksheet ws st) in
  fst (worksheet_id st') = Ok (Some (id ws))
  /\ fst (worksheet_title st') = Ok (Some (title ws))
  /\ _worksheet (self st') = Some ws.
Proof.
  cbv zeta. rewrite set_worksheet_run.
  set (st1 := mkState _ _).
  destruct (calculate_label_frame st1) as (_ & _ & _ & Hw & _).
  unfold worksheet_id, worksheet_title, bind, get. cbn [fst snd].
  rewrite Hw. cbn. auto.
Qed.

(** A label that [_calculate_label] sets begins with the title. *)
Lemma calculate_label_prefix st st' :
  _calculate_label st = (Ok tt, st') ->
  exists t0 rest,
    fst (worksheet_title st) = Ok t0
    /\ _label (self st')
       = Some (match t0 with Some t => t | None => "" end +:+ rest).
Proof.
  unfold _calculate_label, worksheet_title, start_obj, end_obj, deref,
    set_label_field, bind, get, put, ret, lift.
  destruct st as [sto [t i w l s e]]. cbn.
  destruct w as [ws|]; cbn;
    (destruct (sto !! s) as [a|]; cbn; [| discriminate]);
    (destruct (sto !! e) as [b|]; cbn; [| discriminate]);
    destruct (Address.__bool__ a && Address.__bool__ b); cbn;
    try (destruct (Address.label a); cbn; [| discriminate];
         destruct (Address.label b); cbn; [| discriminate]);
    intros [= <-]; cbn; eexists _, _;
    (split; [reflexivity |]);
    first [ reflexivity
          | now rewrite app_empty_r ].
Qed.

End Worksheet.

(** X15. Computing the label twice is computing it once: a second
    [_calculate_label] returns or raises as the first did and changes
    nothing. *)
Theorem calculate_label_idempotent (st : GridRange.state) :
  GridRange._calculate_label (snd (GridRange._calculate_label st))
  = GridRange._calculate_label st.
Proof. apply calculate_label_twice. Qed.

(** X16. The worksheet identity of a range: after the setter of
    worksheet_id or worksheet_title has run (returned or raised), the
    getter gives the attached worksheet's id or title when a worksheet is
    attached, and the value just set when none is.  With a worksheet
    attached, the setters change nothing: they return when given the
    worksheet's own id or title and raise InvalidArgumentValue otherwise. *)
Theorem worksheet_identity
  (st : GridRange.state) (v : option Z) (t : option string) :
  fst (GridRange.worksheet_id (snd (GridRange.worksheet_id_set v st)))
  = Ok (match GridRange._worksheet (GridRange.self st) with
        | Some ws => Some (GridRange.id ws)
        | None => v
        end)
  /\ fst (GridRange.worksheet_title (snd (GridRange.worksheet_title_set t st)))
     = Ok (match GridRange._worksheet (GridRange.self st) with
           | Some ws => Some (GridRange.title ws)
           | None => t
           end)
  /\ match GridRange._worksheet (GridRange.self st) with
     | Some ws =>
         GridRange.worksheet_id_set v st
         = (if bool_decide (Some (GridRange.id ws) = v) then Ok tt
            else Raise InvalidArgumentValue, st)
         /\ GridRange.worksheet_title_set t st
            = (if bool_decide (Some (GridRange.title ws) = t) then Ok tt
               else Raise InvalidArgumentValue, st)
     | None => True
     end.
Proof.
  split; [apply worksheet_id_after_set |].
  split; [apply worksheet_title_after_set |].
  destruct (GridRange._worksheet (GridRange.self st)) as [ws|] eqn:E;
    [| exact I].
  now apply worksheet_set_attached.
Qed.

(** X17. After set_worksheet(ws), returned or raised, the range reports the
    id and the title of ws; and when it returned, the label begins with
    the title of ws. *)
Theorem set_worksheet_identity
  (st : GridRange.state) (ws : GridRange.Worksheet) :
  let ran := GridRange.set_worksheet ws st in
  fst (GridRange.worksheet_id (snd ran)) = Ok (Some (GridRange.id ws))
  /\ fst (GridRange.worksheet_title (snd ran)) = Ok (Some (GridRange.title ws))
  /\ match fst ran with
     | Ok _ =>
         exists rest,
           GridRange._label (GridRange.self (snd ran))
           = Some (GridRange.title ws +:+ rest)
     | Raise _ => True
     end.
Proof.
  intros ran.
  destruct (set_worksheet_fields st ws) as (Hi & Ht & Hw).
  split; [exact Hi |]. split; [exact Ht |].
  subst ran. rewrite set_worksheet_run in *.
  set (st1 := GridRange.mkState _ _) in *.
  destruct (GridRange._calculate_label st1) as [[[]|x] st'] eqn:E;
    [| exact I].
  cbn [fst snd] in *.
  destruct (calculate_label_prefix st1 st' E) as (t0 & rest & Ht0 & Hl).
  exists rest. rewrite Hl. cbn in Ht0. now injection Ht0 as <-.
Qed.

(** * GridRange: set_json *)

Section Json.

Import GridRange.
Local Open Scope gr_scope.

Implicit Types (st : state).

Lemma new_run (a : Address.t) st :
  new (Ok a) st = (Ok (length (store st)), mkState (store st ++ [a]) (self st)).
Proof. reflexivity. Qed.

Lemma init_tuple_nonneg (r c : option Z) :
  coordinate_nonneg r -> coordinate_nonneg c ->
  Address.__init__ (Address.Tuple r c) true = Ok (Address.mk (r, c) true).
Proof.
  intros Hr Hc. cbn [Address.__init__].
  now rewrite validate_nonneg by (try assumption; discriminate).
Qed.

Lemma succ_nonneg (v : option Z) :
  coordinate_nonneg v ->
  coordinate_nonneg (match v with Some n => Some (n + 1) | None => None end).
Proof. destruct v; cbn; [lia | easy]. Qed.

Lemma set_json_run (d : json) st :
  _worksheet (self st) = None ->
  coordinate_nonneg (dict_get d "startRowIndex") ->
  coordinate_nonneg (dict_get d "startColumnIndex") ->
  coordinate_nonneg (dict_get d "endRowIndex") ->
  coordinate_nonneg (dict_get d "endColumnIndex") ->
  exists st',
    set_json d st = (Ok tt, st')
    /\ start_value st'
       = Some (match dict_get d "startRowIndex" with
               | Some n => Some (n + 1) | None => None end,
               match dict_get d "startColumnIndex" with
               | Some n => Some (n + 1) | None => None end)
    /\ end_value st'
       = Some (dict_get d "endRowIndex", dict_get d "endColumnIndex")
    /\ _worksheet_id (self st')
       = match d !! "sheetId" with
         | Some v => v
         | None => _worksheet_id (self st)
         end.
Proof.
  intros Hw Hsr Hsc Her Hec. unfold set_json.
  set (sr := match dict_get d "startRowIndex" with
             | Some n => Some (n + 1) | None => None end).
  set (sc := match dict_get d "startColumnIndex" with
             | Some n => Some (n + 1) | None => None end).
  rewrite (init_tuple_nonneg sr sc) by (now apply succ_nonneg).
  rewrite (init_tuple_nonneg _ _ Her Hec).
  set (a := Address.mk (sr, sc) true).
  set (b := Address.mk (dict_get d "endRowIndex", dict_get d "endColumnIndex")
                       true).
  destruct st as [sto [t i w l s e]]. cbn in Hw. subst w.
  set (i' := match d !! "sheetId" with Some v => v | None => i end).
  set (st4 := mkState ((sto ++ [a]) ++ [b])
                (mk t i' None l (length sto) (length (sto ++ [a])))).
  assert (Hrun : forall k : M unit,
    ((match d !! "sheetId" with
      | Some v => worksheet_id_set v
      | None => ret tt
      end) ;;;
     s0 <-- new (Ok a) ;; set_start_field s0 ;;;
     e0 <-- new (Ok b) ;; set_end_field e0 ;;; k)
      (mkState sto (mk t i None l s e)) = k st4).
  { intros k. subst i'. destruct (d !! "sheetId"); reflexivity. }
  rewrite Hrun.
  assert (Ls : store st4 !! _start (self st4) = Some a).
  { cbn. rewrite lookup_app_l by (rewrite length_app; cbn; lia).
    now rewrite list_lookup_middle. }
  assert (Le : store st4 !! _end (self st4) = Some b).
  { cbn. now rewrite list_lookup_middle. }
  assert (Va : Address._validate a = Ok tt).
  { apply validate_nonneg; try discriminate; now apply succ_nonneg. }
  assert (Vb : Address._validate b = Ok tt).
  { apply validate_nonneg; try discriminate; assumption. }
  destruct (calculate_label_ok st4 a b Ls Le Va Vb) as (st' & Hl & Hst & H1 & H2).
  exists st'. split; [exact Hl |].
  unfold start_value, end_value. rewrite Hst, H1, H2, Ls, Le.
  repeat split.
  pose proof (calculate_label_frame st4) as Hf. rewrite Hl in Hf.
  destruct Hf as (_ & _ & _ & _ & _ & Hid). exact Hid.
Qed.

End Json.

(** X18. set_json on a range with no worksheet attached, given indices that
    are absent or not negative: it returns, start is the start indices
    plus one, end is the end indices as given, and the worksheet id is
    the sheetId given (or left as it was).  No order or boundedness
    check is made: the result holds whatever the indices are. *)
Theorem set_json_coordinates
  (d : gmap string (option Z)) (st : GridRange.state) :
  GridRange._worksheet (GridRange.self st) = None ->
  coordinate_nonneg (GridRange.dict_get d "startRowIndex") ->
  coordinate_nonneg (GridRange.dict_get d "startColumnIndex") ->
  coordinate_nonneg (GridRange.dict_get d "endRowIndex") ->
  coordinate_nonneg (GridRange.dict_get d "endColumnIndex") ->
  exists st',
    GridRange.set_json d st = (Ok tt, st')
    /\ GridRange.start_value st'
       = Some (match GridRange.dict_get d "startRowIndex" with
               | Some n => Some (n + 1) | None => None end,
               match GridRange.dict_get d "startColumnIndex" with
               | Some n => Some (n + 1) | None => None end)
    /\ GridRange.end_value st'
       = Some (GridRange.dict_get d "endRowIndex",
               GridRange.dict_get d "endColumnIndex")
    /\ GridRange._worksheet_id (GridRange.self st')
       = match d !! "sheetId" with
         | Some v => v
         | None => GridRange._worksheet_id (GridRange.self st)
         end.
Proof. apply set_json_run. Qed.

Lemma set_json_coordinates_witness :
  exists st',
    GridRange.set_json example_json
      (range_state None None None (None, None) (None, None)) = (Ok tt, st')
    /\ GridRange.start_value st' = Some (Some 1, Some 1)
    /\ GridRange.end_value st' = Some (Some 3, Some 3).
Proof.
  destruct (set_json_coordinates example_json
              (range_state None None None (None, None) (None, None))
              eq_refl) as (st' & H1 & H2 & H3 & _);
    try (vm_compute; discriminate).
  exists st'. split; [exact H1 |]. split; [exact H2 | exact H3].
Defined.

(** * GridRange: height and width *)

Section Extent.

Import GridRange.
Local Open Scope gr_scope.

Implicit Types (st : state).

Lemma or_default_pos (n d : Z) : 1 <= n -> or_default (Some n) d = n.
Proof.
  intros Hn. unfold or_default. now rewrite truthy_pos.
Qed.

Lemma bounded_indexes_run st ws (r1 c1 r2 c2 : Z) (f1 f2 : bool) :
  _worksheet (self st) = Some ws ->
  store st !! _start (self st) = Some (Address.mk (Some r1, Some c1) f1) ->
  store st !! _end (self st) = Some (Address.mk (Some r2, Some c2) f2) ->
  1 <= r1 -> 1 <= c1 -> 1 <= r2 -> 1 <= c2 ->
  get_bounded_indexes st
  = (Ok (Address.mk (Some r1, Some c1) false,
         Address.mk (Some r2, Some c2) false), st).
Proof.
  intros Hw Ls Le Hr1 Hc1 Hr2 Hc2. unfold get_bounded_indexes.
  erewrite bind_eq by reflexivity. rewrite Hw.
  erewrite bind_eq by (apply start_obj_run; eassumption).
  erewrite bind_eq by (apply end_obj_run; eassumption).
  cbn [Address.__bool__ Address.row Address.col Address._value fst snd
       Py.is_none andb negb].
  rewrite !or_default_pos by assumption.
  cbn [Address.__init__]. rewrite !validate_bound by assumption.
  reflexivity.
Qed.

Lemma extent_run st ws (r1 c1 r2 c2 : Z) (f1 f2 : bool) :
  _worksheet (self st) = Some ws ->
  store st !! _start (self st) = Some (Address.mk (Some r1, Some c1) f1) ->
  store st !! _end (self st) = Some (Address.mk (Some r2, Some c2) f2) ->
  1 <= r1 -> 1 <= c1 -> 1 <= r2 -> 1 <= c2 ->
  height st = (Ok (r2 - r1 + 1), st) /\ width st = (Ok (c2 - c1 + 1), st).
Proof.
  intros Hw Ls Le Hr1 Hc1 Hr2 Hc2. unfold height, width, extent.
  erewrite !bind_eq by (eapply bounded_indexes_run; eassumption).
  split; reflexivity.
Qed.

End Extent.

(** X19. Height and width of a range with both ends bound: with a worksheet
    attached and start (r1, c1), end (r2, c2), all at least 1,
    get_bounded_indexes gives the two cells back, height is r2 - r1 + 1
    and width is c2 - c1 + 1; the size of the worksheet is not consulted
    and the range is left as it is. *)
Theorem bound_range_extent
  (st : GridRange.state) (ws : GridRange.Worksheet)
  (r1 c1 r2 c2 : Z) (f1 f2 : bool) :
  GridRange._worksheet (GridRange.self st) = Some ws ->
  GridRange.store st !! GridRange._start (GridRange.self st)
  = Some (Address.mk (Some r1, Some c1) f1) ->
  GridRange.store st !! GridRange._end (GridRange.self st)
  = Some (Address.mk (Some r2, Some c2) f2) ->
  1 <= r1 -> 1 <= c1 -> 1 <= r2 -> 1 <= c2 ->
  GridRange.get_bounded_indexes st
  = (Ok (Address.mk (Some r1, Some c1) false,
         Address.mk (Some r2, Some c2) false), st)
  /\ GridRange.height st = (Ok (r2 - r1 + 1), st)
  /\ GridRange.width st = (Ok (c2 - c1 + 1), st).
Proof.
  intros Hw Ls Le Hr1 Hc1 Hr2 Hc2. split.
  - now apply (bounded_indexes_run st ws r1 c1 r2 c2 f1 f2).
  - now apply (extent_run st ws r1 c1 r2 c2 f1 f2).
Qed.

Lemma bound_range_extent_witness :
  GridRange.height
    (range_state None None (Some sheet1) (Some 2, Some 3) (Some 5, Some 4))
  = (Ok 4,
     range_state None None (Some sheet1) (Some 2, Some 3) (Some 5, Some 4)).
Proof.
  apply (bound_range_extent
           (range_state None None (Some sheet1) (Some 2, Some 3)
              (Some 5, Some 4)) sheet1 2 3 5 4 true true);
    first [reflexivity | lia].
Defined.

(** * GridRange: the forms of a label, and equality *)

Section LabelForms.

Import GridRange.

Ltac gr_run :=
  cbv beta iota zeta delta
    [bind get put ret raise lift new deref setitem
     set_worksheet_title_field set_worksheet_id_field set_worksheet_field
     set_label_field set_start_field set_end_field start_obj end_obj
     worksheet_id worksheet_title _calculate_label assert_le mismatch
     normalize check _apply_index_constraints worksheet_title_set
     worksheet_id_set _calculate_addresses GridRange.__init__
     store self _worksheet_title _worksheet_id _worksheet _label _start _end
     range_state fst snd negb andb orb rbind
     Address.__getitem__ Address.__setitem__ Address.__bool__
     Address.row Address.col
     Address._value Address.allow_non_single Py.is_none Py.index
     lookup list_lookup length app Nat.ltb Nat.leb
     insert list_insert
     start_value end_value fmap option_fmap option_map
     String.eqb Ascii.eqb Bool.eqb].

(** A label that is a title only: the range is wholly unbound. *)
Lemma init_label_title (title : string) :
  Py.contains "!" title = false -> Py.nonempty title = true ->
  exists st,
    __init__ (Some title) None Address.Falsy Address.Falsy None None None
    = Ok st
    /\ start_value st = Some (None, None)
    /\ end_value st = Some (None, None)
    /\ _label (self st) = Some title
    /\ _worksheet_title (self st) = Some title.
Proof.
  intros Ht Hne.
  unfold __init__. cbn [Address.__init__ Address._validate rbind].
  cbn. rewrite Hne.
  gr_run. rewrite (split_none "!" title Ht). gr_run.
  change (Address.__init__ Address.Falsy true)
    with (Ok (Address.mk (None, None) true)).
  gr_run. eexists. split; [reflexivity |]. repeat split.
Qed.

(** A label whose range part is one cell, with no colon: rejected. *)
Lemma init_label_cell (title : string) (r c : Z) (a : string) :
  Py.contains "!" title = false ->
  1 <= r -> 1 <= c ->
  Py.contains "!" a = false -> Py.contains ":" a = false ->
  Address.__init__ (Address.Str a) true
  = Ok (Address.mk (Some r, Some c) true) ->
  __init__ (Some (title +:+ "!" +:+ a)) None Address.Falsy Address.Falsy
    None None None
  = Raise InvalidArgumentValue.
Proof.
  intros Ht Hr Hc Ea Ca Pa.
  assert (Hsplit : Py.split "!" (title +:+ "!" +:+ a) = [title; a]).
  { change (title +:+ "!" +:+ a) with (title +:+ String "!" a).
    rewrite (split_at "!" title _ Ht). f_equal. now apply split_none. }
  assert (Hne : Py.nonempty (title +:+ "!" +:+ a) = true).
  { change (title +:+ "!" +:+ a) with (title +:+ String "!" a).
    apply nonempty_app_cons. }
  unfold __init__. cbn [Address.__init__ Address._validate rbind].
  cbn. rewrite Hne.
  gr_run. rewrite Hsplit. gr_run.
  change (Address.__init__ Address.Falsy true)
    with (Ok (Address.mk (None, None) true)).
  gr_run. rewrite Ca. gr_run. rewrite Pa. gr_run.
  rewrite !truthy_pos by lia. reflexivity.
Qed.

(** The label of a range of cells, whatever worksheet id is given. *)
Lemma init_cells_label_id (title : string) (wid : option Z)
  (r1 c1 r2 c2 : Z) (a b : string) (st : state) :
  1 <= r1 <= r2 -> 1 <= c1 <= c2 ->
  Address.label (Address.mk (Some r1, Some c1) true) = Ok a ->
  Address.label (Address.mk (Some r2, Some c2) true) = Ok b ->
  __init__ None None
    (Address.Tuple (Some r1) (Some c1)) (Address.Tuple (Some r2) (Some c2))
    (Some title) wid None = Ok st ->
  _label (self st) = Some (title +:+ "!" +:+ a +:+ ":" +:+ b).
Proof.
  intros Hr Hc Ha Hb.
  rewrite init_tuples by (cbn; lia).
  gr_run. rewrite !truthy_pos by lia. gr_run.
  replace (r1 <=? r2) with true by lia.
  replace (c1 <=? c2) with true by lia.
  gr_run. rewrite Ha, Hb. gr_run. rewrite Ha, Hb. gr_run.
  now intros [= <-].
Qed.

(** A range label determines the title and both cell labels. *)
Lemma range_label_inj (t1 t2 a1 a2 b1 b2 : string) :
  Py.contains "!" t1 = false -> Py.contains "!" t2 = false ->
  Py.contains "!" a1 = false -> Py.contains "!" a2 = false ->
  Py.contains "!" b1 = false -> Py.contains "!" b2 = false ->
  Py.contains ":" a1 = false -> Py.contains ":" a2 = false ->
  Py.contains ":" b1 = false -> Py.contains ":" b2 = false ->
  t1 +:+ "!" +:+ a1 +:+ ":" +:+ b1 = t2 +:+ "!" +:+ a2 +:+ ":" +:+ b2 ->
  t1 = t2 /\ a1 = a2 /\ b1 = b2.
Proof.
  intros T1 T2 A1 A2 B1 B2 CA1 CA2 CB1 CB2 H.
  change (t1 +:+ String "!" (a1 +:+ String ":" b1)
          = t2 +:+ String "!" (a2 +:+ String ":" b2)) in H.
  apply (f_equal (Py.split "!")) in H.
  rewrite !split_at in H by assumption.
  rewrite !split_none in H
    by (rewrite contains_app; simpl;
        rewrite ?A1, ?A2, ?B1, ?B2; reflexivity).
  injection H as Ht Hrest. split; [exact Ht |].
  apply (f_equal (Py.split ":")) in Hrest.
  rewrite !split_at in Hrest by assumption.
  rewrite !split_none in Hrest by assumption.
  now injection Hrest as Ha Hb.
Qed.

End LabelForms.

(** X20. A GridRange made from a label that is only a title (not empty, no
    exclamation mark) is the wholly unbound range: start and end are
    (None, None), and label and worksheet title are that title. *)
Theorem init_label_without_cells (title : string) :
  Py.contains "!" title = false -> Py.nonempty title = true ->
  exists st,
    GridRange.__init__ (Some title) None Address.Falsy Address.Falsy
      None None None = Ok st
    /\ GridRange.start_value st = Some (None, None)
    /\ GridRange.end_value st = Some (None, None)
    /\ GridRange._label (GridRange.self st) = Some title
    /\ GridRange._worksheet_title (GridRange.self st) = Some title.
Proof. apply init_label_title. Qed.

Lemma init_label_without_cells_witness :
  exists st,
    GridRange.__init__ (Some "Sheet1") None Address.Falsy Address.Falsy
      None None None = Ok st
    /\ GridRange.start_value st = Some (None, None)
    /\ GridRange.end_value st = Some (None, None)
    /\ GridRange._label (GridRange.self st) = Some "Sheet1"
    /\ GridRange._worksheet_title (GridRange.self st) = Some "Sheet1".
Proof. apply init_label_without_cells; reflexivity. Defined.

(** X21. A label that names one cell after the exclamation mark, with no
    colon, cannot be made into a GridRange: for every title without an
    exclamation mark and every cell (r, c) with r, c at least 1, the
    constructor raises InvalidArgumentValue on title!cell. *)
Theorem init_label_single_cell_rejected (title : string) (r c : Z) :
  Py.contains "!" title = false -> 1 <= r -> 1 <= c ->
  exists a,
    Address.label (Address.mk (Some r, Some c) true) = Ok a
    /\ GridRange.__init__ (Some (title +:+ "!" +:+ a)) None
         Address.Falsy Address.Falsy None None None
       = Raise InvalidArgumentValue.
Proof.
  intros Ht Hr Hc.
  destruct (cell_label r c Hr Hc) as (a & Ha & Ea & Ca & Pa).
  exists a. split; [exact Ha |].
  now apply (init_label_cell title r c a).
Qed.

Lemma init_label_single_cell_rejected_witness :
  exists a,
    Address.label (Address.mk (Some 1, Some 1) true) = Ok a
    /\ GridRange.__init__ (Some ("Sheet1" +:+ "!" +:+ a)) None
         Address.Falsy Address.Falsy None None None
       = Raise InvalidArgumentValue.
Proof. apply init_label_single_cell_rejected; [reflexivity | lia | lia]. Defined.

(** X22. Equality of ranges is equality of labels, and for ranges of cells
    that is equality of title and cells: two GridRanges constructed from
    titles without an exclamation mark and cells with 1 <= r1 <= r2,
    1 <= c1 <= c2 compare equal exactly when the titles and the four
    coordinates are equal; the worksheet ids play no part. *)
Theorem range_eq_cells
  (t t' : string) (wid wid' : option Z)
  (r1 c1 r2 c2 r1' c1' r2' c2' : Z) (st st' : GridRange.state) :
  Py.contains "!" t = false -> Py.contains "!" t' = false ->
  1 <= r1 <= r2 -> 1 <= c1 <= c2 -> 1 <= r1' <= r2' -> 1 <= c1' <= c2' ->
  GridRange.__init__ None None
    (Address.Tuple (Some r1) (Some c1)) (Address.Tuple (Some r2) (Some c2))
    (Some t) wid None = Ok st ->
  GridRange.__init__ None None
    (Address.Tuple (Some r1') (Some c1')) (Address.Tuple (Some r2') (Some c2'))
    (Some t') wid' None = Ok st' ->
  GridRange.__eq__ st (GridRange.CRange st')
  = bool_decide ((t, r1, c1, r2, c2) = (t', r1', c1', r2', c2')).
Proof.
  intros Ht Ht' Hr Hc Hr' Hc' Hst Hst'.
  destruct (cell_label r1 c1 ltac:(lia) ltac:(lia)) as (a & Ha & Ea & Ca & _).
  destruct (cell_label r2 c2 ltac:(lia) ltac:(lia)) as (b & Hb & Eb & Cb & _).
  destruct (cell_label r1' c1' ltac:(lia) ltac:(lia))
    as (a' & Ha' & Ea' & Ca' & _).
  destruct (cell_label r2' c2' ltac:(lia) ltac:(lia))
    as (b' & Hb' & Eb' & Cb' & _).
  pose proof (init_cells_label_id t wid r1 c1 r2 c2 a b st Hr Hc Ha Hb Hst)
    as L.
  pose proof (init_cells_label_id t' wid' r1' c1' r2' c2' a' b' st'
                Hr' Hc' Ha' Hb' Hst') as L'.
  unfold GridRange.__eq__. rewrite L, L'.
  destruct (bool_decide ((t, r1, c1, r2, c2) = (t', r1', c1', r2', c2')))
    eqn:E.
  - apply bool_decide_eq_true in E. injection E as -> -> -> -> ->.
    apply bool_decide_eq_true. congruence.
  - apply bool_decide_eq_false in E. apply bool_decide_eq_false.
    intros [= H]. apply E.
    destruct (range_label_inj t t' a a' b b') as (-> & -> & ->);
      try assumption.
    destruct (cell_label_inj r1 c1 r1' c1' true true a') as [-> ->];
      try assumption; try lia.
    destruct (cell_label_inj r2 c2 r2' c2' true true b') as [-> ->];
      try assumption; try lia.
    reflexivity.
Qed.

Lemma range_eq_cells_witness :
  match
    GridRange.__init__ None None
      (Address.Tuple (Some 1) (Some 1)) (Address.Tuple (Some 3) (Some 3))
      (Some "Sheet1") (Some 5) None,
    GridRange.__init__ None None
      (Address.Tuple (Some 1) (Some 1)) (Address.Tuple (Some 3) (Some 3))
      (Some "Sheet1") (Some 9) None
  with
  | Ok st, Ok st' => GridRange.__eq__ st (GridRange.CRange st') = true
  | _, _ => False
  end.
Proof.
  destruct (GridRange.__init__ None None
              (Address.Tuple (Some 1) (Some 1))
              (Address.Tuple (Some 3) (Some 3))
              (Some "Sheet1") (Some 5) None) as [st|x] eqn:E;
    [| vm_compute in E; discriminate].
  destruct (GridRange.__init__ None None
              (Address.Tuple (Some 1) (Some 1))
              (Address.Tuple (Some 3) (Some 3))
              (Some "Sheet1") (Some 9) None) as [st'|x] eqn:E';
    [| vm_compute in E'; discriminate].
  apply (range_eq_cells "Sheet1" "Sheet1" (Some 5) (Some 9) 1 1 3 3 1 1 3 3
           st st'); first [reflexivity | lia | assumption].
Defined.

(** * Address from Address, and setters on an unbound range *)

Section Copy.

Lemma truthy_ok (v : option Z) :
  coordinate_ok v -> Py.truthy v = negb (Py.is_none v).
Proof.
  destruct v as [n|]; cbn; [| reflexivity].
  intros Hn. destruct (n =? 0) eqn:E; [lia | reflexivity].
Qed.

(** The label of a valid Address with coordinates absent or at least 1
    parses to its coordinates. *)
Lemma parse_own_label (a : Address.t) (lab : string) :
  coordinate_ok (Address.row a) -> coordinate_ok (Address.col a) ->
  Address._validate a = Ok tt ->
  Address.label a = Ok lab ->
  Address._label_to_coordinates true lab = Ok (Address._value a).
Proof.
  intros Hr Hc Hv Hl.
  destruct (label_parts a Hv) as (cl & dl & Hl' & Hcl & Hdl).
  rewrite Hl in Hl'. injection Hl' as ->.
  rewrite (truthy_ok _ Hc) in Hcl. rewrite (truthy_ok _ Hr) in Hdl.
  destruct a as [[row col] f]. unfold Address.row, Address.col in *.
  cbn [Address._value fst snd] in *.
  assert (Hcol : all_chars is_upper cl = true
                 /\ (if Py.nonempty cl then Some (col_of cl) else None) = col).
  { destruct col as [c|]; cbn [negb Py.is_none] in Hcl.
    - destruct Hcl as (c' & Ec & Hc1 & Hloop).
      assert (c' = c) as -> by congruence.
      destruct (column_loop_spec (Py.bits c) c) as (s & Hs & Hup & Hval & Hne).
      { split; [lia | apply bits_bound; lia]. }
      assert (s = cl) as -> by congruence.
      split; [exact Hup |]. rewrite Hne by lia. now rewrite Hval.
    - subst cl. auto. }
  assert (Hrow : all_chars Py.is_digit dl = true
                 /\ (if Py.nonempty dl then Some (Py.int dl) else None) = row).
  { destruct row as [r|]; cbn [negb Py.is_none] in Hdl.
    - destruct Hdl as (r' & Er & Hr1 & ->).
      assert (r' = r) as -> by congruence.
      assert (Hr0 : 0 <= r) by lia.
      destruct (str_spec r Hr0) as (Hd & Hne & Hint).
      split; [exact Hd |]. now rewrite Hne, Hint.
    - subst dl. auto. }
  destruct Hcol as [Hup Hcol], Hrow as [Hdig Hrow].
  rewrite (label_to_coordinates_parts cl dl Hup Hdig).
  now rewrite Hcol, Hrow.
Qed.

End Copy.

(** X23. An Address made from an Address: for a valid Address whose
    coordinates are absent or at least 1, Address(a, allow_non_single=True)
    holds the coordinates of a. *)
Theorem address_of_address (a : Address.t) :
  coordinate_ok (Address.row a) -> coordinate_ok (Address.col a) ->
  Address._validate a = Ok tt ->
  Address.__init__ (Address.Addr a) true
  = Ok (Address.mk (Address._value a) true).
Proof.
  intros Hr Hc Hv. cbn [Address.__init__].
  destruct (negb (Address.__bool__ a) && true) eqn:Eb.
  - destruct a as [[[r|] [c|]] f]; try discriminate. reflexivity.
  - destruct (label_total a Hv) as [lab Hl]. rewrite Hl. cbn [rbind].
    now rewrite (parse_own_label a lab Hr Hc Hv Hl).
Qed.

Lemma address_of_address_witness :
  Address.__init__ (Address.Addr (Address.mk (None, Some 28) true)) true
  = Ok (Address.mk (None, Some 28) true).
Proof.
  apply (address_of_address (Address.mk (None, Some 28) true));
    first [exact I | reflexivity | cbn; lia].
Defined.

Section SettersOnUnbound.

Import GridRange.
Local Open Scope gr_scope.

Implicit Types (st : state).

Lemma init_cell (r c : Z) :
  1 <= r -> 1 <= c ->
  Address.__init__ (Address.Tuple (Some r) (Some c)) true
  = Ok (Address.mk (Some r, Some c) true).
Proof.
  intros Hr Hc. cbn [Address.__init__]. now rewrite validate_bound.
Qed.

(** Setting a cell as end of a range whose start is wholly unbound. *)
Lemma end_set_unbound_start st (s : Address.t) (r c : Z) :
  store st !! _start (self st) = Some s ->
  Address.__bool__ s = false ->
  1 <= r -> 1 <= c ->
  exists st',
    end_set (Address.Tuple (Some r) (Some c)) st = (Ok tt, st')
    /\ _start (self st') = _end (self st')
    /\ start_value st' = Some (Some r, Some c)
    /\ end_value st' = Some (Some r, Some c).
Proof.
  intros Ls Hb Hr Hc. unfold end_set. rewrite (init_cell r c Hr Hc).
  set (a := Address.mk (Some r, Some c) true).
  pose proof (lookup_lt_Some _ _ _ Ls) as Hlt.
  destruct st as [sto [t i w l ls le]]. cbn in Ls, Hlt.
  set (st2 := mkState (sto ++ [a]) (mk t i w l ls (length sto))).
  assert (Hrun : forall k : M unit,
    (e0 <-- new (Ok a) ;; set_end_field e0 ;;; k)
      (mkState sto (mk t i w l ls le)) = k st2) by reflexivity.
  rewrite Hrun.
  assert (Ls2 : store st2 !! _start (self st2) = Some s).
  { cbn. now rewrite lookup_app_l. }
  assert (Le2 : store st2 !! _end (self st2) = Some a).
  { cbn. now rewrite list_lookup_middle. }
  set (st3 := mkState (sto ++ [a])
                (mk t i w l (length sto) (length sto))).
  assert (Hnorm : normalize "start" st2 = (Ok tt, st3)).
  { unfold normalize. erewrite bind_eq by reflexivity.
    erewrite bind_eq by (apply start_obj_run; exact Ls2).
    erewrite bind_eq by (apply end_obj_run; exact Le2).
    cbn [String.eqb Ascii.eqb Bool.eqb]. rewrite Hb. reflexivity. }
  assert (L3 : store st3 !! _start (self st3) = Some a).
  { cbn. now rewrite list_lookup_middle. }
  assert (Va : Address._validate a = Ok tt) by now apply validate_bound.
  destruct (calculate_label_ok st3 a a L3 L3 Va Va)
    as (st4 & Hl4 & Hs4 & Hst4 & Hen4).
  assert (L4 : store st4 !! _start (self st4) = Some a)
    by now rewrite Hs4, Hst4.
  assert (L4' : store st4 !! _end (self st4) = Some a)
    by now rewrite Hs4, Hen4.
  destruct (calculate_label_ok st4 a a L4 L4' Va Va)
    as (st5 & Hl5 & Hs5 & Hst5 & Hen5).
  assert (Hcheck : check "start" st3 = (Ok tt, st4)).
  { unfold check. erewrite bind_eq by reflexivity.
    erewrite bind_eq by (apply start_obj_run; exact L3).
    erewrite bind_eq by (apply end_obj_run; exact L3).
    rewrite mismatch_same. subst a.
    cbn [Address.__bool__ Address.__getitem__ Address.row Address.col
         Address._value fst snd Py.is_none andb negb].
    rewrite !truthy_pos by assumption. unfold assert_le.
    rewrite !Z.leb_refl. exact Hl4. }
  assert (Happly : _apply_index_constraints "start" st2 = (Ok tt, st4)).
  { rewrite (apply_index_constraints_unfold "start" st2 s a Ls2 Le2).
    rewrite Hb. cbn [negb andb Address.__bool__ Address.row Address.col
                     Address._value fst snd Py.is_none a].
    erewrite bind_eq by exact Hnorm. exact Hcheck. }
  exists st5. split.
  - erewrite bind_eq by exact Happly. exact Hl5.
  - unfold start_value, end_value.
    rewrite Hs5, Hst5, Hen5, Hs4, Hst4, Hen4. cbn.
    now rewrite list_lookup_middle.
Qed.

(** Setting a cell as start of a range whose end is wholly unbound. *)
Lemma start_set_unbound_end st (e : Address.t) (r c : Z) :
  store st !! _end (self st) = Some e ->
  Address.__bool__ e = false ->
  1 <= r -> 1 <= c ->
  exists st',
    start_set (Address.Tuple (Some r) (Some c)) st
    = (Raise InvalidArgumentValue, st')
    /\ _start (self st') = _end (self st')
    /\ start_value st' = Some (None, Some c).
Proof.
  intros Le Hb Hr Hc. unfold start_set. rewrite (init_cell r c Hr Hc).
  set (a := Address.mk (Some r, Some c) true).
  pose proof (lookup_lt_Some _ _ _ Le) as Hlt.
  destruct st as [sto [t i w l ls le]]. cbn in Le, Hlt.
  set (st2 := mkState (sto ++ [a]) (mk t i w l (length sto) le)).
  assert (Hrun : forall k : M unit,
    (s0 <-- new (Ok a) ;; set_start_field s0 ;;; k)
      (mkState sto (mk t i w l ls le)) = k st2) by reflexivity.
  rewrite Hrun.
  assert (Ls2 : store st2 !! _start (self st2) = Some a).
  { cbn. now rewrite list_lookup_middle. }
  assert (Le2 : store st2 !! _end (self st2) = Some e).
  { cbn. now rewrite lookup_app_l. }
  assert (He : e = Address.mk (None, None) (Address.allow_non_single e)).
  { destruct e as [[[?|] [?|]] f]; try discriminate. reflexivity. }
  destruct (unbind_both st2 0 a e Ls2 Le2) as (st3 & Hn & Hself & L3s & L3e).
  assert (Hnorm : normalize "start" st2 = (Ok tt, st3)).
  { unfold normalize. erewrite bind_eq by reflexivity.
    erewrite bind_eq by (apply start_obj_run; exact Ls2).
    erewrite bind_eq by (apply end_obj_run; exact Le2).
    cbn [String.eqb Ascii.eqb Bool.eqb]. rewrite He. exact Hn. }
  rewrite <- Hself in L3s, L3e.
  assert (Hm : mismatch (unbind a 0) (unbind e 0) = true).
  { rewrite He. unfold mismatch. cbn.
    destruct (c =? 0) eqn:E; [lia | reflexivity]. }
  destruct (check_mismatch "start" st3 _ _ L3s L3e Hm)
    as (st4 & Hc4 & Hs4 & Hst4 & Hen4).
  assert (Happly : _apply_index_constraints "start" st2
                   = (Raise InvalidArgumentValue, st4)).
  { rewrite (apply_index_constraints_unfold "start" st2 a e Ls2 Le2).
    rewrite Hb. cbn [negb andb Address.__bool__ Address.row Address.col
                     Address._value fst snd Py.is_none a].
    erewrite bind_eq by exact Hnorm. exact Hc4. }
  exists st4. split.
  - erewrite bind_raise_eq by exact Happly. reflexivity.
  - split; [now rewrite Hen4 |].
    unfold start_value. rewrite Hs4, Hst4. cbn [String.eqb Ascii.eqb Bool.eqb].
    now rewrite L3s.
Qed.

End SettersOnUnbound.

(** X24. Setting end to a cell on a range whose start is wholly unbound
    gives the range of that one cell: the setter returns, start and end
    are one and the same Address object, and both read (r, c). *)
Theorem end_set_on_unbound_start
  (st : GridRange.state) (s : Address.t) (r c : Z) :
  GridRange.store st !! GridRange._start (GridRange.self st) = Some s ->
  Address.__bool__ s = false ->
  1 <= r -> 1 <= c ->
  exists st',
    GridRange.end_set (Address.Tuple (Some r) (Some c)) st = (Ok tt, st')
    /\ GridRange._start (GridRange.self st') = GridRange._end (GridRange.self st')
    /\ GridRange.start_value st' = Some (Some r, Some c)
    /\ GridRange.end_value st' = Some (Some r, Some c).
Proof. apply end_set_unbound_start. Qed.

Lemma end_set_on_unbound_start_witness :
  exists st',
    GridRange.end_set (Address.Tuple (Some 2) (Some 3))
      (range_state None None None (None, None) (None, None)) = (Ok tt, st')
    /\ GridRange._start (GridRange.self st') = GridRange._end (GridRange.self st')
    /\ GridRange.start_value st' = Some (Some 2, Some 3)
    /\ GridRange.end_value st' = Some (Some 2, Some 3).
Proof.
  apply (end_set_on_unbound_start _ (Address.mk (None, None) true));
    first [reflexivity | lia].
Defined.

(** X25. Setting start to a cell on a range whose end is wholly unbound
    fails: the setter raises InvalidArgumentValue, and leaves start and
    end as one Address object that holds the column of the cell and no
    row. *)
Theorem start_set_on_unbound_end
  (st : GridRange.state) (e : Address.t) (r c : Z) :
  GridRange.store st !! GridRange._end (GridRange.self st) = Some e ->
  Address.__bool__ e = false ->
  1 <= r -> 1 <= c ->
  exists st',
    GridRange.start_set (Address.Tuple (Some r) (Some c)) st
    = (Raise InvalidArgumentValue, st')
    /\ GridRange._start (GridRange.self st') = GridRange._end (GridRange.self st')
    /\ GridRange.start_value st' = Some (None, Some c).
Proof. apply start_set_unbound_end. Qed.

Lemma start_set_on_unbound_end_witness :
  exists st',
    GridRange.start_set (Address.Tuple (Some 2) (Some 3))
      (range_state None None None (None, None) (None, None))
    = (Raise InvalidArgumentValue, st')
    /\ GridRange._start (GridRange.self st') = GridRange._end (GridRange.self st')
    /\ GridRange.start_value st' = Some (None, Some 3).
Proof.
  apply (start_set_on_unbound_end _ (Address.mk (None, None) true));
    first [reflexivity | lia].
Defined.
